(** * Join engine of the SQL JOIN visualizer

    Shallow embedding of [execute_join] from [SQLapp2.py] and
    [JOINDATASETSV1.py], and of the sample tables both files build.

    Both functions are a chain of string comparisons on [join_type]; each
    branch calls the dataframe primitive [pd.merge] and, for the three
    "WITH NULL" variants, filters the merged frame with a boolean mask
    obtained from [isna()] on one or two of its columns.

    The dataframe primitives are modelled by their documented contract:
    - a frame is its list of column labels and its list of rows; it stands
      for the frame [pd.DataFrame] or [pd.read_csv] builds from these
      cells, whose labels are pairwise different and whose column types are
      the inferred ones: [int64] for integers only, [float64] for integers
      with missing cells, [object] as soon as a cell is a string;
    - [merge] looks the two key labels up (a [KeyError] otherwise, the
      right key first), refuses to merge a numeric key column with a key
      column of strings (a [ValueError]), pairs the rows whose key cells
      are equal (two missing keys are equal to each other for [merge]; an
      [int64] key column and a [float64] key column are compared as
      [float64]), pads the side without a partner with missing cells,
      which turns the [int64] columns of that side into [float64], keeps a
      single key column when both keys have the same label, renames any
      other label present on both sides with the suffixes [_x] and [_y]
      and refuses a renaming that repeats a label (a [MergeError]);
    - the row order is the documented one: [inner] and [left] follow the
      left frame, [right] follows the right frame, [outer] is ordered by
      key;
    - the columns of the merged frame are those of the left frame followed
      by those of the right frame; [execute_join] reads the merged frame
      by label only.
    Cells are integers, strings or the missing marker.  A number is
    written as the integer it is equal to, whether an [int64] or a
    [float64] column holds it; numbers with a fractional part, booleans
    and dates are not part of the model. *)

From Stdlib Require Import String Ascii ZArith Bool Lia Permutation List.
Import ListNotations.

(** ** Cells *)

Inductive value : Type :=
| VInt (z : Z)
| VStr (s : string)
| NaN.

Definition isna_value (v : value) : bool :=
  match v with NaN => true | _ => false end.

(** Equality of two key cells as [merge] sees it: a missing key is equal to
    a missing key. *)
Definition value_eqb (u v : value) : bool :=
  match u, v with
  | VInt a, VInt b => Z.eqb a b
  | VStr a, VStr b => String.eqb a b
  | NaN, NaN => true
  | _, _ => false
  end.

(** Order of two key cells, used by the [outer] merge: numbers by value,
    strings lexicographically, the missing marker last. *)
Definition value_leb (u v : value) : bool :=
  match u, v with
  | VInt a, VInt b => Z.leb a b
  | VStr a, VStr b => String.leb a b
  | VInt _, VStr _ => true
  | VStr _, VInt _ => false
  | _, NaN => true
  | NaN, _ => false
  end.

(** ** Exceptions and results *)

Inductive exn : Type :=
| KeyError (label : string)
| IndexError
| ValueError
| MergeError.

Inductive Result (A : Type) : Type :=
| Ok (a : A)
| Raise (e : exn).

Arguments Ok {A} a.
Arguments Raise {A} e.

Definition bind {A B : Type} (c : Result A) (k : A -> Result B) : Result B :=
  match c with
  | Ok a => k a
  | Raise e => Raise e
  end.

Notation "x <- c ;; k" := (bind c (fun x => k))
  (at level 61, c at next level, right associativity).

(** ** Frames *)

Definition Row : Type := list value.

Record DataFrame : Type := mkDataFrame {
  columns : list string;
  rows : list Row
}.

(** Every row has one cell per column. *)
Definition well_formed (df : DataFrame) : Prop :=
  Forall (fun r => length r = length (columns df)) (rows df).

Definition cell (r : Row) (n : nat) : value := nth n r NaN.

Fixpoint index_of (c : string) (l : list string) : option nat :=
  match l with
  | [] => None
  | x :: t => if String.eqb c x then Some 0 else option_map S (index_of c t)
  end.

Definition has_label (c : string) (l : list string) : bool :=
  existsb (String.eqb c) l.

Fixpoint remove_nth {A : Type} (n : nat) (l : list A) {struct l} : list A :=
  match l, n with
  | [], _ => []
  | _ :: t, O => t
  | x :: t, S m => x :: remove_nth m t
  end.

Fixpoint set_nth {A : Type} (n : nat) (v : A) (l : list A) {struct l}
    : list A :=
  match l, n with
  | [], _ => []
  | _ :: t, O => v :: t
  | x :: t, S m => x :: set_nth m v t
  end.

(** [df.columns[n]] *)
Definition columns_at (df : DataFrame) (n : nat) : Result string :=
  match nth_error (columns df) n with
  | Some c => Ok c
  | None => Raise IndexError
  end.

(** [df[c]]: the cells of column [c], one per row. *)
Definition getitem (df : DataFrame) (c : string) : Result (list value) :=
  match index_of c (columns df) with
  | Some n => Ok (map (fun r => cell r n) (rows df))
  | None => Raise (KeyError c)
  end.

(** [s.isna()] *)
Definition isna (s : list value) : list bool := map isna_value s.

(** [m1 | m2] on two boolean masks of one frame. *)
Definition mask_or (m1 m2 : list bool) : list bool :=
  map (fun p => orb (fst p) (snd p)) (combine m1 m2).

(** [df[mask]]: the rows whose mask entry is [true]. *)
Definition getitem_mask (df : DataFrame) (mask : list bool) : DataFrame :=
  mkDataFrame (columns df) (map snd (filter fst (combine mask (rows df)))).

(** ** Column types *)

(** The type of a column as [pd.DataFrame] and [pd.read_csv] infer it
    from its cells. *)
Inductive dtype : Type := Int64 | Float64 | Object.

Definition is_str (v : value) : bool :=
  match v with VStr _ => true | _ => false end.

Definition is_int (v : value) : bool :=
  match v with VInt _ => true | _ => false end.

Definition dtype_of (cells : list value) : dtype :=
  match cells with
  | [] => Object
  | _ => if existsb is_str cells then Object
         else if existsb isna_value cells then Float64
         else Int64
  end.

(** The cells of the column at position [n]. *)
Definition column (df : DataFrame) (n : nat) : list value :=
  map (fun r => cell r n) (rows df).

(** The integer a [float64] holds after the conversion of the integer [n]:
    [n] itself when it has at most 53 significant bits, otherwise [n]
    rounded to 53 significant bits, a tie going to the even neighbour. *)
Definition to_float (n : Z) : Z :=
  let a := Z.abs n in
  let e := Z.log2 a in
  if Z.ltb e 53 then n
  else
    let s := (e - 52)%Z in
    let q := Z.shiftr a s in
    let r := (a - Z.shiftl q s)%Z in
    let half := Z.shiftl 1 (s - 1) in
    let q' := if Z.ltb r half then q
              else if Z.ltb half r then (q + 1)%Z
              else if Z.even q then q else (q + 1)%Z in
    (Z.sgn n * Z.shiftl q' s)%Z.

(** A cell after the conversion of its column to [float64]. *)
Definition float_value (v : value) : value :=
  match v with
  | VInt n => VInt (to_float n)
  | _ => v
  end.

(** ** The merge primitive *)

Inductive How : Type := HowInner | HowOuter | HowLeft | HowRight.

(** A row together with its position in its frame. *)
Definition IRow : Type := (nat * Row)%type.

Definition enum {A : Type} (l : list A) : list (nat * A) :=
  combine (seq 0 (length l)) l.

(** One output row of a merge: the left row and the right row it is made
    of, [None] standing for the side that has no partner. *)
Definition Pairing : Type := (option IRow * option IRow)%type.

(** The side of a pairing that has no row. *)
Definition is_none {A : Type} (o : option A) : bool :=
  match o with None => true | Some _ => false end.

Section Pairings.

(** Key cell of a left row and of a right row. *)
Variables kl kr : Row -> value.

Definition key_match (a b : IRow) : bool :=
  value_eqb (kl (snd a)) (kr (snd b)).

Definition partners_in_right (a : IRow) (R : list IRow) : list IRow :=
  filter (key_match a) R.

Definition partners_in_left (b : IRow) (L : list IRow) : list IRow :=
  filter (fun a => key_match a b) L.

Definition inner_pairs (L R : list IRow) : list Pairing :=
  flat_map (fun a => map (fun b => (Some a, Some b))
                         (partners_in_right a R)) L.

Definition left_pairs (L R : list IRow) : list Pairing :=
  flat_map (fun a => match partners_in_right a R with
                     | [] => [(Some a, None)]
                     | bs => map (fun b => (Some a, Some b)) bs
                     end) L.

Definition right_pairs (L R : list IRow) : list Pairing :=
  flat_map (fun b => match partners_in_left b L with
                     | [] => [(None, Some b)]
                     | la => map (fun a => (Some a, Some b)) la
                     end) R.

Definition right_only (L R : list IRow) : list Pairing :=
  flat_map (fun b => match partners_in_left b L with
                     | [] => [(None, Some b)]
                     | _ => []
                     end) R.

Definition pair_key (p : Pairing) : value :=
  match p with
  | (Some a, _) => kl (snd a)
  | (None, Some b) => kr (snd b)
  | (None, None) => NaN
  end.

Fixpoint insert_by_key (p : Pairing) (l : list Pairing) : list Pairing :=
  match l with
  | [] => [p]
  | q :: t => if value_leb (pair_key p) (pair_key q)
              then p :: q :: t
              else q :: insert_by_key p t
  end.

(** Stable sort on the key. *)
Fixpoint sort_by_key (l : list Pairing) : list Pairing :=
  match l with
  | [] => []
  | p :: t => insert_by_key p (sort_by_key t)
  end.

Definition outer_pairs (L R : list IRow) : list Pairing :=
  sort_by_key (left_pairs L R ++ right_only L R).

Definition join_pairs (how : How) (L R : list IRow) : list Pairing :=
  match how with
  | HowInner => inner_pairs L R
  | HowOuter => outer_pairs L R
  | HowLeft => left_pairs L R
  | HowRight => right_pairs L R
  end.

(** What a pairing can be: a pair of rows with equal keys, a left row
    no right row matches, or a right row no left row matches. *)
Definition matched_pair (L R : list IRow) (p : Pairing) : Prop :=
  exists a b, p = (Some a, Some b) /\ In a L /\ In b R /\
              key_match a b = true.

Definition left_alone (L R : list IRow) (p : Pairing) : Prop :=
  exists a, p = (Some a, None) /\ In a L /\
            existsb (key_match a) R = false.

Definition right_alone (L R : list IRow) (p : Pairing) : Prop :=
  exists b, p = (None, Some b) /\ In b R /\
            existsb (fun a => key_match a b) L = false.

End Pairings.

(** The output row of a pairing.  [shared] says that the two keys have the
    same label: the right key column is then dropped and the single key
    column also receives the key of a right row without partner.  [i] and
    [j] are the positions of the key columns, [nl] and [nr] the numbers of
    cells of the left part and of the right part. *)
Definition join_row (shared : bool) (i j nl nr : nat) (p : Pairing) : Row :=
  let lpart :=
    match fst p with
    | Some a => snd a
    | None =>
        match snd p with
        | Some b => if shared then set_nth i (cell (snd b) j) (repeat NaN nl)
                    else repeat NaN nl
        | None => repeat NaN nl
        end
    end in
  let rpart :=
    match snd p with
    | Some b => if shared then remove_nth j (snd b) else snd b
    | None => repeat NaN nr
    end in
  lpart ++ rpart.

Definition suffixed (other : list string) (sfx : string) (c : string)
    : string :=
  if has_label c other then String.append c sfx else c.

(** The pairings of a merge whose key columns are at positions [i] and
    [j]. *)
Definition merge_pairs (left right : DataFrame) (i j : nat) (how : How)
    : list Pairing :=
  join_pairs (fun r => cell r i) (fun r => cell r j) how
             (enum (rows left)) (enum (rows right)).

(** The labels the right frame contributes: its key column is dropped when
    the two keys have the same label. *)
Definition right_labels (shared : bool) (j : nat) (right : DataFrame)
    : list string :=
  if shared then remove_nth j (columns right) else columns right.

(** *** The checks of [merge] *)

(** A key column [merge] takes for numbers, and one it takes for strings:
    a column with strings and integers mixed is neither. *)
Definition numeric_key (k : list value) : bool := negb (existsb is_str k).

Definition string_key (k : list value) : bool :=
  existsb is_str k && negb (existsb is_int k).

(** [merge] refuses to compare numbers with strings, unless one of the
    two frames has no row. *)
Definition keys_rejected (lk rk : list value) : bool :=
  match lk, rk with
  | [], _ => false
  | _, [] => false
  | _, _ => (numeric_key lk && string_key rk) ||
            (string_key lk && numeric_key rk)
  end.

(** An [int64] key column and a [float64] key column are compared as
    [float64]. *)
Definition float_keys (lk rk : list value) : bool :=
  match dtype_of lk, dtype_of rk with
  | Int64, Float64 => true
  | Float64, Int64 => true
  | _, _ => false
  end.

Definition key_cast (lk rk : list value) : value -> value :=
  if float_keys lk rk then float_value else fun v => v.

(** [labels.duplicated()]: the labels that repeat an earlier one. *)
Fixpoint duplicated (seen l : list string) : list bool :=
  match l with
  | [] => []
  | x :: t => has_label x seen :: duplicated (x :: seen) t
  end.

(** The renamed labels that repeat an earlier one where the original ones
    do not. *)
Definition caused_by_suffix (orig renamed : list string) : list string :=
  map fst
    (filter (fun e => fst (snd e) && negb (snd (snd e)))
       (combine renamed
          (combine (duplicated [] renamed) (duplicated [] orig)))).

(** The labels repeated because of a suffix: within one side, or a renamed
    label of one side that is a label the other side keeps as it is. *)
Definition suffix_dups (left right : list string) : list string :=
  let llabels := map (suffixed right "_x") left in
  let rlabels := map (suffixed left "_y") right in
  caused_by_suffix left llabels ++ caused_by_suffix right rlabels ++
  filter (fun c => has_label c
            (filter (fun d => negb (has_label d left)) right)) llabels ++
  filter (fun c => has_label c
            (filter (fun d => negb (has_label d right)) left)) rlabels.

(** *** The cells of the merged frame *)

(** The conversion of the cells at position [n] of the merged frame.  A
    column of integers of a side that has a row without partner to pad is
    converted to [float64].  The single key column of two keys with the
    same label is that of the left frame; when some but not all rows lack
    a left row it takes the common type of the two key columns. *)
Definition merged_conv (left right : DataFrame) (shared : bool) (i j : nat)
    (pairs : list Pairing) (n : nat) : value -> value :=
  let lmiss := existsb (fun p => is_none (fst p)) pairs in
  let rmiss := existsb (fun p => is_none (snd p)) pairs in
  let nl := length (columns left) in
  let to_float64 (pad : bool) (cells : list value) : value -> value :=
    match dtype_of cells with
    | Int64 => if pad then float_value else fun v => v
    | _ => fun v => v
    end in
  if Nat.ltb n nl then
    if shared && Nat.eqb n i then
      if lmiss && negb (forallb (fun p => is_none (fst p)) pairs)
         && float_keys (column left i) (column right j)
      then float_value else fun v => v
    else to_float64 lmiss (column left n)
  else
    let m := n - nl in
    to_float64 rmiss
      (column right (if shared && Nat.leb j m then S m else m)).

(** A row whose cell at position [n] is converted by [f n]. *)
Definition convert (f : nat -> value -> value) (r : Row) : Row :=
  map (fun e => f (fst e) (snd e)) (enum r).

(** [pd.merge(left, right, left_on=left_on, right_on=right_on, how=how)] *)
Definition merge (left right : DataFrame) (left_on right_on : string)
    (how : How) : Result DataFrame :=
  match index_of right_on (columns right) with
  | None => Raise (KeyError right_on)
  | Some j =>
      match index_of left_on (columns left) with
      | None => Raise (KeyError left_on)
      | Some i =>
          let lk := column left i in
          let rk := column right j in
          if keys_rejected lk rk then Raise ValueError
          else
            let shared := String.eqb left_on right_on in
            let rcols := right_labels shared j right in
            match suffix_dups (columns left) rcols with
            | _ :: _ => Raise MergeError
            | [] =>
                let cast := key_cast lk rk in
                let pairs :=
                  join_pairs (fun r => cast (cell r i))
                             (fun r => cast (cell r j)) how
                             (enum (rows left)) (enum (rows right)) in
                Ok (mkDataFrame
                      (map (suffixed rcols "_x") (columns left)
                       ++ map (suffixed (columns left) "_y") rcols)
                      (map (fun p =>
                              convert
                                (merged_conv left right shared i j pairs)
                                (join_row shared i j
                                   (length (columns left))
                                   (length rcols) p))
                           pairs))
            end
      end
  end.

(** [pd.merge(left, right, on=on, how=how)] *)
Definition merge_on (left right : DataFrame) (on : string) (how : How)
    : Result DataFrame :=
  merge left right on on how.

(** ** Text and the table of join types *)

(** [c.lower()] for a character of the ASCII range. *)
Definition lower_char (c : ascii) : ascii :=
  let n := nat_of_ascii c in
  if andb (Nat.leb 65 n) (Nat.leb n 90) then ascii_of_nat (n + 32) else c.

(** [s.lower()], for a string of ASCII characters. *)
Fixpoint lower (s : string) : string :=
  match s with
  | EmptyString => EmptyString
  | String c t => String (lower_char c) (lower t)
  end.

(** [s.replace(old, new)] for one-character [old] and [new]. *)
Fixpoint replace_char (old new : ascii) (s : string) : string :=
  match s with
  | EmptyString => EmptyString
  | String c t =>
      String (if Ascii.eqb c old then new else c) (replace_char old new t)
  end.

(** The end of a line and the indentation of a line of the triple-quoted
    texts of [main]. *)
Definition newline : string := String (ascii_of_nat 10) EmptyString.

Definition indent12 : string := "            ".

(** A triple-quoted text: a line break, then each line indented and
    ended, then the indentation of the closing quotes. *)
Definition text_block (lines : list string) : string :=
  String.append newline
    (fold_right (fun l r => String.append indent12
                              (String.append l (String.append newline r)))
                indent12 lines).

(** An entry of the dictionary [joins] of [main]. *)
Record JoinInfo : Type := mkJoinInfo {
  query : string;
  sets : nat * nat * nat;
  colors : list (string * string);
  description : string
}.

(** ** The sample tables *)

Definition sample_a : DataFrame :=
  mkDataFrame ["emp_id"; "name"; "department"]%string
    [ [VInt 1; VStr "John"; VStr "IT"];
      [VInt 2; VStr "Jane"; VStr "HR"];
      [VInt 3; VStr "Bob"; VStr "IT"];
      [VInt 4; VStr "Alice"; VStr "Finance"];
      [VInt 5; VStr "Charlie"; VStr "Marketing"] ].

Definition sample_b : DataFrame :=
  mkDataFrame ["emp_id"; "salary"; "bonus"]%string
    [ [VInt 2; VInt 60000; VInt 5000];
      [VInt 3; VInt 75000; VInt 7500];
      [VInt 4; VInt 65000; VInt 6000];
      [VInt 6; VInt 80000; VInt 8000];
      [VInt 7; VInt 70000; VInt 7000] ].

(** ** [SQLapp2.py] *)

Module SQLapp2.

Definition generate_sample_data : DataFrame * DataFrame :=
  (sample_a, sample_b).

Definition execute_join (df_a df_b : DataFrame) (join_type : string)
    : Result (option DataFrame) :=
  if String.eqb join_type "INNER JOIN" then
    merged <- merge_on df_a df_b "emp_id" HowInner ;;
    Ok (Some merged)
  else if String.eqb join_type "FULL JOIN" then
    merged <- merge_on df_a df_b "emp_id" HowOuter ;;
    Ok (Some merged)
  else if String.eqb join_type "FULL JOIN WITH NULLS" then
    merged <- merge_on df_a df_b "emp_id" HowOuter ;;
    sa <- getitem merged "name" ;;
    sb <- getitem merged "salary" ;;
    Ok (Some (getitem_mask merged (mask_or (isna sa) (isna sb))))
  else if String.eqb join_type "LEFT JOIN" then
    merged <- merge_on df_a df_b "emp_id" HowLeft ;;
    Ok (Some merged)
  else if String.eqb join_type "LEFT JOIN WITH NULL" then
    merged <- merge_on df_a df_b "emp_id" HowLeft ;;
    sb <- getitem merged "salary" ;;
    Ok (Some (getitem_mask merged (isna sb)))
  else if String.eqb join_type "RIGHT JOIN" then
    merged <- merge_on df_a df_b "emp_id" HowRight ;;
    Ok (Some merged)
  else if String.eqb join_type "RIGHT JOIN WITH NULL" then
    merged <- merge_on df_a df_b "emp_id" HowRight ;;
    sa <- getitem merged "name" ;;
    Ok (Some (getitem_mask merged (isna sa)))
  else Ok None.

(** The dictionary [joins] of [main], in the order of its keys. *)
Definition joins : list (string * JoinInfo) :=
  [ ("INNER JOIN",
     mkJoinInfo
       (text_block ["SELECT *"; "FROM employees A";
                    "INNER JOIN salaries B ON A.emp_id = B.emp_id"])
       (1, 1, 1)
       [("10", "white"); ("01", "white"); ("11", "#90EE90")]
       "Returns only the matching records from both tables");
    ("FULL JOIN",
     mkJoinInfo
       (text_block ["SELECT *"; "FROM employees A";
                    "FULL JOIN salaries B ON A.emp_id = B.emp_id"])
       (1, 1, 1)
       [("10", "#90EE90"); ("01", "#90EE90"); ("11", "#90EE90")]
       "Returns all records from both tables, matching where possible");
    ("FULL JOIN WITH NULLS",
     mkJoinInfo
       (text_block ["SELECT *"; "FROM employees A";
                    "FULL JOIN salaries B ON A.emp_id = B.emp_id";
                    "WHERE A.emp_id IS NULL OR B.emp_id IS NULL"])
       (1, 1, 1)
       [("10", "#90EE90"); ("01", "#90EE90"); ("11", "white")]
       "Returns only non-matching records from both tables");
    ("LEFT JOIN",
     mkJoinInfo
       (text_block ["SELECT *"; "FROM employees A";
                    "LEFT JOIN salaries B ON A.emp_id = B.emp_id"])
       (1, 1, 1)
       [("10", "#90EE90"); ("01", "white"); ("11", "#90EE90")]
       "Returns all records from table A and matching records from table B");
    ("LEFT JOIN WITH NULL",
     mkJoinInfo
       (text_block ["SELECT *"; "FROM employees A";
                    "LEFT JOIN salaries B ON A.emp_id = B.emp_id";
                    "WHERE B.emp_id IS NULL"])
       (1, 1, 1)
       [("10", "#90EE90"); ("01", "white"); ("11", "white")]
       "Returns only records from table A that don't match table B");
    ("RIGHT JOIN",
     mkJoinInfo
       (text_block ["SELECT *"; "FROM employees A";
                    "RIGHT JOIN salaries B ON A.emp_id = B.emp_id"])
       (1, 1, 1)
       [("10", "white"); ("01", "#90EE90"); ("11", "#90EE90")]
       "Returns all records from table B and matching records from table A");
    ("RIGHT JOIN WITH NULL",
     mkJoinInfo
       (text_block ["SELECT *"; "FROM employees A";
                    "RIGHT JOIN salaries B ON A.emp_id = B.emp_id";
                    "WHERE A.emp_id IS NULL"])
       (1, 1, 1)
       [("10", "white"); ("01", "#90EE90"); ("11", "white")]
       "Returns only records from table B that don't match table A")
  ]%string.

End SQLapp2.

(** ** [JOINDATASETSV1.py] *)

Module JOINDATASETSV1.

Definition load_sample_data : DataFrame * DataFrame :=
  (sample_a, sample_b).

Definition execute_join (df_a df_b : DataFrame)
    (join_type key_a key_b : string) : Result (option DataFrame) :=
  if String.eqb join_type "INNER JOIN" then
    merged <- merge df_a df_b key_a key_b HowInner ;;
    Ok (Some merged)
  else if String.eqb join_type "FULL JOIN" then
    merged <- merge df_a df_b key_a key_b HowOuter ;;
    Ok (Some merged)
  else if String.eqb join_type "FULL JOIN WITH NULLS" then
    merged <- merge df_a df_b key_a key_b HowOuter ;;
    ca <- columns_at df_a 0 ;;
    sa <- getitem merged ca ;;
    cb <- columns_at df_b 0 ;;
    sb <- getitem merged cb ;;
    Ok (Some (getitem_mask merged (mask_or (isna sa) (isna sb))))
  else if String.eqb join_type "LEFT JOIN" then
    merged <- merge df_a df_b key_a key_b HowLeft ;;
    Ok (Some merged)
  else if String.eqb join_type "LEFT JOIN WITH NULL" then
    merged <- merge df_a df_b key_a key_b HowLeft ;;
    cb <- columns_at df_b 0 ;;
    sb <- getitem merged cb ;;
    Ok (Some (getitem_mask merged (isna sb)))
  else if String.eqb join_type "RIGHT JOIN" then
    merged <- merge df_a df_b key_a key_b HowRight ;;
    Ok (Some merged)
  else if String.eqb join_type "RIGHT JOIN WITH NULL" then
    merged <- merge df_a df_b key_a key_b HowRight ;;
    ca <- columns_at df_a 0 ;;
    sa <- getitem merged ca ;;
    Ok (Some (getitem_mask merged (isna sa)))
  else Ok None.

(** The dictionary [joins] of [main] for the selected keys; it has the two
    entries the file writes out. *)
Definition joins (key_a key_b : string) : list (string * JoinInfo) :=
  [ ("INNER JOIN",
     mkJoinInfo
       (text_block
          ["SELECT *"; "FROM table_a A";
           String.append "INNER JOIN table_b B ON A."
             (String.append key_a (String.append " = B." key_b))])
       (1, 1, 1)
       [("10", "white"); ("01", "white"); ("11", "#90EE90")]
       "Returns only the matching records from both tables");
    ("FULL JOIN",
     mkJoinInfo
       (text_block
          ["SELECT *"; "FROM table_a A";
           String.append "FULL JOIN table_b B ON A."
             (String.append key_a (String.append " = B." key_b))])
       (1, 1, 1)
       [("10", "#90EE90"); ("01", "#90EE90"); ("11", "#90EE90")]
       "Returns all records from both tables, matching where possible")
  ]%string.

(** The [file_name] of the download button of [main]. *)
Definition download_file_name (selected_join : string) : string :=
  String.append "join_result_"
    (String.append (replace_char " " "_" (lower selected_join)) ".csv").

End JOINDATASETSV1.

(** * Vocabulary of the statements *)

(** The row of a pairing in the frame [merge left right left_on right_on]
    builds. *)
Definition merged_row (left right : DataFrame) (left_on right_on : string)
    (i j : nat) : Pairing -> Row :=
  join_row (String.eqb left_on right_on) i j (length (columns left))
           (length (right_labels (String.eqb left_on right_on) j right)).

(** The labels of that frame. *)
Definition merged_labels (left right : DataFrame) (left_on right_on : string)
    (j : nat) : list string :=
  map (suffixed (right_labels (String.eqb left_on right_on) j right) "_x")
      (columns left)
  ++ map (suffixed (columns left) "_y")
         (right_labels (String.eqb left_on right_on) j right).

(** ** The tables [merge] accepts *)

(** [c] is a label of [l], first at position [n]. *)
Definition first_at (c : string) (l : list string) (n : nat) : Prop :=
  nth_error l n = Some c /\ ~ In c (firstn n l).

(** A cell the conversion to [float64] leaves as it is: a string, a
    missing cell, or an integer a [float64] holds exactly (every integer
    up to 2^53 in absolute value is one). *)
Definition exact_cell (v : value) : bool := value_eqb (float_value v) v.

Definition exact_cells (df : DataFrame) : bool :=
  forallb (forallb exact_cell) (rows df).

(** Tables and keys [merge] accepts: rectangular tables, keys that are
    column labels (first at positions [i] and [j]), the labels of B
    pairwise different, key columns that are not numbers on one side and
    strings on the other, labels of the merged frame that are pairwise
    different, and integers that a [float64] holds exactly. *)
Definition mergeable (A B : DataFrame) (ka kb : string) (i j : nat) : Prop :=
  well_formed A /\ well_formed B /\
  first_at ka (columns A) i /\ first_at kb (columns B) j /\
  NoDup (columns B) /\
  keys_rejected (column A i) (column B j) = false /\
  NoDup (merged_labels A B ka kb j) /\
  exact_cells A = true /\ exact_cells B = true.

(** The same, as a test. *)
Fixpoint nodupb (l : list string) : bool :=
  match l with
  | [] => true
  | x :: t => negb (has_label x t) && nodupb t
  end.

Definition first_atb (c : string) (l : list string) (n : nat) : bool :=
  match nth_error l n with
  | Some x => String.eqb x c && negb (has_label c (firstn n l))
  | None => false
  end.

Definition well_formedb (df : DataFrame) : bool :=
  forallb (fun r => Nat.eqb (length r) (length (columns df))) (rows df).

Definition mergeableb (A B : DataFrame) (ka kb : string) (i j : nat)
    : bool :=
  well_formedb A && well_formedb B &&
  first_atb ka (columns A) i && first_atb kb (columns B) j &&
  nodupb (columns B) &&
  negb (keys_rejected (column A i) (column B j)) &&
  nodupb (merged_labels A B ka kb j) &&
  exact_cells A && exact_cells B.

(** A pairing made of rows of [L] and [R]. *)
Definition from_rows (L R : list IRow) (p : Pairing) : Prop :=
  (forall a, fst p = Some a -> In a L) /\
  (forall b, snd p = Some b -> In b R).

(** The pairings [merge] computes, on the key cells as it compares
    them. *)
Definition cast_pairs (left right : DataFrame) (i j : nat) (how : How)
    : list Pairing :=
  join_pairs
    (fun r => key_cast (column left i) (column right j) (cell r i))
    (fun r => key_cast (column left i) (column right j) (cell r j))
    how (enum (rows left)) (enum (rows right)).

(** Position, among the labels the right frame contributes, of its column
    [n]: the columns after a dropped key column move one place left. *)
Definition right_position (shared : bool) (j n : nat) : nat :=
  if shared then (if Nat.ltb n j then n else pred n) else n.

(** The cells a right row contributes. *)
Definition right_part (shared : bool) (j : nat) (b : Row) : Row :=
  if shared then remove_nth j b else b.

(** The cells the left side of a pairing contributes. *)
Definition left_part (shared : bool) (i j nl : nat) (p : Pairing) : Row :=
  match fst p with
  | Some a => snd a
  | None =>
      match snd p with
      | Some b => if shared then set_nth i (cell (snd b) j) (repeat NaN nl)
                  else repeat NaN nl
      | None => repeat NaN nl
      end
  end.

(** The left part of the row of a B row without partner. *)
Definition blank_left (A : DataFrame) (ka kb : string) (i j : nat) (b : Row)
    : Row :=
  if String.eqb ka kb
  then set_nth i (cell b j) (repeat NaN (length (columns A)))
  else repeat NaN (length (columns A)).

(** A pairing that is not a matched pair. *)
Definition without_partner (p : Pairing) : bool :=
  is_none (fst p) || is_none (snd p).

(** The mask FULL JOIN WITH NULLS applies to a row, for tested columns at
    positions [fa] of A and [jf] of B. *)
Definition full_mask (A : DataFrame) (ka kb : string) (j fa jf : nat)
    (r : Row) : bool :=
  isna_value (cell r fa) ||
  isna_value (cell r (length (columns A) +
                      right_position (String.eqb ka kb) j jf)).

(** The seven labels [execute_join] compares [join_type] with. *)
Definition join_types : list string :=
  [ "INNER JOIN"; "FULL JOIN"; "FULL JOIN WITH NULLS"; "LEFT JOIN";
    "LEFT JOIN WITH NULL"; "RIGHT JOIN"; "RIGHT JOIN WITH NULL" ]%string.

(** The four labels whose branch returns the merged frame as it is. *)
Definition plain_join_types : list string :=
  [ "INNER JOIN"; "FULL JOIN"; "LEFT JOIN"; "RIGHT JOIN" ]%string.

(** Rows of A without a partner in B, and rows of B without a partner in
    A, for key columns at positions [i] and [j]. *)
Definition rows_without_partner_in_b (A B : DataFrame) (i j : nat) : list Row :=
  filter (fun a => negb (existsb (fun b => value_eqb (cell a i) (cell b j))
                                 (rows B))) (rows A).

Definition rows_without_partner_in_a (A B : DataFrame) (i j : nat) : list Row :=
  filter (fun b => negb (existsb (fun a => value_eqb (cell a i) (cell b j))
                                 (rows A))) (rows B).

(** Equality of rows and membership of a row in a list of rows. *)
Fixpoint row_eqb (r s : Row) : bool :=
  match r, s with
  | [], [] => true
  | x :: r', y :: s' => value_eqb x y && row_eqb r' s'
  | _, _ => false
  end.

Definition row_mem (r : Row) (l : list Row) : bool := existsb (row_eqb r) l.

(** Number of rows of the frame a call returned, and the cells of one of
    its columns. *)
Definition row_count (r : Result (option DataFrame)) : option nat :=
  match r with
  | Ok (Some df) => Some (length (rows df))
  | _ => None
  end.

Definition column_cells (r : Result (option DataFrame)) (c : string)
    : option (list value) :=
  match r with
  | Ok (Some df) => match getitem df c with
                    | Ok s => Some s
                    | Raise _ => None
                    end
  | _ => None
  end.

(** Each WITH NULL label with the label of the plain variant it masks. *)
Definition with_null_bases : list (string * string) :=
  [ ("FULL JOIN WITH NULLS", "FULL JOIN");
    ("LEFT JOIN WITH NULL", "LEFT JOIN");
    ("RIGHT JOIN WITH NULL", "RIGHT JOIN") ]%string.

(** A pairing seen from the other table. *)
Definition swap_pairing (p : Pairing) : Pairing := (snd p, fst p).

(** [d[k]] on a dictionary kept as the list of its items. *)
Fixpoint lookup {A : Type} (k : string) (d : list (string * A)) : option A :=
  match d with
  | [] => None
  | (k', v) :: t => if String.eqb k k' then Some v else lookup k t
  end.

(** The region of the two-circle diagram a pairing belongs to: ["11"] for
    a matched pair, ["10"] for a row of A alone, ["01"] for a row of B
    alone. *)
Definition region_of (p : Pairing) : string :=
  match p with
  | (Some _, Some _) => "11"
  | (Some _, None) => "10"
  | (None, Some _) => "01"
  | (None, None) => "00"
  end.

(** The colour [main] gives to the regions a join type returns. *)
Definition green : string := "#90EE90".

(** A row of A followed by a missing cell for every column B gives. *)
Definition pad_right (A B : DataFrame) (ka kb : string) (j : nat) (a : Row)
    : Row :=
  a ++ repeat NaN (length (right_labels (String.eqb ka kb) j B)).

(** A row of B preceded by the cells of A's columns: all missing, except
    the single key column when both keys have one label. *)
Definition pad_left (A : DataFrame) (ka kb : string) (i j : nat) (b : Row)
    : Row :=
  blank_left A ka kb i j b ++ right_part (String.eqb ka kb) j b.

(** What a mask on a column of A, or of B, sees of a pairing: the cell of
    the row the pairing has on that side, a side without row counting as
    missing. *)
Definition missing_on_left (fa : nat) (p : Pairing) : bool :=
  match fst p with
  | Some a => isna_value (cell (snd a) fa)
  | None => true
  end.

Definition missing_on_right (jf : nat) (p : Pairing) : bool :=
  match snd p with
  | Some b => isna_value (cell (snd b) jf)
  | None => true
  end.

(** The rows of the pairings of a merge that pass a test, in the order of
    the merge. *)
Definition kept_rows (A B : DataFrame) (ka kb : string) (i j : nat)
    (how : How) (f : Pairing -> bool) : list Row :=
  map (merged_row A B ka kb i j) (filter f (merge_pairs A B i j how)).

(** A table with the columns of [df] and no row. *)
Definition no_rows (df : DataFrame) : DataFrame :=
  mkDataFrame (columns df) [].

(** A string of characters of the ASCII range only. *)
Fixpoint is_ascii (s : string) : bool :=
  match s with
  | EmptyString => true
  | String c t => Nat.ltb (nat_of_ascii c) 128 && is_ascii t
  end.

(** The characters of a string. *)
Fixpoint chars (s : string) : list ascii :=
  match s with
  | EmptyString => []
  | String c t => c :: chars t
  end.

(** An upper-case letter of the ASCII range. *)
Definition is_upper (c : ascii) : bool :=
  Nat.leb 65 (nat_of_ascii c) && Nat.leb (nat_of_ascii c) 90.

(** ** Example tables *)

(** One employee. *)
Definition staff : DataFrame :=
  mkDataFrame ["emp_id"; "name"]%string [ [VInt 1; VStr "John"] ].

(** A pay table with one row for the same employee, whose salary is
    missing. *)
Definition pay_without_salary : DataFrame :=
  mkDataFrame ["salary"; "emp_id"]%string [ [NaN; VInt 1] ].




(** Two tables that share the label [id] besides their keys [cust] and
    [cust_ref]; [id] is the first column of the second one. *)
Definition customers : DataFrame :=
  mkDataFrame ["cust"; "id"]%string [ [VStr "ann"; VInt 10] ].

Definition orders : DataFrame :=
  mkDataFrame ["id"; "cust_ref"]%string [ [VInt 77; VStr "ann"] ].

(** A pay table that names the employee. *)
Definition named_pay : DataFrame :=
  mkDataFrame ["emp_id"; "name"]%string [ [VInt 1; VStr "J. Doe"] ].

(** Two tables keyed by [emp_id] whose first columns are not the key. *)
Definition staff_by_name : DataFrame :=
  mkDataFrame ["name"; "emp_id"]%string
    [ [VStr "John"; VInt 1]; [VStr "Jane"; VInt 2] ].

Definition pay_by_salary : DataFrame :=
  mkDataFrame ["salary"; "emp_id"]%string
    [ [VInt 60000; VInt 2]; [VInt 80000; VInt 6] ].

(** * Properties *)

(** ** Cells and lists *)

Lemma value_eqb_eq (u v : value) : value_eqb u v = true <-> u = v.
Proof.
  destruct u as [a|a|], v as [b|b|]; simpl;
    try (split; [discriminate | intros E; discriminate E]).
  - rewrite Z.eqb_eq. split; congruence.
  - rewrite String.eqb_eq. split; congruence.
  - split; reflexivity.
Qed.

Lemma in_combine_seq (A : Type) (l : list A) (s p : nat) (x : A) :
  In (p, x) (combine (seq s (length l)) l) <->
  s <= p /\ nth_error l (p - s) = Some x.
Proof.
  revert s; induction l as [|y l IH]; intros s; simpl.
  - split; [tauto | intros [_ H]]. now destruct (p - s).
  - rewrite IH. split.
    + intros [E | [Hle H]].
      * inversion E; subst. rewrite Nat.sub_diag. now split.
      * split; [lia |]. replace (p - s) with (S (p - S s)) by lia. exact H.
    + intros [Hle H]. destruct (p - s) as [|k] eqn:E.
      * left. inversion H; subst. f_equal. lia.
      * right. split; [lia |]. now replace (p - S s) with k by lia.
Qed.

Lemma in_enum (A : Type) (l : list A) (p : nat) (x : A) :
  In (p, x) (enum l) <-> nth_error l p = Some x.
Proof.
  unfold enum. rewrite in_combine_seq, Nat.sub_0_r.
  split; [tauto | split; [lia | assumption]].
Qed.

Lemma map_snd_combine_seq (A : Type) (l : list A) (s : nat) :
  map snd (combine (seq s (length l)) l) = l.
Proof.
  revert s; induction l as [|y l IH]; intros s; simpl; [| rewrite IH];
    reflexivity.
Qed.

Lemma map_snd_enum (A : Type) (l : list A) : map snd (enum l) = l.
Proof. apply map_snd_combine_seq. Qed.




Lemma existsb_snd (A : Type) (f : A -> bool) (l : list (nat * A)) :
  existsb (fun a => f (snd a)) l = existsb f (map snd l).
Proof.
  induction l as [|a l IH]; simpl; [reflexivity | now rewrite IH].
Qed.

Lemma filter_nil_existsb (A : Type) (f : A -> bool) (l : list A) :
  filter f l = [] <-> existsb f l = false.
Proof.
  induction l as [|a l IH]; simpl; [tauto |].
  destruct (f a); simpl; [split; discriminate | exact IH].
Qed.

Lemma rows_getitem_mask_map (df : DataFrame) (f : Row -> bool) :
  rows (getitem_mask df (map f (rows df))) = filter f (rows df).
Proof.
  unfold getitem_mask; simpl.
  induction (rows df) as [|r l IH]; simpl; [reflexivity |].
  destruct (f r); simpl; now rewrite IH.
Qed.

Lemma mask_or_map (A : Type) (f g : A -> bool) (l : list A) :
  mask_or (map f l) (map g l) = map (fun x => orb (f x) (g x)) l.
Proof.
  unfold mask_or.
  induction l as [|x l IH]; simpl; [reflexivity | now rewrite IH].
Qed.

Lemma isna_cells (l : list Row) (n : nat) :
  isna (map (fun r => cell r n) l) = map (fun r => isna_value (cell r n)) l.
Proof. unfold isna. apply map_map. Qed.

(** ** Pairings *)

Section PairingFacts.

Variables kl kr : Row -> value.

Lemma in_inner_pairs L R p :
  In p (inner_pairs kl kr L R) <-> matched_pair kl kr L R p.
Proof.
  unfold inner_pairs, partners_in_right, matched_pair.
  rewrite in_flat_map. split.
  - intros (a & Ha & Hp). apply in_map_iff in Hp.
    destruct Hp as (b & <- & Hb). apply filter_In in Hb.
    exists a, b. tauto.
  - intros (a & b & -> & Ha & Hb & Hm). exists a. split; [assumption |].
    apply (in_map (fun b => (Some a, Some b))). apply filter_In. tauto.
Qed.

Lemma in_left_pairs L R p :
  In p (left_pairs kl kr L R) <->
  matched_pair kl kr L R p \/ left_alone kl kr L R p.
Proof.
  unfold left_pairs, partners_in_right, matched_pair, left_alone.
  rewrite in_flat_map. split.
  - intros (a & Ha & Hp).
    destruct (filter (key_match kl kr a) R) as [|b0 bs] eqn:E.
    + right. destruct Hp as [<- | []]. exists a.
      apply filter_nil_existsb in E. tauto.
    + left. apply in_map_iff in Hp. destruct Hp as (b & <- & Hb).
      rewrite <- E in Hb. apply filter_In in Hb. exists a, b. tauto.
  - intros [(a & b & -> & Ha & Hb & Hm) | (a & -> & Ha & Hn)]; exists a;
      (split; [assumption |]).
    + assert (Hin : In b (filter (key_match kl kr a) R))
        by (apply filter_In; tauto).
      destruct (filter (key_match kl kr a) R) as [|b0 bs];
        [destruct Hin | now apply (in_map (fun b => (Some a, Some b)))].
    + apply filter_nil_existsb in Hn. rewrite Hn. now left.
Qed.

Lemma in_right_pairs L R p :
  In p (right_pairs kl kr L R) <->
  matched_pair kl kr L R p \/ right_alone kl kr L R p.
Proof.
  unfold right_pairs, partners_in_left, matched_pair, right_alone.
  rewrite in_flat_map. split.
  - intros (b & Hb & Hp).
    destruct (filter (fun a => key_match kl kr a b) L) as [|a0 la] eqn:E.
    + right. destruct Hp as [<- | []]. exists b.
      apply filter_nil_existsb in E. tauto.
    + left. apply in_map_iff in Hp. destruct Hp as (a & <- & Ha).
      rewrite <- E in Ha. apply filter_In in Ha. exists a, b. tauto.
  - intros [(a & b & -> & Ha & Hb & Hm) | (b & -> & Hb & Hn)]; exists b;
      (split; [assumption |]).
    + assert (Hin : In a (filter (fun a => key_match kl kr a b) L))
        by (apply filter_In; tauto).
      destruct (filter (fun a => key_match kl kr a b) L) as [|a0 la];
        [destruct Hin | now apply (in_map (fun a => (Some a, Some b)))].
    + apply filter_nil_existsb in Hn. rewrite Hn. now left.
Qed.

Lemma in_right_only L R p :
  In p (right_only kl kr L R) <-> right_alone kl kr L R p.
Proof.
  unfold right_only, partners_in_left, right_alone.
  rewrite in_flat_map. split.
  - intros (b & Hb & Hp).
    destruct (filter (fun a => key_match kl kr a b) L) as [|a0 la] eqn:E;
      [| destruct Hp].
    destruct Hp as [<- | []]. exists b.
    apply filter_nil_existsb in E. tauto.
  - intros (b & -> & Hb & Hn). exists b. split; [assumption |].
    apply filter_nil_existsb in Hn. rewrite Hn. now left.
Qed.

Lemma insert_by_key_perm p l :
  Permutation (insert_by_key kl kr p l) (p :: l).
Proof.
  induction l as [|q t IH]; simpl; [reflexivity |].
  destruct (value_leb _ _); [reflexivity |].
  rewrite IH. apply perm_swap.
Qed.

Lemma sort_by_key_perm l : Permutation (sort_by_key kl kr l) l.
Proof.
  induction l as [|p t IH]; simpl; [constructor |].
  rewrite insert_by_key_perm. now constructor.
Qed.

Lemma in_outer_pairs L R p :
  In p (outer_pairs kl kr L R) <->
  matched_pair kl kr L R p \/ left_alone kl kr L R p \/ right_alone kl kr L R p.
Proof.
  unfold outer_pairs. split; intros H.
  - apply (Permutation_in _ (sort_by_key_perm _)) in H.
    apply in_app_iff in H. rewrite in_left_pairs, in_right_only in H. tauto.
  - apply (Permutation_in _ (Permutation_sym (sort_by_key_perm _))).
    apply in_app_iff. rewrite in_left_pairs, in_right_only. tauto.
Qed.

(** Whatever the kind of merge, a pairing is a matched pair or a row
    without partner. *)
Lemma in_join_pairs how L R p :
  In p (join_pairs kl kr how L R) ->
  matched_pair kl kr L R p \/ left_alone kl kr L R p \/ right_alone kl kr L R p.
Proof.
  destruct how; simpl.
  - rewrite in_inner_pairs. tauto.
  - rewrite in_outer_pairs. tauto.
  - rewrite in_left_pairs. tauto.
  - rewrite in_right_pairs. tauto.
Qed.

(** *** Counting *)

Lemma list_sum_map_add (A : Type) (f g : A -> nat) (l : list A) :
  list_sum (map (fun x => f x + g x) l) =
  list_sum (map f l) + list_sum (map g l).
Proof. induction l as [|x l IH]; simpl; lia. Qed.

Lemma list_sum_map_indicator (A : Type) (h : A -> bool) (l : list A) :
  list_sum (map (fun x => if h x then 1 else 0) l) = length (filter h l).
Proof.
  induction l as [|x l IH]; simpl; [reflexivity |].
  destruct (h x); simpl; lia.
Qed.

Lemma length_inner_pairs L R :
  length (inner_pairs kl kr L R) =
  list_sum (map (fun a => length (partners_in_right kl kr a R)) L).
Proof.
  unfold inner_pairs. rewrite length_flat_map. f_equal.
  apply map_ext. intros a. apply length_map.
Qed.

Lemma partner_count_swap L R :
  list_sum (map (fun b => length (partners_in_left kl kr b L)) R) =
  list_sum (map (fun a => length (partners_in_right kl kr a R)) L).
Proof.
  induction L as [|a L IH]; simpl.
  - induction R as [|b R IHR]; simpl; [reflexivity | exact IHR].
  - rewrite <- IH. unfold partners_in_right at 1.
    rewrite <- list_sum_map_indicator, <- list_sum_map_add. f_equal.
    apply map_ext. intros b. now destruct (key_match kl kr a b).
Qed.





(** *** No pair is listed twice *)


End PairingFacts.

(** ** The merged frame *)

(** *** Key functions that agree on the rows *)

Section SameKeys.

Variables kl kr kl' kr' : Row -> value.
Variables L R : list IRow.
Hypothesis Hl : forall a, In a L -> kl (snd a) = kl' (snd a).
Hypothesis Hr : forall b, In b R -> kr (snd b) = kr' (snd b).

Lemma partners_in_right_ext (a : IRow) :
  In a L -> partners_in_right kl kr a R = partners_in_right kl' kr' a R.
Proof.
  intros Ha. unfold partners_in_right. apply filter_ext_in. intros b Hb.
  unfold key_match. now rewrite (Hl a Ha), (Hr b Hb).
Qed.

Lemma partners_in_left_ext (b : IRow) :
  In b R -> partners_in_left kl kr b L = partners_in_left kl' kr' b L.
Proof.
  intros Hb. unfold partners_in_left. apply filter_ext_in. intros a Ha.
  unfold key_match. now rewrite (Hl a Ha), (Hr b Hb).
Qed.

Lemma flat_map_ext_in (C D : Type) (f g : C -> list D) (l : list C) :
  (forall x, In x l -> f x = g x) -> flat_map f l = flat_map g l.
Proof.
  induction l as [|x l IH]; intros H; simpl; [reflexivity |].
  rewrite (H x) by now left. f_equal. apply IH. intros y Hy. apply H.
  now right.
Qed.

Lemma inner_pairs_ext : inner_pairs kl kr L R = inner_pairs kl' kr' L R.
Proof.
  unfold inner_pairs. apply flat_map_ext_in. intros a Ha.
  now rewrite (partners_in_right_ext a Ha).
Qed.

Lemma left_pairs_ext : left_pairs kl kr L R = left_pairs kl' kr' L R.
Proof.
  unfold left_pairs. apply flat_map_ext_in. intros a Ha.
  now rewrite (partners_in_right_ext a Ha).
Qed.

Lemma right_pairs_ext : right_pairs kl kr L R = right_pairs kl' kr' L R.
Proof.
  unfold right_pairs. apply flat_map_ext_in. intros b Hb.
  now rewrite (partners_in_left_ext b Hb).
Qed.

Lemma right_only_ext : right_only kl kr L R = right_only kl' kr' L R.
Proof.
  unfold right_only. apply flat_map_ext_in. intros b Hb.
  now rewrite (partners_in_left_ext b Hb).
Qed.

Lemma pair_key_ext (p : Pairing) :
  from_rows L R p -> pair_key kl kr p = pair_key kl' kr' p.
Proof.
  intros [Ha Hb]. destruct p as [[a|] [b|]]; simpl in *;
    try reflexivity; auto.
Qed.

Lemma insert_by_key_ext (p : Pairing) (l : list Pairing) :
  from_rows L R p -> Forall (from_rows L R) l ->
  insert_by_key kl kr p l = insert_by_key kl' kr' p l.
Proof.
  intros Hp Hall. induction Hall as [|q t Hq Ht IH]; simpl;
    [reflexivity |].
  rewrite (pair_key_ext p Hp), (pair_key_ext q Hq), IH. reflexivity.
Qed.

Lemma sort_by_key_ext (l : list Pairing) :
  Forall (from_rows L R) l ->
  sort_by_key kl kr l = sort_by_key kl' kr' l.
Proof.
  intros Hall. induction Hall as [|p t Hp Ht IH]; simpl; [reflexivity |].
  rewrite <- IH. apply insert_by_key_ext; [exact Hp |].
  apply Forall_forall. intros q Hq.
  rewrite Forall_forall in Ht. apply Ht.
  now apply (Permutation_in _ (sort_by_key_perm kl kr t)).
Qed.

Lemma join_pairs_ext (how : How) :
  join_pairs kl kr how L R = join_pairs kl' kr' how L R.
Proof.
  destruct how; cbn [join_pairs].
  - apply inner_pairs_ext.
  - unfold outer_pairs. rewrite <- left_pairs_ext, <- right_only_ext.
    apply sort_by_key_ext. apply Forall_forall. intros p Hp.
    apply in_app_or in Hp. rewrite in_left_pairs, in_right_only in Hp.
    destruct Hp as [[(a & b & -> & Ha & Hb & _) | (a & -> & Ha & _)]
                   | (b & -> & Hb & _)];
      split; simpl; intros x E; try discriminate E;
      injection E as <-; assumption.
  - apply left_pairs_ext.
  - apply right_pairs_ext.
Qed.

End SameKeys.

(** *** Cells a conversion leaves as they are *)

Lemma exact_cell_eq (v : value) :
  exact_cell v = true <-> float_value v = v.
Proof. unfold exact_cell. apply value_eqb_eq. Qed.

Lemma exact_cells_row (df : DataFrame) (r : Row) (v : value) :
  exact_cells df = true -> In r (rows df) -> In v r -> float_value v = v.
Proof.
  unfold exact_cells. rewrite forallb_forall. intros H Hr Hv.
  specialize (H r Hr). rewrite forallb_forall in H.
  now apply exact_cell_eq, H.
Qed.

Lemma exact_cells_cell (df : DataFrame) (r : Row) (n : nat) :
  exact_cells df = true -> In r (rows df) ->
  float_value (cell r n) = cell r n.
Proof.
  intros H Hr. unfold cell.
  destruct (nth_in_or_default n r NaN) as [Hin | ->];
    [now apply (exact_cells_row df r) | reflexivity].
Qed.

Lemma key_cast_exact (lk rk : list value) (v : value) :
  float_value v = v -> key_cast lk rk v = v.
Proof. unfold key_cast. now destruct (float_keys lk rk). Qed.

Lemma merged_conv_exact (A B : DataFrame) (shared : bool) (i j : nat)
    (pairs : list Pairing) (n : nat) (v : value) :
  float_value v = v -> merged_conv A B shared i j pairs n v = v.
Proof.
  intros E. unfold merged_conv.
  repeat match goal with
         | |- context [if ?c then _ else _] => destruct c
         | |- context [match dtype_of ?c with _ => _ end] =>
             destruct (dtype_of c)
         end; auto.
Qed.

Lemma convert_exact (f : nat -> value -> value) (r : Row) :
  (forall n v, In v r -> f n v = v) -> convert f r = r.
Proof.
  intros H. unfold convert. rewrite <- (map_snd_enum _ r) at 2.
  apply map_ext_in. intros [n v] Hin. simpl. apply H.
  apply in_enum in Hin. now apply nth_error_In in Hin.
Qed.

Lemma length_convert (f : nat -> value -> value) (r : Row) :
  length (convert f r) = length r.
Proof.
  unfold convert, enum.
  now rewrite length_map, length_combine, length_seq, Nat.min_id.
Qed.

Lemma in_remove_nth (C : Type) (n : nat) (l : list C) (x : C) :
  In x (remove_nth n l) -> In x l.
Proof.
  revert n; induction l as [|y l IH]; intros [|n]; simpl; auto.
  intros [E | H]; [now left | right; now apply (IH n)].
Qed.

Lemma in_set_nth (C : Type) (n : nat) (v : C) (l : list C) (x : C) :
  In x (set_nth n v l) -> x = v \/ In x l.
Proof.
  revert n; induction l as [|y l IH]; intros [|n]; simpl; auto.
  - intros [E | H]; [now left | right; now right].
  - intros [E | H]; [right; now left |].
    destruct (IH n H) as [E | E]; [now left | right; now right].
Qed.

(** The cells of the row of a pairing are cells of its two rows, or
    missing. *)
Lemma join_row_cells (shared : bool) (i j nl nr : nat) (p : Pairing)
    (v : value) :
  In v (join_row shared i j nl nr p) ->
  v = NaN \/
  (exists a, fst p = Some a /\ In v (snd a)) \/
  (exists b, snd p = Some b /\ (In v (snd b) \/ v = cell (snd b) j)).
Proof.
  unfold join_row. intros H. apply in_app_or in H. destruct H as [H | H].
  - destruct (fst p) as [a|]; [right; left; now exists a |].
    destruct (snd p) as [b|]; [| left; now apply repeat_spec in H].
    destruct shared; [| left; now apply repeat_spec in H].
    apply in_set_nth in H. destruct H as [-> | H].
    + right. right. exists b. split; [reflexivity | now right].
    + left. now apply repeat_spec in H.
  - destruct (snd p) as [b|]; [| left; now apply repeat_spec in H].
    right. right. exists b. split; [reflexivity | left].
    destruct shared; [now apply in_remove_nth in H | exact H].
Qed.

(** *** What [merge] returns *)

Lemma has_label_in (c : string) (l : list string) :
  has_label c l = true <-> In c l.
Proof.
  unfold has_label. rewrite existsb_exists. split.
  - intros (x & Hx & E). apply String.eqb_eq in E. now subst.
  - intros H. exists c. split; [assumption | apply String.eqb_refl].
Qed.

Lemma nodupb_NoDup (l : list string) : nodupb l = true <-> NoDup l.
Proof.
  induction l as [|x l IH]; simpl.
  - split; [constructor | reflexivity].
  - rewrite andb_true_iff, negb_true_iff, IH. split.
    + intros [H N]. constructor; [| exact N].
      intros Hin. apply has_label_in in Hin. congruence.
    + intros N. inversion N as [|? ? Hx Hl]; subst. split; [| exact Hl].
      destruct (has_label x l) eqn:E; [| reflexivity].
      now apply has_label_in in E.
Qed.

Lemma first_at_index_of (c : string) (l : list string) (n : nat) :
  first_at c l n <-> index_of c l = Some n.
Proof.
  unfold first_at. revert n; induction l as [|x l IH]; intros n.
  - destruct n; simpl; split; try discriminate; intros [H _];
      discriminate H.
  - cbn [index_of]. destruct (String.eqb_spec c x) as [-> | N].
    + destruct n as [|n]; simpl.
      * split; [reflexivity | intros _; split; [reflexivity | tauto]].
      * split; [intros [_ F]; exfalso; apply F; now left | discriminate].
    + destruct n as [|n]; cbn [nth_error firstn].
      * split; [intros [[= E] _]; congruence |].
        destruct (index_of c l); discriminate.
      * specialize (IH n). split.
        -- intros [H F]. rewrite (proj1 IH); [reflexivity |].
           split; [exact H | intros Hin; apply F; now right].
        -- destruct (index_of c l) as [k|]; [| discriminate].
           intros [= ->]. destruct (proj2 IH eq_refl) as [H F].
           split; [exact H |]. intros [E | Hin]; [congruence | tauto].
Qed.

Lemma filter_none (C : Type) (f : C -> bool) (l : list C) :
  (forall x, In x l -> f x = false) -> filter f l = [].
Proof.
  induction l as [|x l IH]; intros H; simpl; [reflexivity |].
  rewrite (H x) by now left. apply IH. intros y Hy. apply H. now right.
Qed.

Lemma NoDup_app_apart (C : Type) (l1 l2 : list C) (x : C) :
  NoDup (l1 ++ l2) -> In x l1 -> In x l2 -> False.
Proof.
  induction l1 as [|y l1 IH]; simpl; [tauto |].
  intros N [-> | H1] H2; inversion N as [|? ? Hy Hl]; subst.
  - apply Hy, in_or_app. now right.
  - now apply IH.
Qed.

Lemma duplicated_NoDup (seen l : list string) :
  NoDup l -> (forall x, In x l -> ~ In x seen) ->
  forall b, In b (duplicated seen l) -> b = false.
Proof.
  revert seen; induction l as [|x l IH]; intros seen N H b; simpl;
    [tauto |].
  inversion N as [|? ? Hx Hl]; subst. intros [<- | Hb].
  - destruct (has_label x seen) eqn:E; [| reflexivity].
    apply has_label_in in E. exfalso. apply (H x); [now left | exact E].
  - apply (IH (x :: seen) Hl); [| exact Hb].
    intros y Hy [-> | Hs]; [contradiction |].
    apply (H y); [now right | exact Hs].
Qed.

Lemma caused_by_suffix_NoDup (orig renamed : list string) :
  NoDup renamed -> caused_by_suffix orig renamed = [].
Proof.
  intros N. unfold caused_by_suffix. rewrite filter_none; [reflexivity |].
  intros [x [b1 b2]] H. simpl.
  apply in_combine_r, in_combine_l in H.
  rewrite (duplicated_NoDup [] renamed N (fun _ _ F => F) b1 H).
  reflexivity.
Qed.

(** Labels that are pairwise different after the renaming pass the check
    of [merge]. *)
Lemma suffix_dups_NoDup (left right : list string) :
  NoDup (map (suffixed right "_x") left ++ map (suffixed left "_y") right) ->
  suffix_dups left right = [].
Proof.
  intros N. unfold suffix_dups.
  rewrite (caused_by_suffix_NoDup left _ (NoDup_app_remove_r _ _ N)).
  rewrite (caused_by_suffix_NoDup right _ (NoDup_app_remove_l _ _ N)).
  rewrite !filter_none; [reflexivity | |]; intros c Hc;
    destruct (has_label c _) eqn:E; try reflexivity;
    apply has_label_in, filter_In in E; destruct E as (Hin & Hn);
    apply negb_true_iff in Hn; exfalso.
  - apply (NoDup_app_apart _ _ _ c N).
    + apply in_map_iff. exists c. split; [| exact Hin].
      unfold suffixed. now rewrite Hn.
    + exact Hc.
  - apply (NoDup_app_apart _ _ _ c N); [exact Hc |].
    apply in_map_iff. exists c. split; [| exact Hin].
    unfold suffixed. now rewrite Hn.
Qed.

Lemma mergeable_index (A B : DataFrame) (ka kb : string) (i j : nat) :
  mergeable A B ka kb i j ->
  index_of ka (columns A) = Some i /\ index_of kb (columns B) = Some j.
Proof.
  intros (_ & _ & Hi & Hj & _). now split; apply first_at_index_of.
Qed.

Lemma mergeable_well_formed (A B : DataFrame) (ka kb : string)
    (i j : nat) :
  mergeable A B ka kb i j -> well_formed A /\ well_formed B.
Proof. intros (WA & WB & _). now split. Qed.

Lemma forallb_Forall (C : Type) (f : C -> bool) (P : C -> Prop)
    (l : list C) :
  (forall x, f x = true -> P x) -> forallb f l = true -> Forall P l.
Proof.
  intros H E. rewrite forallb_forall in E. apply Forall_forall.
  intros x Hx. now apply H, E.
Qed.

(** The test decides [mergeable]. *)
Lemma mergeableb_spec (A B : DataFrame) (ka kb : string) (i j : nat) :
  mergeableb A B ka kb i j = true -> mergeable A B ka kb i j.
Proof.
  unfold mergeableb, mergeable. rewrite !andb_true_iff.
  intros ((((((((WA & WB) & Fa) & Fb) & Nb) & K) & Nm) & Ea) & Eb).
  assert (F : forall c l n, first_atb c l n = true -> first_at c l n).
  { intros c l n. unfold first_atb, first_at.
    destruct (nth_error l n) as [x|]; [| discriminate].
    rewrite andb_true_iff, negb_true_iff, String.eqb_eq.
    intros [-> H]. split; [reflexivity |].
    intros Hin. apply has_label_in in Hin. congruence. }
  assert (W : forall df, well_formedb df = true -> well_formed df).
  { intros df. apply forallb_Forall. intros r. apply Nat.eqb_eq. }
  split; [now apply W |]. split; [now apply W |].
  split; [now apply F |]. split; [now apply F |].
  split; [now apply nodupb_NoDup |].
  split; [now apply negb_true_iff in K |].
  split; [now apply nodupb_NoDup |]. now split.
Qed.

Lemma merge_pairs_origin (A B : DataFrame) (i j : nat) (how : How)
    (p : Pairing) :
  In p (merge_pairs A B i j how) ->
  (forall m a, fst p = Some (m, a) -> nth_error (rows A) m = Some a) /\
  (forall n b, snd p = Some (n, b) -> nth_error (rows B) n = Some b).
Proof.
  intros H. apply in_join_pairs in H.
  destruct H as [(a & b & -> & Ha & Hb & _)
                | [(a & -> & Ha & _) | (b & -> & Hb & _)]];
    split; simpl; intros m r E; try discriminate E;
    injection E as ->; now apply in_enum.
Qed.

(** On tables [merge] accepts, its result is the frame of the pairings of
    rows with equal key cells. *)
Lemma merge_ok (A B : DataFrame) (ka kb : string) (i j : nat) (how : How) :
  mergeable A B ka kb i j ->
  merge A B ka kb how =
  Ok (mkDataFrame (merged_labels A B ka kb j)
                  (map (merged_row A B ka kb i j) (merge_pairs A B i j how))).
Proof.
  intros M. destruct (mergeable_index _ _ _ _ _ _ M) as (Hi & Hj).
  destruct M as (_ & _ & _ & _ & _ & K & Nm & Ea & Eb).
  unfold merge. rewrite Hj, Hi, K. cbn zeta.
  unfold merged_labels in Nm. rewrite (suffix_dups_NoDup _ _ Nm).
  do 2 f_equal.
  rewrite (join_pairs_ext _ _ (fun r => cell r i) (fun r => cell r j)).
  - apply map_ext_in. intros p Hp. apply convert_exact. intros n v Hv.
    apply merged_conv_exact.
    destruct (merge_pairs_origin A B i j how p Hp) as (Oa & Ob).
    apply join_row_cells in Hv.
    destruct Hv as [-> | [([m a] & E & Hv) | ([m b] & E & Hv)]].
    + reflexivity.
    + apply (exact_cells_row A a v Ea); [| exact Hv].
      apply (nth_error_In _ m). now apply Oa.
    + assert (Hb : In b (rows B))
        by (apply (nth_error_In _ m); now apply Ob).
      destruct Hv as [Hv | ->];
        [now apply (exact_cells_row B b v Eb)
        | now apply (exact_cells_cell B b j Eb)].
  - intros [m a] Ha. apply in_enum, nth_error_In in Ha.
    apply key_cast_exact. now apply (exact_cells_cell A a i Ea).
  - intros [m b] Hb. apply in_enum, nth_error_In in Hb.
    apply key_cast_exact. now apply (exact_cells_cell B b j Eb).
Qed.

(** Whatever the cells, a frame [merge] returns has the labels of the two
    tables and one row per pairing. *)
Lemma merge_returns (A B : DataFrame) (ka kb : string) (how : How)
    (df : DataFrame) :
  merge A B ka kb how = Ok df ->
  exists i j,
    index_of ka (columns A) = Some i /\
    index_of kb (columns B) = Some j /\
    df = mkDataFrame (merged_labels A B ka kb j)
           (map (fun p =>
                   convert (merged_conv A B (String.eqb ka kb) i j
                              (cast_pairs A B i j how))
                           (merged_row A B ka kb i j p))
                (cast_pairs A B i j how)).
Proof.
  unfold merge.
  destruct (index_of kb (columns B)) as [j|]; [| discriminate].
  destruct (index_of ka (columns A)) as [i|]; [| discriminate].
  destruct (keys_rejected _ _); [discriminate |].
  cbn zeta. destruct (suffix_dups _ _); [| discriminate].
  intros [= <-]. now exists i, j.
Qed.

Lemma index_of_in (c : string) (l : list string) :
  index_of c l <> None <-> In c l.
Proof.
  induction l as [|x l IH]; simpl; [tauto |].
  destruct (String.eqb_spec c x) as [-> | N].
  - split; [now left | discriminate].
  - destruct (index_of c l); simpl in *.
    + split; [intros _; right; apply IH; discriminate | discriminate].
    + split; [congruence | intros [E | H]; [congruence | now apply IH]].
Qed.

Lemma index_of_nth_error (c : string) (l : list string) (n : nat) :
  index_of c l = Some n -> nth_error l n = Some c.
Proof.
  revert n; induction l as [|x l IH]; intros n; simpl; [discriminate |].
  destruct (String.eqb_spec c x) as [-> | N].
  - now intros [= <-].
  - destruct (index_of c l) as [k|]; simpl; [| discriminate].
    intros [= <-]. now apply IH.
Qed.

Lemma filter_map_swap (A B : Type) (f : B -> bool) (g : A -> B) (l : list A) :
  filter f (map g l) = map g (filter (fun x => f (g x)) l).
Proof.
  induction l as [|x l IH]; simpl; [reflexivity |].
  destruct (f (g x)); simpl; now rewrite IH.
Qed.

(** On the plain variants the two files agree: [SQLapp2] joins on the
    fixed label [emp_id]. *)
Lemma SQLapp2_plain (A B : DataFrame) (t : string) :
  In t plain_join_types ->
  SQLapp2.execute_join A B t =
  JOINDATASETSV1.execute_join A B t "emp_id" "emp_id".
Proof.
  intros [<- | [<- | [<- | [<- | []]]]]; reflexivity.
Qed.

(** Rows of a frame returned by [execute_join]: every variant returns rows
    of one merge, all of them or those that pass its mask. *)
Lemma execute_join_rows (A B : DataFrame) (t ka kb : string) (i j : nat)
    (res : DataFrame) :
  mergeable A B ka kb i j ->
  JOINDATASETSV1.execute_join A B t ka kb = Ok (Some res) ->
  exists how pairs,
    incl pairs (merge_pairs A B i j how) /\
    columns res = merged_labels A B ka kb j /\
    rows res = map (merged_row A B ka kb i j) pairs.
Proof.
  intros M. unfold JOINDATASETSV1.execute_join.
  assert (plain : forall how,
    merged <- merge A B ka kb how ;; Ok (Some merged) = Ok (Some res) ->
    exists how pairs,
      incl pairs (merge_pairs A B i j how) /\
      columns res = merged_labels A B ka kb j /\
      rows res = map (merged_row A B ka kb i j) pairs).
  { intros how. rewrite (merge_ok _ _ _ _ _ _ how M). cbn [bind].
    intros [= <-]. exists how, (merge_pairs A B i j how).
    split; [apply incl_refl | split; reflexivity]. }
  assert (masked : forall how df (f : Row -> bool),
    df = mkDataFrame (merged_labels A B ka kb j)
           (map (merged_row A B ka kb i j) (merge_pairs A B i j how)) ->
    Ok (Some (getitem_mask df (map f (rows df)))) = Ok (Some res) ->
    exists how pairs,
      incl pairs (merge_pairs A B i j how) /\
      columns res = merged_labels A B ka kb j /\
      rows res = map (merged_row A B ka kb i j) pairs).
  { intros how df f -> [= <-]. exists how. eexists.
    split; [| split; [reflexivity |]].
    2: { rewrite rows_getitem_mask_map. cbn [rows].
         rewrite filter_map_swap. reflexivity. }
    apply incl_filter. }
  destruct (String.eqb t "INNER JOIN"); [apply plain |].
  destruct (String.eqb t "FULL JOIN"); [apply plain |].
  destruct (String.eqb t "FULL JOIN WITH NULLS").
  { rewrite (merge_ok _ _ _ _ _ _ HowOuter M). cbn [bind].
    unfold columns_at, getitem.
    destruct (nth_error (columns A) 0) as [ca|]; cbn [bind]; [| discriminate].
    destruct (index_of ca _) as [na|]; cbn [bind]; [| discriminate].
    destruct (nth_error (columns B) 0) as [cb|]; cbn [bind]; [| discriminate].
    destruct (index_of cb _) as [nb|]; cbn [bind]; [| discriminate].
    rewrite !isna_cells, mask_or_map. now apply masked with (how := HowOuter). }
  destruct (String.eqb t "LEFT JOIN"); [apply plain |].
  destruct (String.eqb t "LEFT JOIN WITH NULL").
  { rewrite (merge_ok _ _ _ _ _ _ HowLeft M). cbn [bind].
    unfold columns_at, getitem.
    destruct (nth_error (columns B) 0) as [cb|]; cbn [bind]; [| discriminate].
    destruct (index_of cb _) as [nb|]; cbn [bind]; [| discriminate].
    rewrite isna_cells. now apply masked with (how := HowLeft). }
  destruct (String.eqb t "RIGHT JOIN"); [apply plain |].
  destruct (String.eqb t "RIGHT JOIN WITH NULL"); [| discriminate].
  rewrite (merge_ok _ _ _ _ _ _ HowRight M). cbn [bind].
  unfold columns_at, getitem.
  destruct (nth_error (columns A) 0) as [ca|]; cbn [bind]; [| discriminate].
  destruct (index_of ca _) as [na|]; cbn [bind]; [| discriminate].
  rewrite isna_cells. now apply masked with (how := HowRight).
Qed.

(** ** The branches of [execute_join] *)

Lemma execute_join_plain (A B : DataFrame) (ka kb : string) :
  JOINDATASETSV1.execute_join A B "INNER JOIN" ka kb
    = (merged <- merge A B ka kb HowInner ;; Ok (Some merged)) /\
  JOINDATASETSV1.execute_join A B "FULL JOIN" ka kb
    = (merged <- merge A B ka kb HowOuter ;; Ok (Some merged)) /\
  JOINDATASETSV1.execute_join A B "LEFT JOIN" ka kb
    = (merged <- merge A B ka kb HowLeft ;; Ok (Some merged)) /\
  JOINDATASETSV1.execute_join A B "RIGHT JOIN" ka kb
    = (merged <- merge A B ka kb HowRight ;; Ok (Some merged)).
Proof. repeat split. Qed.

Lemma execute_join_plain_ok (A B : DataFrame) (ka kb : string) (i j : nat) :
  mergeable A B ka kb i j ->
  let frame how :=
    mkDataFrame (merged_labels A B ka kb j)
      (map (merged_row A B ka kb i j) (merge_pairs A B i j how)) in
  JOINDATASETSV1.execute_join A B "INNER JOIN" ka kb
    = Ok (Some (frame HowInner)) /\
  JOINDATASETSV1.execute_join A B "FULL JOIN" ka kb
    = Ok (Some (frame HowOuter)) /\
  JOINDATASETSV1.execute_join A B "LEFT JOIN" ka kb
    = Ok (Some (frame HowLeft)) /\
  JOINDATASETSV1.execute_join A B "RIGHT JOIN" ka kb
    = Ok (Some (frame HowRight)).
Proof.
  intros M frame.
  destruct (execute_join_plain A B ka kb) as (-> & -> & -> & ->).
  rewrite !(merge_ok _ _ _ _ _ _ _ M). repeat split.
Qed.




(** ** Positions of labels and cells in the merged frame *)

Lemma length_set_nth (A : Type) (n : nat) (v : A) (l : list A) :
  length (set_nth n v l) = length l.
Proof.
  revert n; induction l as [|x l IH]; intros [|n]; simpl; auto.
Qed.

Lemma nth_set_nth_other (A : Type) (n m : nat) (v d : A) (l : list A) :
  n <> m -> nth m (set_nth n v l) d = nth m l d.
Proof.
  revert n m; induction l as [|x l IH]; intros [|n] [|m] H; simpl; auto;
    try contradiction.
Qed.

Lemma nth_remove_nth (A : Type) (j n : nat) (d : A) (l : list A) :
  n <> j ->
  nth (if Nat.ltb n j then n else pred n) (remove_nth j l) d = nth n l d.
Proof.
  assert (nil : forall k, nth k (@nil A) d = d) by (intros [|k]; reflexivity).
  revert j n; induction l as [|x l IH]; intros j n H.
  - cbn [remove_nth]. now rewrite !nil.
  - destruct j as [|j]; [destruct n as [|n]; [contradiction | reflexivity] |].
    destruct n as [|n]; [reflexivity |].
    specialize (IH j n). change (Nat.ltb (S n) (S j)) with (Nat.ltb n j).
    simpl. destruct (Nat.ltb_spec n j) as [L | L].
    + apply IH. lia.
    + destruct n as [|n]; [lia |]. simpl in IH. apply IH. lia.
Qed.

Lemma nth_error_remove_nth (A : Type) (j n : nat) (l : list A) :
  n <> j ->
  nth_error (remove_nth j l) (if Nat.ltb n j then n else pred n)
    = nth_error l n.
Proof.
  assert (nil : forall k, nth_error (@nil A) k = None)
    by (intros [|k]; reflexivity).
  revert j n; induction l as [|x l IH]; intros j n H.
  - cbn [remove_nth]. now rewrite !nil.
  - destruct j as [|j]; [destruct n as [|n]; [contradiction | reflexivity] |].
    destruct n as [|n]; [reflexivity |].
    specialize (IH j n). change (Nat.ltb (S n) (S j)) with (Nat.ltb n j).
    simpl. destruct (Nat.ltb_spec n j) as [L | L].
    + apply IH. lia.
    + destruct n as [|n]; [lia |]. simpl in IH. apply IH. lia.
Qed.

Lemma index_of_lt (c : string) (l : list string) (n : nat) :
  index_of c l = Some n -> n < length l.
Proof.
  intros H. apply index_of_nth_error in H.
  apply nth_error_Some. congruence.
Qed.

Lemma index_of_app_l (c : string) (l l' : list string) (n : nat) :
  index_of c l = Some n -> index_of c (l ++ l') = Some n.
Proof.
  revert n; induction l as [|x l IH]; intros n; simpl; [discriminate |].
  destruct (String.eqb c x); [trivial |].
  destruct (index_of c l) as [k|]; simpl; [| discriminate].
  intros [= <-]. now rewrite (IH k eq_refl).
Qed.

Lemma cell_app_l (a r : Row) (n : nat) :
  n < length a -> cell (a ++ r) n = cell a n.
Proof. intros H. unfold cell. now apply app_nth1. Qed.

Lemma cell_app_r (a r : Row) (n : nat) :
  cell (a ++ r) (length a + n) = cell r n.
Proof. unfold cell. apply app_nth2_plus. Qed.

Lemma cell_right_part (shared : bool) (j n : nat) (b : Row) :
  ~ (shared = true /\ n = j) ->
  cell (right_part shared j b) (right_position shared j n) = cell b n.
Proof.
  intros H. unfold right_part, right_position, cell.
  destruct shared; [| reflexivity].
  apply nth_remove_nth. intros E. apply H. now split.
Qed.

Lemma nth_error_right_labels (shared : bool) (j n : nat) (B : DataFrame) :
  ~ (shared = true /\ n = j) ->
  nth_error (right_labels shared j B) (right_position shared j n)
    = nth_error (columns B) n.
Proof.
  intros H. unfold right_labels, right_position.
  destruct shared; [| reflexivity].
  apply nth_error_remove_nth. intros E. apply H. now split.
Qed.

Lemma join_row_parts (shared : bool) (i j nl nr : nat) (p : Pairing) :
  join_row shared i j nl nr p =
  left_part shared i j nl p ++
  match snd p with
  | Some b => right_part shared j (snd b)
  | None => repeat NaN nr
  end.
Proof. reflexivity. Qed.

Lemma length_left_part (shared : bool) (i j nl : nat) (p : Pairing) :
  (forall a, fst p = Some a -> length (snd a) = nl) ->
  length (left_part shared i j nl p) = nl.
Proof.
  intros H. unfold left_part. destruct p as [[a|] [b|]]; simpl.
  - now apply H.
  - now apply H.
  - destruct shared; rewrite ?length_set_nth; apply repeat_length.
  - apply repeat_length.
Qed.

Lemma cell_repeat_NaN (n m : nat) : cell (repeat NaN n) m = NaN.
Proof. unfold cell. apply nth_repeat. Qed.

Lemma execute_join_with_null (A B : DataFrame) (ka kb : string) :
  JOINDATASETSV1.execute_join A B "FULL JOIN WITH NULLS" ka kb
    = (merged <- merge A B ka kb HowOuter ;;
       ca <- columns_at A 0 ;;
       sa <- getitem merged ca ;;
       cb <- columns_at B 0 ;;
       sb <- getitem merged cb ;;
       Ok (Some (getitem_mask merged (mask_or (isna sa) (isna sb))))) /\
  JOINDATASETSV1.execute_join A B "LEFT JOIN WITH NULL" ka kb
    = (merged <- merge A B ka kb HowLeft ;;
       cb <- columns_at B 0 ;;
       sb <- getitem merged cb ;;
       Ok (Some (getitem_mask merged (isna sb)))) /\
  JOINDATASETSV1.execute_join A B "RIGHT JOIN WITH NULL" ka kb
    = (merged <- merge A B ka kb HowRight ;;
       ca <- columns_at A 0 ;;
       sa <- getitem merged ca ;;
       Ok (Some (getitem_mask merged (isna sa)))).
Proof. repeat split. Qed.

(** ** Cells of a merged row *)

Lemma well_formed_nth (A : DataFrame) (m : nat) (a : Row) :
  well_formed A -> nth_error (rows A) m = Some a ->
  length a = length (columns A).
Proof.
  intros W H. apply nth_error_In in H.
  unfold well_formed in W. rewrite Forall_forall in W. now apply W.
Qed.

Lemma merged_row_left_length (A B : DataFrame) (ka kb : string) (i j : nat)
    (how : How) (p : Pairing) :
  well_formed A -> In p (merge_pairs A B i j how) ->
  length (left_part (String.eqb ka kb) i j (length (columns A)) p)
    = length (columns A).
Proof.
  intros W H. apply length_left_part. intros [m a] E.
  destruct (merge_pairs_origin A B i j how p H) as (Ho & _).
  apply (well_formed_nth A m a W). now apply Ho.
Qed.

(** A cell of the left part is the cell of the left row. *)
Lemma merged_row_left_cell (A B : DataFrame) (ka kb : string) (i j : nat)
    (how : How) (p : Pairing) (n m : nat) (a : Row) :
  well_formed A -> In p (merge_pairs A B i j how) ->
  n < length (columns A) -> fst p = Some (m, a) ->
  cell (merged_row A B ka kb i j p) n = cell a n.
Proof.
  intros W H Hn E. unfold merged_row. rewrite join_row_parts.
  rewrite cell_app_l
    by now rewrite (merged_row_left_length A B ka kb i j how p W H).
  unfold left_part. now rewrite E.
Qed.

(** A cell of the right part is the cell of the right row, or missing when
    the pairing has no right row. *)
Lemma merged_row_right_cell (A B : DataFrame) (ka kb : string) (i j : nat)
    (how : How) (p : Pairing) (n : nat) :
  well_formed A -> In p (merge_pairs A B i j how) ->
  cell (merged_row A B ka kb i j p) (length (columns A) + n) =
  match snd p with
  | Some b => cell (right_part (String.eqb ka kb) j (snd b)) n
  | None => NaN
  end.
Proof.
  intros W H. unfold merged_row. rewrite join_row_parts.
  pose proof (merged_row_left_length A B ka kb i j how p W H) as L.
  set (lp := left_part _ _ _ _ _) in *. rewrite <- L, cell_app_r.
  destruct (snd p); [reflexivity | apply cell_repeat_NaN].
Qed.

(** A cell of the left part of a row without left partner is missing,
    unless it is the single key column. *)
Lemma merged_row_left_blank (A B : DataFrame) (ka kb : string) (i j : nat)
    (how : How) (p : Pairing) (n : nat) :
  well_formed A -> In p (merge_pairs A B i j how) ->
  n < length (columns A) -> fst p = None ->
  ~ (String.eqb ka kb = true /\ n = i) ->
  cell (merged_row A B ka kb i j p) n = NaN.
Proof.
  intros W H Hn E N. unfold merged_row. rewrite join_row_parts.
  rewrite cell_app_l
    by now rewrite (merged_row_left_length A B ka kb i j how p W H).
  unfold left_part. rewrite E.
  destruct (snd p) as [b|]; [| apply cell_repeat_NaN].
  destruct (String.eqb ka kb); [| apply cell_repeat_NaN].
  unfold cell. rewrite nth_set_nth_other by (intros X; apply N; now split).
  apply nth_repeat.
Qed.

(** ** Masks on a merged frame whose labels are not renamed *)

Lemma row_eqb_eq (r s : Row) : row_eqb r s = true <-> r = s.
Proof.
  revert s; induction r as [|x r IH]; intros [|y s]; simpl;
    try (split; [discriminate | intros E; discriminate E]).
  - tauto.
  - rewrite andb_true_iff, value_eqb_eq, IH. split.
    + intros [-> ->]. reflexivity.
    + intros [= -> ->]. now split.
Qed.

Lemma row_mem_in (r : Row) (l : list Row) : row_mem r l = true <-> In r l.
Proof.
  unfold row_mem. rewrite existsb_exists. split.
  - intros (s & Hs & E). apply row_eqb_eq in E. now subst.
  - intros H. exists r. split; [assumption | now apply row_eqb_eq].
Qed.

Lemma in_firstn_nth_error (C : Type) (n : nat) (l : list C) (x : C) :
  In x (firstn n l) -> exists k, k < n /\ nth_error l k = Some x.
Proof.
  revert l; induction n as [|n IH]; intros [|y l]; simpl; try tauto.
  intros [-> | H].
  - exists 0. split; [lia | reflexivity].
  - destruct (IH l H) as (k & Hk & E). exists (S k). split; [lia | exact E].
Qed.

Lemma index_of_NoDup (c : string) (l : list string) (n : nat) :
  NoDup l -> nth_error l n = Some c -> index_of c l = Some n.
Proof.
  intros N E. apply first_at_index_of. split; [exact E |].
  intros Hin. apply in_firstn_nth_error in Hin.
  destruct Hin as (k & Hk & Ek).
  assert (k = n); [| lia].
  apply (proj1 (NoDup_nth_error l) N).
  - apply nth_error_Some. congruence.
  - congruence.
Qed.

Lemma mergeable_labels (A B : DataFrame) (ka kb : string) (i j : nat) :
  mergeable A B ka kb i j -> NoDup (merged_labels A B ka kb j).
Proof. now intros (_ & _ & _ & _ & _ & _ & N & _). Qed.

(** The position, in the merged frame, of a label of A and of a label of
    B that the other table does not have. *)
Section MergedLabels.

Variables (A B : DataFrame) (ka kb : string) (j : nat).
Hypothesis N : NoDup (merged_labels A B ka kb j).

Local Abbreviation shared := (String.eqb ka kb).
Local Abbreviation nl := (length (columns A)).

Lemma index_of_tested_left (ca : string) (fa : nat) :
  nth_error (columns A) fa = Some ca ->
  ~ In ca (right_labels shared j B) ->
  index_of ca (merged_labels A B ka kb j) = Some fa.
Proof.
  intros E Hn. apply index_of_NoDup; [exact N |]. unfold merged_labels.
  rewrite nth_error_app1
    by (rewrite length_map; apply nth_error_Some; congruence).
  rewrite nth_error_map, E. simpl. unfold suffixed.
  destruct (has_label ca _) eqn:H; [| reflexivity].
  now apply has_label_in in H.
Qed.

Lemma index_of_tested_right (cb : string) (jf : nat) :
  nth_error (columns B) jf = Some cb ->
  ~ (shared = true /\ jf = j) ->
  ~ In cb (columns A) ->
  index_of cb (merged_labels A B ka kb j)
    = Some (nl + right_position shared j jf).
Proof.
  intros E Hk Hn. apply index_of_NoDup; [exact N |]. unfold merged_labels.
  rewrite nth_error_app2 by (rewrite length_map; lia).
  rewrite length_map, Nat.add_comm, Nat.add_sub, nth_error_map.
  rewrite (nth_error_right_labels shared j jf B Hk), E. simpl.
  unfold suffixed. destruct (has_label cb _) eqn:H; [| reflexivity].
  now apply has_label_in in H.
Qed.

End MergedLabels.

Section MaskCells.

Variables (A B : DataFrame) (ka kb : string) (i j : nat).
Hypothesis W : well_formed A.

Local Abbreviation shared := (String.eqb ka kb).
Local Abbreviation nl := (length (columns A)).
Local Abbreviation mrow := (merged_row A B ka kb i j).

(** The mask on a column of B without missing cell is true exactly on
    the rows without right partner. *)
Lemma mask_right_cell (how : How) (p : Pairing) (jf : nat) :
  In p (merge_pairs A B i j how) ->
  ~ (shared = true /\ jf = j) ->
  (forall b, In b (rows B) -> cell b jf <> NaN) ->
  isna_value (cell (mrow p) (nl + right_position shared j jf))
    = is_none (snd p).
Proof.
  intros Hp N Full.
  rewrite (merged_row_right_cell A B ka kb i j how p _ W Hp).
  destruct (merge_pairs_origin A B i j how p Hp) as (_ & Ob).
  destruct (snd p) as [[n b]|]; [| reflexivity].
  rewrite cell_right_part by exact N. simpl.
  specialize (Ob n b eq_refl). apply nth_error_In, Full in Ob.
  now destruct (cell b jf).
Qed.

(** The mask on a column of A without missing cell, other than the
    single key column, is true exactly on the rows without left
    partner. *)
Lemma mask_left_cell (how : How) (p : Pairing) (fa : nat) :
  In p (merge_pairs A B i j how) ->
  fa < nl ->
  ~ (shared = true /\ fa = i) ->
  (forall a, In a (rows A) -> cell a fa <> NaN) ->
  isna_value (cell (mrow p) fa) = is_none (fst p).
Proof.
  intros Hp Hfa N Full.
  destruct (merge_pairs_origin A B i j how p Hp) as (Oa & _).
  destruct (fst p) as [[m a]|] eqn:E.
  - rewrite (merged_row_left_cell A B ka kb i j how p fa m a W Hp Hfa E).
    specialize (Oa m a eq_refl). apply nth_error_In, Full in Oa.
    simpl. now destruct (cell a fa).
  - now rewrite (merged_row_left_blank A B ka kb i j how p fa W Hp Hfa E N).
Qed.

End MaskCells.

(** ** LEFT JOIN WITH NULL *)




Lemma getitem_mask_map (labels : list string) (rs : list Row)
    (f : Row -> bool) :
  getitem_mask (mkDataFrame labels rs) (map f rs)
    = mkDataFrame labels (filter f rs).
Proof.
  pose proof (rows_getitem_mask_map (mkDataFrame labels rs) f) as E.
  cbn [rows] in E. rewrite <- E. reflexivity.
Qed.


(** ** FULL JOIN WITH NULLS *)

Lemma existsb_partner_in_b (B : DataFrame) (i j : nat) (a : IRow) :
  existsb (key_match (fun r => cell r i) (fun r => cell r j) a)
          (enum (rows B)) =
  existsb (fun b => value_eqb (cell (snd a) i) (cell b j)) (rows B).
Proof.
  rewrite <- (map_snd_enum _ (rows B)) at 2. now rewrite <- existsb_snd.
Qed.

Lemma existsb_partner_in_a (A : DataFrame) (i j : nat) (b : IRow) :
  existsb (fun a => key_match (fun r => cell r i) (fun r => cell r j) a b)
          (enum (rows A)) =
  existsb (fun a => value_eqb (cell a i) (cell (snd b) j)) (rows A).
Proof.
  rewrite <- (map_snd_enum _ (rows A)) at 2. now rewrite <- existsb_snd.
Qed.

Lemma left_alone_rows (A B : DataFrame) (i j : nat) (a : Row) :
  (exists m, left_alone (fun r => cell r i) (fun r => cell r j)
               (enum (rows A)) (enum (rows B)) (Some (m, a), None)) <->
  In a (rows_without_partner_in_b A B i j).
Proof.
  unfold rows_without_partner_in_b, left_alone. rewrite filter_In.
  split.
  - intros (m & a' & [= <-] & Ha & E). split.
    + apply in_enum in Ha. now apply nth_error_In in Ha.
    + rewrite existsb_partner_in_b in E. simpl in E. now rewrite E.
  - intros (Ha & E). apply In_nth_error in Ha. destruct Ha as (m & Ha).
    exists m, (m, a). split; [reflexivity |]. split; [now apply in_enum |].
    rewrite existsb_partner_in_b. simpl. now apply negb_true_iff in E.
Qed.

Lemma right_alone_rows (A B : DataFrame) (i j : nat) (b : Row) :
  (exists n, right_alone (fun r => cell r i) (fun r => cell r j)
               (enum (rows A)) (enum (rows B)) (None, Some (n, b))) <->
  In b (rows_without_partner_in_a A B i j).
Proof.
  unfold rows_without_partner_in_a, right_alone. rewrite filter_In.
  split.
  - intros (n & b' & [= <-] & Hb & E). split.
    + apply in_enum in Hb. now apply nth_error_In in Hb.
    + rewrite existsb_partner_in_a in E. simpl in E. now rewrite E.
  - intros (Hb & E). apply In_nth_error in Hb. destruct Hb as (n & Hb).
    exists n, (n, b). split; [reflexivity |]. split; [now apply in_enum |].
    rewrite existsb_partner_in_a. simpl. now apply negb_true_iff in E.
Qed.

Section FullWithNulls.

Variables (A B : DataFrame) (ka kb : string) (i j fa jf : nat).
Hypothesis W : well_formed A.
Hypothesis Hfa : fa < length (columns A).
Hypothesis Na : ~ (String.eqb ka kb = true /\ fa = i).
Hypothesis Nb : ~ (String.eqb ka kb = true /\ jf = j).
Hypothesis FullA : forall a, In a (rows A) -> cell a fa <> NaN.
Hypothesis FullB : forall b, In b (rows B) -> cell b jf <> NaN.

Local Abbreviation shared := (String.eqb ka kb).
Local Abbreviation mrow := (merged_row A B ka kb i j).
Local Abbreviation full_mask := (full_mask A ka kb j fa jf).

Lemma full_mask_pairing (how : How) (p : Pairing) :
  In p (merge_pairs A B i j how) ->
  full_mask (mrow p) = without_partner p.
Proof.
  intros Hp. unfold full_mask, without_partner.
  rewrite (mask_left_cell A B ka kb i j W how p fa Hp Hfa Na FullA).
  now rewrite (mask_right_cell A B ka kb i j W how p jf Hp Nb FullB).
Qed.

(** The rows that pass the mask are the rows of FULL that are not rows
    of INNER. *)
Lemma full_mask_minus_inner :
  filter full_mask (map mrow (merge_pairs A B i j HowOuter)) =
  filter (fun r => negb (row_mem r
                   (map mrow (merge_pairs A B i j HowInner))))
         (map mrow (merge_pairs A B i j HowOuter)).
Proof.
  rewrite !filter_map_swap. f_equal. apply filter_ext_in. intros p Hp.
  rewrite (full_mask_pairing HowOuter p Hp).
  destruct (row_mem (mrow p) _) eqn:M.
  - apply row_mem_in, in_map_iff in M. destruct M as (q & Eq & Hq).
    pose proof (full_mask_pairing HowInner q Hq) as Mq.
    rewrite Eq, (full_mask_pairing HowOuter p Hp) in Mq. rewrite Mq.
    apply in_inner_pairs in Hq. now destruct Hq as (a & b & -> & _).
  - simpl. destruct (without_partner p) eqn:X; [reflexivity |].
    exfalso. apply in_outer_pairs in Hp.
    destruct Hp as [Hp | [(a & -> & _) | (b & -> & _)]];
      try discriminate X.
    apply in_inner_pairs in Hp.
    apply (in_map mrow) in Hp. apply row_mem_in in Hp.
    unfold merge_pairs, join_pairs in M. congruence.
Qed.

(** They are the padded rows of A without partner and the padded rows
    of B without partner. *)
Lemma full_mask_rows (r : Row) :
  In r (filter full_mask (map mrow (merge_pairs A B i j HowOuter))) <->
  (exists a, In a (rows_without_partner_in_b A B i j) /\
             r = a ++ repeat NaN (length (right_labels shared j B))) \/
  (exists b, In b (rows_without_partner_in_a A B i j) /\
             r = blank_left A ka kb i j b ++ right_part shared j b).
Proof.
  rewrite filter_map_swap, in_map_iff.
  setoid_rewrite <- left_alone_rows. setoid_rewrite <- right_alone_rows.
  split.
  - intros (p & <- & Hp). apply filter_In in Hp. destruct Hp as (Hp & M).
    rewrite (full_mask_pairing HowOuter p Hp) in M.
    apply in_outer_pairs in Hp.
    destruct Hp as [(a & b & -> & _) | [Hp | Hp]]; [discriminate M | |].
    + left. pose proof Hp as ([m a] & -> & _). exists a.
      split; [now exists m | reflexivity].
    + right. pose proof Hp as ([n b] & -> & _). exists b.
      split; [now exists n | reflexivity].
  - intros [(a & (m & Hp) & ->) | (b & (n & Hp) & ->)].
    + exists (Some (m, a), None). split; [reflexivity |].
      assert (In (Some (m, a), None) (merge_pairs A B i j HowOuter))
        as Hin by (apply in_outer_pairs; tauto).
      apply filter_In. split; [exact Hin |].
      now rewrite (full_mask_pairing HowOuter _ Hin).
    + exists (None, Some (n, b)). split; [reflexivity |].
      assert (In (None, Some (n, b)) (merge_pairs A B i j HowOuter))
        as Hin by (apply in_outer_pairs; tauto).
      apply filter_In. split; [exact Hin |].
      now rewrite (full_mask_pairing HowOuter _ Hin).
Qed.

End FullWithNulls.

(** ** The pairings of INNER and the row counts *)



(** * The frames [execute_join] returns *)

(** ** The masked variants *)

Lemma getitem_cells (df : DataFrame) (c : string) (s : list value) :
  getitem df c = Ok s ->
  exists n, s = map (fun r => cell r n) (rows df).
Proof.
  unfold getitem. destruct (index_of c (columns df)) as [n|]; [| discriminate].
  intros [= <-]. now exists n.
Qed.

Lemma masked_frame (df : DataFrame) (n : nat) :
  exists f,
    columns (getitem_mask df (isna (map (fun r => cell r n) (rows df))))
      = columns df /\
    rows (getitem_mask df (isna (map (fun r => cell r n) (rows df))))
      = filter f (rows df).
Proof.
  exists (fun r => isna_value (cell r n)).
  rewrite isna_cells, rows_getitem_mask_map. now split.
Qed.

Lemma masked_frame_or (df : DataFrame) (n m : nat) :
  exists f,
    columns (getitem_mask df
               (mask_or (isna (map (fun r => cell r n) (rows df)))
                        (isna (map (fun r => cell r m) (rows df)))))
      = columns df /\
    rows (getitem_mask df
            (mask_or (isna (map (fun r => cell r n) (rows df)))
                     (isna (map (fun r => cell r m) (rows df)))))
      = filter f (rows df).
Proof.
  exists (fun r => isna_value (cell r n) || isna_value (cell r m)).
  rewrite !isna_cells, mask_or_map, rows_getitem_mask_map. now split.
Qed.

Lemma execute_join_app2_with_null (A B : DataFrame) :
  SQLapp2.execute_join A B "FULL JOIN WITH NULLS"
    = (merged <- merge A B "emp_id" "emp_id" HowOuter ;;
       sa <- getitem merged "name" ;;
       sb <- getitem merged "salary" ;;
       Ok (Some (getitem_mask merged (mask_or (isna sa) (isna sb))))) /\
  SQLapp2.execute_join A B "LEFT JOIN WITH NULL"
    = (merged <- merge A B "emp_id" "emp_id" HowLeft ;;
       sb <- getitem merged "salary" ;;
       Ok (Some (getitem_mask merged (isna sb)))) /\
  SQLapp2.execute_join A B "RIGHT JOIN WITH NULL"
    = (merged <- merge A B "emp_id" "emp_id" HowRight ;;
       sa <- getitem merged "name" ;;
       Ok (Some (getitem_mask merged (isna sa)))).
Proof. repeat split. Qed.

Lemma execute_join_app2_plain (A B : DataFrame) :
  SQLapp2.execute_join A B "INNER JOIN"
    = (merged <- merge A B "emp_id" "emp_id" HowInner ;; Ok (Some merged)) /\
  SQLapp2.execute_join A B "FULL JOIN"
    = (merged <- merge A B "emp_id" "emp_id" HowOuter ;; Ok (Some merged)) /\
  SQLapp2.execute_join A B "LEFT JOIN"
    = (merged <- merge A B "emp_id" "emp_id" HowLeft ;; Ok (Some merged)) /\
  SQLapp2.execute_join A B "RIGHT JOIN"
    = (merged <- merge A B "emp_id" "emp_id" HowRight ;; Ok (Some merged)).
Proof. repeat split. Qed.

(** The three masked frames of [JOINDATASETSV1.execute_join], for tested
    labels found at positions [na] and [nb] of the merged frame. *)
Lemma with_null_frames (A B : DataFrame) (ka kb ca cb : string)
    (i j na nb : nat) :
  mergeable A B ka kb i j ->
  columns_at A 0 = Ok ca ->
  columns_at B 0 = Ok cb ->
  index_of ca (merged_labels A B ka kb j) = Some na ->
  index_of cb (merged_labels A B ka kb j) = Some nb ->
  let frame how f :=
    Ok (Some (mkDataFrame (merged_labels A B ka kb j)
                (kept_rows A B ka kb i j how
                   (fun p => f (merged_row A B ka kb i j p))))) in
  JOINDATASETSV1.execute_join A B "FULL JOIN WITH NULLS" ka kb
    = frame HowOuter
        (fun r => isna_value (cell r na) || isna_value (cell r nb)) /\
  JOINDATASETSV1.execute_join A B "LEFT JOIN WITH NULL" ka kb
    = frame HowLeft (fun r => isna_value (cell r nb)) /\
  JOINDATASETSV1.execute_join A B "RIGHT JOIN WITH NULL" ka kb
    = frame HowRight (fun r => isna_value (cell r na)).
Proof.
  intros M Ca Cb Ea Eb frame. subst frame. unfold kept_rows.
  destruct (execute_join_with_null A B ka kb) as (-> & -> & ->).
  rewrite !(merge_ok _ _ _ _ _ _ _ M). cbn [bind].
  rewrite Ca, Cb. cbn [bind]. unfold getitem. cbn [columns rows].
  rewrite Ea, Eb. cbn [bind].
  rewrite !isna_cells, mask_or_map, !getitem_mask_map, !filter_map_swap.
  repeat split.
Qed.

Section TestedCells.

Variables (A B : DataFrame) (ka kb : string) (i j : nat).
Hypothesis W : well_formed A.

Local Abbreviation shared := (String.eqb ka kb).
Local Abbreviation nl := (length (columns A)).
Local Abbreviation mrow := (merged_row A B ka kb i j).

(** What the mask on a column of B sees. *)
Lemma tested_right_cell (how : How) (p : Pairing) (jf : nat) :
  In p (merge_pairs A B i j how) ->
  ~ (shared = true /\ jf = j) ->
  isna_value (cell (mrow p) (nl + right_position shared j jf))
    = missing_on_right jf p.
Proof.
  intros Hp N. unfold missing_on_right.
  rewrite (merged_row_right_cell A B ka kb i j how p _ W Hp).
  destruct (snd p) as [[n b]|]; [| reflexivity].
  now rewrite cell_right_part by exact N.
Qed.

(** What the mask on a column of A other than the single key column
    sees. *)
Lemma tested_left_cell (how : How) (p : Pairing) (fa : nat) :
  In p (merge_pairs A B i j how) ->
  fa < nl ->
  ~ (shared = true /\ fa = i) ->
  isna_value (cell (mrow p) fa) = missing_on_left fa p.
Proof.
  intros Hp Hfa N. unfold missing_on_left.
  destruct (fst p) as [[m a]|] eqn:E.
  - now rewrite (merged_row_left_cell A B ka kb i j how p fa m a W Hp Hfa E).
  - now rewrite (merged_row_left_blank A B ka kb i j how p fa W Hp Hfa E N).
Qed.

(** A row of A without partner is kept by every test that lets the
    rows without right partner pass, and likewise for B. *)
Lemma kept_row_of_a (how : How) (f : Pairing -> bool) (a : Row) :
  how = HowLeft \/ how = HowOuter ->
  (forall p, snd p = None -> f p = true) ->
  In a (rows_without_partner_in_b A B i j) ->
  In (pad_right A B ka kb j a) (kept_rows A B ka kb i j how f).
Proof.
  intros Hh Hf Ha. apply left_alone_rows in Ha. destruct Ha as (m & Ha).
  unfold kept_rows.
  apply (in_map mrow _ (Some (m, a), None)), filter_In.
  split; [| now apply Hf].
  unfold merge_pairs. destruct Hh as [-> | ->]; cbn [join_pairs].
  - apply in_left_pairs. now right.
  - apply in_outer_pairs. tauto.
Qed.

Lemma kept_row_of_b (how : How) (f : Pairing -> bool) (b : Row) :
  how = HowRight \/ how = HowOuter ->
  (forall p, fst p = None -> f p = true) ->
  In b (rows_without_partner_in_a A B i j) ->
  In (pad_left A ka kb i j b) (kept_rows A B ka kb i j how f).
Proof.
  intros Hh Hf Hb. apply right_alone_rows in Hb. destruct Hb as (n & Hb).
  unfold kept_rows.
  apply (in_map mrow _ (None, Some (n, b))), filter_In.
  split; [| now apply Hf].
  unfold merge_pairs. destruct Hh as [-> | ->]; cbn [join_pairs].
  - apply in_right_pairs. now right.
  - apply in_outer_pairs. tauto.
Qed.

End TestedCells.

Lemma kept_rows_ext (A B : DataFrame) (ka kb : string) (i j : nat)
    (how : How) (f g : Pairing -> bool) :
  (forall p, In p (merge_pairs A B i j how) -> f p = g p) ->
  kept_rows A B ka kb i j how f = kept_rows A B ka kb i j how g.
Proof.
  intros H. unfold kept_rows. f_equal. now apply filter_ext_in.
Qed.

(** The frame of each masked variant, in both files, for a tested label
    of A at position [fa] and a tested label of B at position [jf] that
    the merge does not rename.  [JOINDATASETSV1] tests the first label of
    each table, [SQLapp2] the labels [name] and [salary]. *)
Section MaskedFrames.

Variables (A B : DataFrame) (ka kb : string) (i j : nat).
Hypothesis M : mergeable A B ka kb i j.

Local Abbreviation shared := (String.eqb ka kb).
Local Abbreviation nl := (length (columns A)).
Local Abbreviation labels := (merged_labels A B ka kb j).
Local Abbreviation all_rows how :=
  (map (merged_row A B ka kb i j) (merge_pairs A B i j how)).

Lemma left_with_null_frame (cb : string) (jf : nat) :
  nth_error (columns B) jf = Some cb ->
  ~ In cb (columns A) ->
  ~ (shared = true /\ jf = j) ->
  let frame :=
    Ok (Some (mkDataFrame labels
      (filter (fun r => isna_value (cell r (nl + right_position shared j jf)))
              (all_rows HowLeft)))) in
  (jf = 0 ->
   JOINDATASETSV1.execute_join A B "LEFT JOIN WITH NULL" ka kb = frame) /\
  (ka = "emp_id"%string -> kb = "emp_id"%string -> cb = "salary"%string ->
   SQLapp2.execute_join A B "LEFT JOIN WITH NULL" = frame).
Proof.
  intros Hcb Hn Hk frame. subst frame.
  pose proof (index_of_tested_right A B ka kb j
                (mergeable_labels _ _ _ _ _ _ M) cb jf Hcb Hk Hn) as Eb.
  split.
  - intros ->.
    destruct (execute_join_with_null A B ka kb) as (_ & -> & _).
    rewrite (merge_ok _ _ _ _ _ _ _ M). cbn [bind].
    unfold columns_at. rewrite Hcb. cbn [bind].
    unfold getitem. cbn [columns rows]. rewrite Eb. cbn [bind].
    now rewrite isna_cells, getitem_mask_map.
  - intros Ea Eb' Ec. subst ka kb cb.
    destruct (execute_join_app2_with_null A B) as (_ & -> & _).
    rewrite (merge_ok _ _ _ _ _ _ _ M). cbn [bind].
    unfold getitem. cbn [columns rows]. rewrite Eb. cbn [bind].
    now rewrite isna_cells, getitem_mask_map.
Qed.

Lemma right_with_null_frame (ca : string) (fa : nat) :
  nth_error (columns A) fa = Some ca ->
  ~ In ca (right_labels shared j B) ->
  let frame :=
    Ok (Some (mkDataFrame labels
      (filter (fun r => isna_value (cell r fa)) (all_rows HowRight)))) in
  (fa = 0 ->
   JOINDATASETSV1.execute_join A B "RIGHT JOIN WITH NULL" ka kb = frame) /\
  (ka = "emp_id"%string -> kb = "emp_id"%string -> ca = "name"%string ->
   SQLapp2.execute_join A B "RIGHT JOIN WITH NULL" = frame).
Proof.
  intros Hca Hn frame. subst frame.
  pose proof (index_of_tested_left A B ka kb j
                (mergeable_labels _ _ _ _ _ _ M) ca fa Hca Hn) as Ea.
  split.
  - intros ->.
    destruct (execute_join_with_null A B ka kb) as (_ & _ & ->).
    rewrite (merge_ok _ _ _ _ _ _ _ M). cbn [bind].
    unfold columns_at. rewrite Hca. cbn [bind].
    unfold getitem. cbn [columns rows]. rewrite Ea. cbn [bind].
    now rewrite isna_cells, getitem_mask_map.
  - intros Ea' Eb' Ec. subst ka kb ca.
    destruct (execute_join_app2_with_null A B) as (_ & _ & ->).
    rewrite (merge_ok _ _ _ _ _ _ _ M). cbn [bind].
    unfold getitem. cbn [columns rows]. rewrite Ea. cbn [bind].
    now rewrite isna_cells, getitem_mask_map.
Qed.

Lemma full_with_nulls_frame (ca cb : string) (fa jf : nat) :
  nth_error (columns A) fa = Some ca ->
  nth_error (columns B) jf = Some cb ->
  ~ In ca (right_labels shared j B) ->
  ~ In cb (columns A) ->
  ~ (shared = true /\ jf = j) ->
  let frame :=
    Ok (Some (mkDataFrame labels
      (filter (full_mask A ka kb j fa jf) (all_rows HowOuter)))) in
  (fa = 0 -> jf = 0 ->
   JOINDATASETSV1.execute_join A B "FULL JOIN WITH NULLS" ka kb = frame) /\
  (ka = "emp_id"%string -> kb = "emp_id"%string ->
   ca = "name"%string -> cb = "salary"%string ->
   SQLapp2.execute_join A B "FULL JOIN WITH NULLS" = frame).
Proof.
  intros Hca Hcb Hna Hnb Hk frame. subst frame.
  pose proof (index_of_tested_left A B ka kb j
                (mergeable_labels _ _ _ _ _ _ M) ca fa Hca Hna) as Ea.
  pose proof (index_of_tested_right A B ka kb j
                (mergeable_labels _ _ _ _ _ _ M) cb jf Hcb Hk Hnb) as Eb.
  split.
  - intros -> ->.
    destruct (execute_join_with_null A B ka kb) as (-> & _ & _).
    rewrite (merge_ok _ _ _ _ _ _ _ M). cbn [bind].
    unfold columns_at. rewrite Hca, Hcb. cbn [bind].
    unfold getitem. cbn [columns rows]. rewrite Ea. cbn [bind].
    rewrite Eb. cbn [bind].
    now rewrite !isna_cells, mask_or_map, getitem_mask_map.
  - intros E1 E2 E3 E4. subst ka kb ca cb.
    destruct (execute_join_app2_with_null A B) as (-> & _ & _).
    rewrite (merge_ok _ _ _ _ _ _ _ M). cbn [bind].
    unfold getitem. cbn [columns rows]. rewrite Ea. cbn [bind].
    rewrite Eb. cbn [bind].
    now rewrite !isna_cells, mask_or_map, getitem_mask_map.
Qed.

(** The plain variants, in both files. *)
Lemma plain_frames :
  let frame how := Ok (Some (mkDataFrame labels (all_rows how))) in
  (JOINDATASETSV1.execute_join A B "INNER JOIN" ka kb = frame HowInner /\
   JOINDATASETSV1.execute_join A B "FULL JOIN" ka kb = frame HowOuter /\
   JOINDATASETSV1.execute_join A B "LEFT JOIN" ka kb = frame HowLeft /\
   JOINDATASETSV1.execute_join A B "RIGHT JOIN" ka kb = frame HowRight) /\
  (ka = "emp_id"%string -> kb = "emp_id"%string ->
   SQLapp2.execute_join A B "INNER JOIN" = frame HowInner /\
   SQLapp2.execute_join A B "FULL JOIN" = frame HowOuter /\
   SQLapp2.execute_join A B "LEFT JOIN" = frame HowLeft /\
   SQLapp2.execute_join A B "RIGHT JOIN" = frame HowRight).
Proof.
  intros frame. subst frame.
  pose proof (execute_join_plain_ok A B ka kb i j M) as P. cbn zeta in P.
  split; [exact P |]. intros Ea Eb. subst ka kb.
  rewrite (SQLapp2_plain A B "INNER JOIN"), (SQLapp2_plain A B "FULL JOIN"),
    (SQLapp2_plain A B "LEFT JOIN"), (SQLapp2_plain A B "RIGHT JOIN")
    by (simpl; tauto).
  exact P.
Qed.

End MaskedFrames.

(** * The claims *)

(** The example tables are tables [merge] accepts. *)
Lemma sample_mergeable : mergeable sample_a sample_b "emp_id" "emp_id" 0 0.
Proof. apply mergeableb_spec. reflexivity. Qed.

Lemma staff_pay_mergeable :
  mergeable staff_by_name pay_by_salary "emp_id" "emp_id" 1 1.
Proof. apply mergeableb_spec. reflexivity. Qed.


Lemma staff_no_missing_name (a : Row) :
  In a (rows staff_by_name) -> nth 0 a NaN <> NaN.
Proof.
  simpl. intros [<- | [<- | []]]; discriminate.
Qed.

Lemma pay_no_missing_salary (b : Row) :
  In b (rows pay_by_salary) -> nth 0 b NaN <> NaN.
Proof.
  simpl. intros [<- | [<- | []]]; discriminate.
Qed.

(** ** C1 *)





(** ** C2 *)

(** C2.  The sample tables joined on [emp_id], for the seven labels in the
    order INNER, FULL, FULL WITH NULLS, LEFT, LEFT WITH NULL, RIGHT, RIGHT
    WITH NULL.  [SQLapp2.execute_join] returns 3, 7, 4, 5, 2, 5 and 2 rows,
    with [emp_id] 2, 3, 4 for INNER, 1, 5 for LEFT WITH NULL and 6, 7 for
    RIGHT WITH NULL.  [JOINDATASETSV1.execute_join] returns the same counts
    for the four plain variants and no row at all for the three WITH NULL
    variants: its masks test the first column of each table, which here is
    the single [emp_id] column of the merged frame and is never missing. *)
Theorem sample_data_row_counts :
  map (fun t => row_count (SQLapp2.execute_join sample_a sample_b t))
      join_types
    = [Some 3; Some 7; Some 4; Some 5; Some 2; Some 5; Some 2] /\
  column_cells (SQLapp2.execute_join sample_a sample_b "INNER JOIN") "emp_id"
    = Some [VInt 2; VInt 3; VInt 4] /\
  column_cells (SQLapp2.execute_join sample_a sample_b "LEFT JOIN WITH NULL")
               "emp_id"
    = Some [VInt 1; VInt 5] /\
  column_cells (SQLapp2.execute_join sample_a sample_b "RIGHT JOIN WITH NULL")
               "emp_id"
    = Some [VInt 6; VInt 7] /\
  map (fun t => row_count (JOINDATASETSV1.execute_join sample_a sample_b t
                                           "emp_id" "emp_id"))
      join_types
    = [Some 3; Some 7; Some 0; Some 5; Some 0; Some 5; Some 0].
Proof. repeat split. Qed.

(** ** C3 *)

(** Against C3 as stated: the two rows are matched on [emp_id] 1, so FULL
    minus INNER is empty and no row of FULL lacks a key; yet FULL JOIN
    WITH NULLS returns the matched row, whose key is present, in both
    files. *)
Lemma full_with_nulls_returns_matched_row :
  exists res full inner,
    JOINDATASETSV1.execute_join staff pay_without_salary
        "FULL JOIN WITH NULLS" "emp_id" "emp_id" = Ok (Some res) /\
    SQLapp2.execute_join staff pay_without_salary "FULL JOIN WITH NULLS"
      = Ok (Some res) /\
    JOINDATASETSV1.execute_join staff pay_without_salary
        "FULL JOIN" "emp_id" "emp_id" = Ok (Some full) /\
    JOINDATASETSV1.execute_join staff pay_without_salary
        "INNER JOIN" "emp_id" "emp_id" = Ok (Some inner) /\
    rows res = [ [VInt 1; VStr "John"; NaN] ] /\
    rows inner = [ [VInt 1; VStr "John"; NaN] ] /\
    getitem res "emp_id" = Ok [VInt 1] /\
    rows res <> filter (fun r => negb (row_mem r (rows inner))) (rows full).
Proof.
  eexists _, _, _. repeat split. discriminate.
Qed.

(** C3, amended.  FULL JOIN WITH NULLS returns the FULL result filtered to
    the rows whose cell in a fixed column of A or in a fixed column of B
    is missing: the first column of each table in [JOINDATASETSV1], the
    columns [name] and [salary] in [SQLapp2].  On tables [merge] accepts,
    provided the two tested labels are not labels of the other table (the
    merge does not rename them), neither tested column is the single key
    column of two keys with one label, and neither holds a missing cell in
    its table: the result is the FULL result filtered to the rows whose
    cell in one of the two tested columns is missing, its rows are exactly
    the rows of FULL that are not rows of INNER, and they are the rows of
    A without partner padded with missing B cells and the rows of B
    without partner padded with missing A cells. *)
Theorem full_with_nulls_unmatched_rows (A B : DataFrame)
    (ka kb ca cb : string) (i j fa jf : nat) :
  mergeable A B ka kb i j ->
  nth_error (columns A) fa = Some ca ->
  nth_error (columns B) jf = Some cb ->
  ~ In ca (right_labels (String.eqb ka kb) j B) ->
  ~ In cb (columns A) ->
  ~ (String.eqb ka kb = true /\ fa = i) ->
  ~ (String.eqb ka kb = true /\ jf = j) ->
  (forall a, In a (rows A) -> nth fa a NaN <> NaN) ->
  (forall b, In b (rows B) -> nth jf b NaN <> NaN) ->
  exists res full inner,
    (fa = 0 -> jf = 0 ->
     JOINDATASETSV1.execute_join A B "FULL JOIN WITH NULLS" ka kb
       = Ok (Some res)) /\
    (ka = "emp_id"%string -> kb = "emp_id"%string ->
     ca = "name"%string -> cb = "salary"%string ->
     SQLapp2.execute_join A B "FULL JOIN WITH NULLS" = Ok (Some res)) /\
    JOINDATASETSV1.execute_join A B "FULL JOIN" ka kb = Ok (Some full) /\
    JOINDATASETSV1.execute_join A B "INNER JOIN" ka kb = Ok (Some inner) /\
    (ka = "emp_id"%string -> kb = "emp_id"%string ->
     SQLapp2.execute_join A B "FULL JOIN" = Ok (Some full) /\
     SQLapp2.execute_join A B "INNER JOIN" = Ok (Some inner)) /\
    columns res = columns full /\
    rows res =
      filter (fun r =>
                isna_value (nth fa r NaN) ||
                isna_value (nth (length (columns A) +
                                 right_position (String.eqb ka kb) j jf)
                                r NaN))
             (rows full) /\
    rows res = filter (fun r => negb (row_mem r (rows inner))) (rows full) /\
    forall r, In r (rows res) <->
      (exists a, In a (rows_without_partner_in_b A B i j) /\
                 r = a ++ repeat NaN
                       (length (right_labels (String.eqb ka kb) j B))) \/
      (exists b, In b (rows_without_partner_in_a A B i j) /\
                 r = blank_left A ka kb i j b ++
                     right_part (String.eqb ka kb) j b).
Proof.
  intros M Hca Hcb Hna Hnb Na Nb FullA FullB.
  destruct (mergeable_well_formed _ _ _ _ _ _ M) as (W & _).
  assert (Hfa : fa < length (columns A))
    by (apply nth_error_Some; congruence).
  destruct (plain_frames A B ka kb i j M) as ((EI & EF & _ & _) & E2).
  destruct (full_with_nulls_frame A B ka kb i j M ca cb fa jf
              Hca Hcb Hna Hnb Nb) as (E1 & E1').
  eexists _, _, _.
  split; [exact E1 |]. split; [exact E1' |].
  split; [exact EF |]. split; [exact EI |].
  split; [intros Ea Eb; destruct (E2 Ea Eb) as (H1 & H2 & _); now split |].
  cbn [columns rows]. split; [reflexivity |]. split; [reflexivity |].
  split.
  - now apply full_mask_minus_inner.
  - now apply full_mask_rows.
Qed.

Lemma full_with_nulls_unmatched_rows_witness :
  exists res full inner,
    (0 = 0 -> 0 = 0 ->
     JOINDATASETSV1.execute_join staff_by_name pay_by_salary
       "FULL JOIN WITH NULLS" "emp_id" "emp_id" = Ok (Some res)) /\
    ("emp_id"%string = "emp_id"%string -> "emp_id"%string = "emp_id"%string ->
     "name"%string = "name"%string -> "salary"%string = "salary"%string ->
     SQLapp2.execute_join staff_by_name pay_by_salary
       "FULL JOIN WITH NULLS" = Ok (Some res)) /\
    JOINDATASETSV1.execute_join staff_by_name pay_by_salary
      "FULL JOIN" "emp_id" "emp_id" = Ok (Some full) /\
    JOINDATASETSV1.execute_join staff_by_name pay_by_salary
      "INNER JOIN" "emp_id" "emp_id" = Ok (Some inner) /\
    ("emp_id"%string = "emp_id"%string -> "emp_id"%string = "emp_id"%string ->
     SQLapp2.execute_join staff_by_name pay_by_salary "FULL JOIN"
       = Ok (Some full) /\
     SQLapp2.execute_join staff_by_name pay_by_salary "INNER JOIN"
       = Ok (Some inner)) /\
    columns res = columns full /\
    rows res =
      filter (fun r =>
                isna_value (nth 0 r NaN) ||
                isna_value (nth (length (columns staff_by_name) +
                                 right_position
                                   (String.eqb "emp_id" "emp_id") 1 0)
                                r NaN))
             (rows full) /\
    rows res = filter (fun r => negb (row_mem r (rows inner))) (rows full) /\
    forall r, In r (rows res) <->
      (exists a,
         In a (rows_without_partner_in_b staff_by_name pay_by_salary 1 1) /\
         r = a ++ repeat NaN
               (length (right_labels (String.eqb "emp_id" "emp_id")
                                     1 pay_by_salary))) \/
      (exists b,
         In b (rows_without_partner_in_a staff_by_name pay_by_salary 1 1) /\
         r = blank_left staff_by_name "emp_id" "emp_id" 1 1 b ++
             right_part (String.eqb "emp_id" "emp_id") 1 b).
Proof.
  apply (full_with_nulls_unmatched_rows staff_by_name pay_by_salary
           "emp_id"%string "emp_id"%string "name"%string "salary"%string
           1 1 0 0).
  - exact staff_pay_mergeable.
  - reflexivity.
  - reflexivity.
  - simpl. intros [H | []]. discriminate H.
  - simpl. intros [H | [H | []]]; discriminate H.
  - intros [_ H]. discriminate H.
  - intros [_ H]. discriminate H.
  - exact staff_no_missing_name.
  - exact pay_no_missing_salary.
Defined.

(** ** C4 *)




(** ** C5 *)

(** Rows of a frame returned by [SQLapp2.execute_join]. *)
Lemma execute_join_rows_app2 (A B : DataFrame) (t : string) (i j : nat)
    (res : DataFrame) :
  mergeable A B "emp_id" "emp_id" i j ->
  SQLapp2.execute_join A B t = Ok (Some res) ->
  exists how pairs,
    incl pairs (merge_pairs A B i j how) /\
    columns res = merged_labels A B "emp_id" "emp_id" j /\
    rows res = map (merged_row A B "emp_id" "emp_id" i j) pairs.
Proof.
  intros M. unfold SQLapp2.execute_join, merge_on.
  assert (plain : forall how,
    merged <- merge A B "emp_id" "emp_id" how ;; Ok (Some merged)
      = Ok (Some res) ->
    exists how pairs,
      incl pairs (merge_pairs A B i j how) /\
      columns res = merged_labels A B "emp_id" "emp_id" j /\
      rows res = map (merged_row A B "emp_id" "emp_id" i j) pairs).
  { intros how. rewrite (merge_ok _ _ _ _ _ _ how M). cbn [bind].
    intros [= <-]. exists how, (merge_pairs A B i j how).
    split; [apply incl_refl | split; reflexivity]. }
  assert (masked : forall how df (f : Row -> bool),
    df = mkDataFrame (merged_labels A B "emp_id" "emp_id" j)
           (map (merged_row A B "emp_id" "emp_id" i j)
                (merge_pairs A B i j how)) ->
    Ok (Some (getitem_mask df (map f (rows df)))) = Ok (Some res) ->
    exists how pairs,
      incl pairs (merge_pairs A B i j how) /\
      columns res = merged_labels A B "emp_id" "emp_id" j /\
      rows res = map (merged_row A B "emp_id" "emp_id" i j) pairs).
  { intros how df f -> [= <-]. exists how. eexists.
    split; [| split; [reflexivity |]].
    2: { rewrite rows_getitem_mask_map. cbn [rows].
         rewrite filter_map_swap. reflexivity. }
    apply incl_filter. }
  destruct (String.eqb t "INNER JOIN"); [apply plain |].
  destruct (String.eqb t "FULL JOIN"); [apply plain |].
  destruct (String.eqb t "FULL JOIN WITH NULLS").
  { rewrite (merge_ok _ _ _ _ _ _ HowOuter M). cbn [bind].
    unfold getitem.
    destruct (index_of "name" _) as [na|]; cbn [bind]; [| discriminate].
    destruct (index_of "salary" _) as [nb|]; cbn [bind]; [| discriminate].
    rewrite !isna_cells, mask_or_map. now apply masked with (how := HowOuter). }
  destruct (String.eqb t "LEFT JOIN"); [apply plain |].
  destruct (String.eqb t "LEFT JOIN WITH NULL").
  { rewrite (merge_ok _ _ _ _ _ _ HowLeft M). cbn [bind].
    unfold getitem.
    destruct (index_of "salary" _) as [nb|]; cbn [bind]; [| discriminate].
    rewrite isna_cells. now apply masked with (how := HowLeft). }
  destruct (String.eqb t "RIGHT JOIN"); [apply plain |].
  destruct (String.eqb t "RIGHT JOIN WITH NULL"); [| discriminate].
  rewrite (merge_ok _ _ _ _ _ _ HowRight M). cbn [bind].
  unfold getitem.
  destruct (index_of "name" _) as [na|]; cbn [bind]; [| discriminate].
  rewrite isna_cells. now apply masked with (how := HowRight).
Qed.

(** In both files. *)
Lemma execute_join_rows_both (A B : DataFrame) (t ka kb : string)
    (i j : nat) (res : DataFrame) :
  mergeable A B ka kb i j ->
  JOINDATASETSV1.execute_join A B t ka kb = Ok (Some res) \/
  (ka = "emp_id"%string /\ kb = "emp_id"%string /\
   SQLapp2.execute_join A B t = Ok (Some res)) ->
  exists how pairs,
    incl pairs (merge_pairs A B i j how) /\
    columns res = merged_labels A B ka kb j /\
    rows res = map (merged_row A B ka kb i j) pairs.
Proof.
  intros M [E | (-> & -> & E)].
  - now apply (execute_join_rows A B t ka kb i j res M).
  - now apply (execute_join_rows_app2 A B t i j res M).
Qed.




(** ** C6 *)






(** ** C7 *)

(** C7.  With both keys among the columns of their tables the function
    still raises [KeyError].  The two tables share the label [id], which
    is the first label of B; LEFT JOIN returns the merged frame, where the
    merge has renamed the two columns to [id_x] and [id_y]; the mask of
    LEFT JOIN WITH NULL looks the first label of B up in that frame under
    its old name, and the call raises [KeyError] for [id]. *)
Theorem key_error_with_valid_keys :
  In "cust"%string (columns customers) /\
  In "cust_ref"%string (columns orders) /\
  columns_at orders 0 = Ok "id"%string /\
  JOINDATASETSV1.execute_join customers orders
      "LEFT JOIN" "cust" "cust_ref"
    = Ok (Some (mkDataFrame ["cust"; "id_x"; "id_y"; "cust_ref"]%string
                  [ [VStr "ann"; VInt 10; VInt 77; VStr "ann"] ])) /\
  JOINDATASETSV1.execute_join customers orders
      "LEFT JOIN WITH NULL" "cust" "cust_ref"
    = Raise (KeyError "id").
Proof. simpl. tauto. Qed.

(** ** C8 *)

(** C8.  The tables share the label [id] besides their keys.  RIGHT JOIN
    keeps both columns, as [id_x] and [id_y]; RIGHT JOIN WITH NULL returns
    no frame at all: its mask looks the first label of A, [id], up in the
    merged frame, where the column is now [id_x], and the call raises
    [KeyError].  In [SQLapp2] the same happens when B has a column
    [name]. *)
Theorem shared_label_breaks_with_null_variant :
  In "id"%string (columns orders) /\ In "id"%string (columns customers) /\
  JOINDATASETSV1.execute_join orders customers
      "RIGHT JOIN WITH NULL" "cust_ref" "cust"
    = Raise (KeyError "id") /\
  JOINDATASETSV1.execute_join orders customers "RIGHT JOIN" "cust_ref" "cust"
    = Ok (Some (mkDataFrame ["id_x"; "cust_ref"; "cust"; "id_y"]%string
                  [ [VInt 77; VStr "ann"; VStr "ann"; VInt 10] ])) /\
  SQLapp2.execute_join staff named_pay "RIGHT JOIN"
    = Ok (Some (mkDataFrame ["emp_id"; "name_x"; "name_y"]%string
                  [ [VInt 1; VStr "John"; VStr "J. Doe"] ])) /\
  SQLapp2.execute_join staff named_pay "RIGHT JOIN WITH NULL"
    = Raise (KeyError "name").
Proof. simpl. tauto. Qed.

(** ** C9 *)

(** C9.  A [join_type] that is none of the seven labels falls through
    every comparison: [execute_join] returns no frame ([None]) and raises
    nothing, in both files and whatever the frames and the keys. *)
Theorem unknown_join_type_returns_none (A B : DataFrame)
    (t ka kb : string) :
  ~ In t join_types ->
  JOINDATASETSV1.execute_join A B t ka kb = Ok None /\
  SQLapp2.execute_join A B t = Ok None.
Proof.
  intros H. unfold JOINDATASETSV1.execute_join, SQLapp2.execute_join.
  repeat match goal with
         | |- context [String.eqb t ?s] =>
             destruct (String.eqb_spec t s) as [-> | _];
             [exfalso; apply H; simpl; tauto |]
         end.
  split; reflexivity.
Qed.

Lemma unknown_join_type_returns_none_witness :
  JOINDATASETSV1.execute_join sample_a sample_b "CROSS JOIN" "emp_id" "emp_id"
    = Ok None /\
  SQLapp2.execute_join sample_a sample_b "CROSS JOIN" = Ok None.
Proof.
  apply (unknown_join_type_returns_none sample_a sample_b
           "CROSS JOIN"%string "emp_id"%string "emp_id"%string).
  simpl. intros H.
  repeat (destruct H as [H | H]; [discriminate H |]). exact H.
Defined.

(** ** C10 *)


(** * Further properties of [execute_join] *)

(** ** The masked variants and their plain variant *)

(** X1.  A WITH NULL variant never adds or alters a row: whenever it
    returns a frame, its plain variant returns a frame on the same
    arguments, with the same columns, and the rows of the WITH NULL frame
    are the rows of the plain frame that pass a test, in the same order.
    This holds in both files, for every input. *)
Theorem with_null_filters_plain (A B : DataFrame) (t base ka kb : string)
    (res : DataFrame) :
  In (t, base) with_null_bases ->
  (JOINDATASETSV1.execute_join A B t ka kb = Ok (Some res) ->
   exists plain f,
     JOINDATASETSV1.execute_join A B base ka kb = Ok (Some plain) /\
     columns res = columns plain /\
     rows res = filter f (rows plain)) /\
  (SQLapp2.execute_join A B t = Ok (Some res) ->
   exists plain f,
     SQLapp2.execute_join A B base = Ok (Some plain) /\
     columns res = columns plain /\
     rows res = filter f (rows plain)).
Proof.
  intros Ht.
  destruct (execute_join_plain A B ka kb) as (_ & EF & EL & ER).
  destruct (execute_join_with_null A B ka kb) as (EFN & ELN & ERN).
  destruct (execute_join_app2_plain A B) as (_ & EF2 & EL2 & ER2).
  destruct (execute_join_app2_with_null A B) as (EFN2 & ELN2 & ERN2).
  simpl in Ht.
  destruct Ht as [E | [E | [E | []]]]; injection E as <- <-; split.
  - rewrite EFN, EF. destruct (merge A B ka kb HowOuter) as [m|e];
      cbn [bind]; [| discriminate]. unfold columns_at.
    destruct (nth_error (columns A) 0) as [ca|]; cbn [bind]; [| discriminate].
    destruct (getitem m ca) as [sa|] eqn:Ga; cbn [bind]; [| discriminate].
    destruct (nth_error (columns B) 0) as [cb|]; cbn [bind]; [| discriminate].
    destruct (getitem m cb) as [sb|] eqn:Gb; cbn [bind]; [| discriminate].
    intros [= <-]. apply getitem_cells in Ga, Gb.
    destruct Ga as (n & ->), Gb as (n' & ->).
    destruct (masked_frame_or m n n') as (f & Hc & Hr). now exists m, f.
  - rewrite EFN2, EF2. destruct (merge A B "emp_id" "emp_id" HowOuter) as [m|e];
      cbn [bind]; [| discriminate].
    destruct (getitem m "name") as [sa|] eqn:Ga; cbn [bind]; [| discriminate].
    destruct (getitem m "salary") as [sb|] eqn:Gb; cbn [bind];
      [| discriminate].
    intros [= <-]. apply getitem_cells in Ga, Gb.
    destruct Ga as (n & ->), Gb as (n' & ->).
    destruct (masked_frame_or m n n') as (f & Hc & Hr). now exists m, f.
  - rewrite ELN, EL. destruct (merge A B ka kb HowLeft) as [m|e];
      cbn [bind]; [| discriminate]. unfold columns_at.
    destruct (nth_error (columns B) 0) as [cb|]; cbn [bind]; [| discriminate].
    destruct (getitem m cb) as [sb|] eqn:Gb; cbn [bind]; [| discriminate].
    intros [= <-]. apply getitem_cells in Gb. destruct Gb as (n & ->).
    destruct (masked_frame m n) as (f & Hc & Hr). now exists m, f.
  - rewrite ELN2, EL2. destruct (merge A B "emp_id" "emp_id" HowLeft) as [m|e];
      cbn [bind]; [| discriminate].
    destruct (getitem m "salary") as [sb|] eqn:Gb; cbn [bind];
      [| discriminate].
    intros [= <-]. apply getitem_cells in Gb. destruct Gb as (n & ->).
    destruct (masked_frame m n) as (f & Hc & Hr). now exists m, f.
  - rewrite ERN, ER. destruct (merge A B ka kb HowRight) as [m|e];
      cbn [bind]; [| discriminate]. unfold columns_at.
    destruct (nth_error (columns A) 0) as [ca|]; cbn [bind]; [| discriminate].
    destruct (getitem m ca) as [sa|] eqn:Ga; cbn [bind]; [| discriminate].
    intros [= <-]. apply getitem_cells in Ga. destruct Ga as (n & ->).
    destruct (masked_frame m n) as (f & Hc & Hr). now exists m, f.
  - rewrite ERN2, ER2. destruct (merge A B "emp_id" "emp_id" HowRight) as [m|e];
      cbn [bind]; [| discriminate].
    destruct (getitem m "name") as [sa|] eqn:Ga; cbn [bind]; [| discriminate].
    intros [= <-]. apply getitem_cells in Ga. destruct Ga as (n & ->).
    destruct (masked_frame m n) as (f & Hc & Hr). now exists m, f.
Qed.

Lemma with_null_filters_plain_witness :
  In ("LEFT JOIN WITH NULL", "LEFT JOIN")%string with_null_bases /\
  exists plain f,
    SQLapp2.execute_join sample_a sample_b "LEFT JOIN" = Ok (Some plain) /\
    ["emp_id"; "name"; "department"; "salary"; "bonus"]%string
      = columns plain /\
    [ [VInt 1; VStr "John"; VStr "IT"; NaN; NaN];
      [VInt 5; VStr "Charlie"; VStr "Marketing"; NaN; NaN] ]
      = filter f (rows plain).
Proof.
  split; [simpl; tauto |].
  apply (with_null_filters_plain sample_a sample_b
           "LEFT JOIN WITH NULL"%string "LEFT JOIN"%string
           "emp_id"%string "emp_id"%string
           (mkDataFrame
              ["emp_id"; "name"; "department"; "salary"; "bonus"]%string
              [ [VInt 1; VStr "John"; VStr "IT"; NaN; NaN];
                [VInt 5; VStr "Charlie"; VStr "Marketing"; NaN; NaN] ])).
  - simpl. tauto.
  - reflexivity.
Defined.

(** ** The shape of the returned frame *)

Lemma getitem_mask_incl (df : DataFrame) (mask : list bool) :
  columns (getitem_mask df mask) = columns df /\
  incl (rows (getitem_mask df mask)) (rows df).
Proof.
  split; [reflexivity |]. intros r Hr. unfold getitem_mask in Hr.
  cbn [rows] in Hr. apply in_map_iff in Hr.
  destruct Hr as ([b r'] & <- & Hr). apply filter_In in Hr.
  destruct Hr as (Hr & _). now apply in_combine_r in Hr.
Qed.

(** Whatever the cells, a frame [execute_join] returns has the columns of
    a frame [merge] returned and some of its rows. *)
Lemma execute_join_of_merge (A B : DataFrame) (t ka kb : string)
    (res : DataFrame) :
  JOINDATASETSV1.execute_join A B t ka kb = Ok (Some res) ->
  exists how m,
    merge A B ka kb how = Ok m /\
    columns res = columns m /\ incl (rows res) (rows m).
Proof.
  unfold JOINDATASETSV1.execute_join, columns_at.
  assert (plain : forall how,
    merged <- merge A B ka kb how ;; Ok (Some merged) = Ok (Some res) ->
    exists how m, merge A B ka kb how = Ok m /\
      columns res = columns m /\ incl (rows res) (rows m)).
  { intros how. destruct (merge A B ka kb how) as [m|] eqn:E;
      cbn [bind]; [| discriminate].
    intros [= <-]. exists how, m.
    split; [exact E | split; [reflexivity | apply incl_refl]]. }
  destruct (String.eqb t "INNER JOIN"); [apply plain |].
  destruct (String.eqb t "FULL JOIN"); [apply plain |].
  destruct (String.eqb t "FULL JOIN WITH NULLS").
  { destruct (merge A B ka kb HowOuter) as [m|] eqn:E;
      cbn [bind]; [| discriminate].
    destruct (nth_error (columns A) 0) as [ca|]; cbn [bind]; [| discriminate].
    destruct (getitem m ca) as [sa|]; cbn [bind]; [| discriminate].
    destruct (nth_error (columns B) 0) as [cb|]; cbn [bind]; [| discriminate].
    destruct (getitem m cb) as [sb|]; cbn [bind]; [| discriminate].
    intros [= <-]. exists HowOuter, m.
    split; [exact E | apply getitem_mask_incl]. }
  destruct (String.eqb t "LEFT JOIN"); [apply plain |].
  destruct (String.eqb t "LEFT JOIN WITH NULL").
  { destruct (merge A B ka kb HowLeft) as [m|] eqn:E;
      cbn [bind]; [| discriminate].
    destruct (nth_error (columns B) 0) as [cb|]; cbn [bind]; [| discriminate].
    destruct (getitem m cb) as [sb|]; cbn [bind]; [| discriminate].
    intros [= <-]. exists HowLeft, m.
    split; [exact E | apply getitem_mask_incl]. }
  destruct (String.eqb t "RIGHT JOIN"); [apply plain |].
  destruct (String.eqb t "RIGHT JOIN WITH NULL"); [| discriminate].
  destruct (merge A B ka kb HowRight) as [m|] eqn:E;
    cbn [bind]; [| discriminate].
  destruct (nth_error (columns A) 0) as [ca|]; cbn [bind]; [| discriminate].
  destruct (getitem m ca) as [sa|]; cbn [bind]; [| discriminate].
  intros [= <-]. exists HowRight, m.
  split; [exact E | apply getitem_mask_incl].
Qed.

Lemma length_remove_nth (A : Type) (n : nat) (l : list A) :
  n < length l -> length (remove_nth n l) = pred (length l).
Proof.
  revert n; induction l as [|x l IH]; intros [|n] H; simpl in *;
    try lia.
  rewrite IH by lia. destruct l; simpl in *; lia.
Qed.

Lemma length_right_part (B : DataFrame) (shared : bool) (j : nat) (b : Row) :
  j < length (columns B) -> length b = length (columns B) ->
  length (right_part shared j b) = length (right_labels shared j B).
Proof.
  intros Hj Hb. unfold right_part, right_labels. destruct shared.
  - rewrite !length_remove_nth by lia. now rewrite Hb.
  - exact Hb.
Qed.

Lemma cast_pairs_origin (A B : DataFrame) (i j : nat) (how : How)
    (p : Pairing) :
  In p (cast_pairs A B i j how) ->
  (forall m a, fst p = Some (m, a) -> nth_error (rows A) m = Some a) /\
  (forall n b, snd p = Some (n, b) -> nth_error (rows B) n = Some b).
Proof.
  intros H. apply in_join_pairs in H.
  destruct H as [(a & b & -> & Ha & Hb & _)
                | [(a & -> & Ha & _) | (b & -> & Hb & _)]];
    split; simpl; intros m r E; try discriminate E;
    injection E as ->; now apply in_enum.
Qed.

Lemma length_row_of_pairing (A B : DataFrame) (ka kb : string) (i j : nat)
    (p : Pairing) :
  well_formed A -> well_formed B -> j < length (columns B) ->
  (forall m a, fst p = Some (m, a) -> nth_error (rows A) m = Some a) ->
  (forall n b, snd p = Some (n, b) -> nth_error (rows B) n = Some b) ->
  length (merged_row A B ka kb i j p) =
  length (columns A) + length (right_labels (String.eqb ka kb) j B).
Proof.
  intros WA WB Hj Oa Ob. unfold merged_row.
  rewrite join_row_parts, length_app. f_equal.
  - apply length_left_part. intros [m a] E.
    apply (well_formed_nth A m a WA). now apply Oa.
  - destruct (snd p) as [[n b]|]; [| apply repeat_length].
    apply length_right_part; [exact Hj |].
    apply (well_formed_nth B n b WB). now apply Ob.
Qed.

Lemma length_merged_labels (A B : DataFrame) (ka kb : string) (j : nat) :
  length (merged_labels A B ka kb j) =
  length (columns A) + length (right_labels (String.eqb ka kb) j B).
Proof.
  unfold merged_labels. now rewrite length_app, !length_map.
Qed.

(** X2.  The returned frame is rectangular: for valid keys and tables
    whose rows have one cell per column, every row of a frame any variant
    returns has one cell per column of that frame; and the frame has the
    columns of A and of B, less one when both keys have the same label. *)
Theorem result_is_well_formed (A B : DataFrame) (t ka kb : string)
    (i j : nat) (res : DataFrame) :
  index_of ka (columns A) = Some i ->
  index_of kb (columns B) = Some j ->
  well_formed A -> well_formed B ->
  JOINDATASETSV1.execute_join A B t ka kb = Ok (Some res) ->
  well_formed res /\
  length (columns res) + (if String.eqb ka kb then 1 else 0)
    = length (columns A) + length (columns B).
Proof.
  intros Hi Hj WA WB E.
  destruct (execute_join_of_merge A B t ka kb res E)
    as (how & m & Em & Hcols & Hincl).
  apply merge_returns in Em.
  destruct Em as (i' & j' & Hi' & Hj' & ->).
  assert (i' = i) by congruence. assert (j' = j) by congruence. subst i' j'.
  cbn [columns rows] in Hcols, Hincl.
  pose proof (index_of_lt _ _ _ Hj) as Lj.
  split.
  - unfold well_formed. rewrite Hcols, length_merged_labels.
    apply Forall_forall. intros r Hr. apply Hincl, in_map_iff in Hr.
    destruct Hr as (p & <- & Hp). rewrite length_convert.
    destruct (cast_pairs_origin A B i j how p Hp) as (Oa & Ob).
    now apply length_row_of_pairing.
  - rewrite Hcols, length_merged_labels. unfold right_labels.
    destruct (String.eqb ka kb); [| lia].
    rewrite length_remove_nth by exact Lj. lia.
Qed.

Lemma result_is_well_formed_witness :
  well_formed
    (mkDataFrame ["emp_id"; "name"; "department"; "salary"; "bonus"]%string
       [ [VInt 2; VStr "Jane"; VStr "HR"; VInt 60000; VInt 5000];
         [VInt 3; VStr "Bob"; VStr "IT"; VInt 75000; VInt 7500];
         [VInt 4; VStr "Alice"; VStr "Finance"; VInt 65000; VInt 6000] ]) /\
  5 + (if String.eqb "emp_id" "emp_id" then 1 else 0)
    = length (columns sample_a) + length (columns sample_b).
Proof.
  apply (result_is_well_formed sample_a sample_b "INNER JOIN"%string
           "emp_id"%string "emp_id"%string 0 0
           (mkDataFrame
              ["emp_id"; "name"; "department"; "salary"; "bonus"]%string
              [ [VInt 2; VStr "Jane"; VStr "HR"; VInt 60000; VInt 5000];
                [VInt 3; VStr "Bob"; VStr "IT"; VInt 75000; VInt 7500];
                [VInt 4; VStr "Alice"; VStr "Finance"; VInt 65000;
                 VInt 6000] ])).
  - reflexivity.
  - reflexivity.
  - repeat constructor.
  - repeat constructor.
  - reflexivity.
Defined.

(** ** How the plain variants nest *)

Lemma merge_pairs_nest (A B : DataFrame) (i j : nat) :
  incl (merge_pairs A B i j HowInner) (merge_pairs A B i j HowLeft) /\
  incl (merge_pairs A B i j HowInner) (merge_pairs A B i j HowRight) /\
  incl (merge_pairs A B i j HowLeft) (merge_pairs A B i j HowOuter) /\
  incl (merge_pairs A B i j HowRight) (merge_pairs A B i j HowOuter).
Proof.
  unfold merge_pairs, join_pairs, incl. repeat split; intros p;
    rewrite ?in_inner_pairs, ?in_left_pairs, ?in_right_pairs,
      ?in_outer_pairs; tauto.
Qed.

(** X3.  On tables [merge] accepts, every row INNER returns is a row LEFT
    returns and a row RIGHT returns, and every row LEFT or RIGHT returns
    is a row FULL returns. *)
Theorem plain_variants_nest (A B : DataFrame) (ka kb : string) (i j : nat) :
  mergeable A B ka kb i j ->
  exists inner full left right,
    JOINDATASETSV1.execute_join A B "INNER JOIN" ka kb = Ok (Some inner) /\
    JOINDATASETSV1.execute_join A B "FULL JOIN" ka kb = Ok (Some full) /\
    JOINDATASETSV1.execute_join A B "LEFT JOIN" ka kb = Ok (Some left) /\
    JOINDATASETSV1.execute_join A B "RIGHT JOIN" ka kb = Ok (Some right) /\
    incl (rows inner) (rows left) /\ incl (rows inner) (rows right) /\
    incl (rows left) (rows full) /\ incl (rows right) (rows full).
Proof.
  intros M.
  destruct (execute_join_plain_ok A B ka kb i j M) as (EI & EF & EL & ER).
  destruct (merge_pairs_nest A B i j) as (N1 & N2 & N3 & N4).
  eexists _, _, _, _. repeat (split; [eassumption |]).
  cbn [rows]. repeat split; now apply incl_map.
Qed.

Lemma plain_variants_nest_witness :
  exists inner full left right,
    JOINDATASETSV1.execute_join sample_a sample_b "INNER JOIN"
        "emp_id" "emp_id" = Ok (Some inner) /\
    JOINDATASETSV1.execute_join sample_a sample_b "FULL JOIN"
        "emp_id" "emp_id" = Ok (Some full) /\
    JOINDATASETSV1.execute_join sample_a sample_b "LEFT JOIN"
        "emp_id" "emp_id" = Ok (Some left) /\
    JOINDATASETSV1.execute_join sample_a sample_b "RIGHT JOIN"
        "emp_id" "emp_id" = Ok (Some right) /\
    incl (rows inner) (rows left) /\ incl (rows inner) (rows right) /\
    incl (rows left) (rows full) /\ incl (rows right) (rows full).
Proof.
  apply (plain_variants_nest sample_a sample_b
           "emp_id"%string "emp_id"%string 0 0).
  exact sample_mergeable.
Defined.

(** ** Rows that are kept *)

Section KeptRows.

Variables kl kr : Row -> value.

Lemma left_row_paired (L R : list IRow) (a : IRow) :
  In a L ->
  exists o, matched_pair kl kr L R (Some a, o) \/
            left_alone kl kr L R (Some a, o).
Proof.
  intros Ha. destruct (existsb (key_match kl kr a) R) eqn:E.
  - apply existsb_exists in E. destruct E as (b & Hb & Hm).
    exists (Some b). left. now exists a, b.
  - exists None. right. now exists a.
Qed.

Lemma right_row_paired (L R : list IRow) (b : IRow) :
  In b R ->
  exists o, matched_pair kl kr L R (o, Some b) \/
            right_alone kl kr L R (o, Some b).
Proof.
  intros Hb. destruct (existsb (fun a => key_match kl kr a b) L) eqn:E.
  - apply existsb_exists in E. destruct E as (a & Ha & Hm).
    exists (Some a). left. now exists a, b.
  - exists None. right. now exists b.
Qed.

End KeptRows.

Lemma firstn_merged_row (A B : DataFrame) (ka kb : string) (i j : nat)
    (how : How) (m : nat) (a : Row) (o : option IRow) :
  well_formed A -> In (Some (m, a), o) (merge_pairs A B i j how) ->
  firstn (length (columns A)) (merged_row A B ka kb i j (Some (m, a), o)) = a.
Proof.
  intros W Hp.
  pose proof (merged_row_left_length A B ka kb i j how _ W Hp) as L.
  unfold merged_row. rewrite join_row_parts. rewrite <- L at 1.
  rewrite firstn_app, Nat.sub_diag, firstn_all. simpl. apply app_nil_r.
Qed.

Lemma skipn_merged_row (A B : DataFrame) (ka kb : string) (i j : nat)
    (how : How) (n : nat) (b : Row) (o : option IRow) :
  well_formed A -> In (o, Some (n, b)) (merge_pairs A B i j how) ->
  skipn (length (columns A)) (merged_row A B ka kb i j (o, Some (n, b)))
    = right_part (String.eqb ka kb) j b.
Proof.
  intros W Hp.
  pose proof (merged_row_left_length A B ka kb i j how _ W Hp) as L.
  unfold merged_row. rewrite join_row_parts. rewrite <- L at 1.
  rewrite skipn_app, Nat.sub_diag, skipn_all. reflexivity.
Qed.

(** X4.  No row is lost by the outer variants: on tables [merge]
    accepts, every row of A is the left part of a row LEFT returns
    and of a row FULL returns, and every row of B (less its key column when
    both keys have one label) is the right part of a row RIGHT returns and
    of a row FULL returns. *)
Theorem outer_variants_keep_rows (A B : DataFrame) (ka kb : string)
    (i j : nat) :
  mergeable A B ka kb i j ->
  exists full left right,
    JOINDATASETSV1.execute_join A B "FULL JOIN" ka kb = Ok (Some full) /\
    JOINDATASETSV1.execute_join A B "LEFT JOIN" ka kb = Ok (Some left) /\
    JOINDATASETSV1.execute_join A B "RIGHT JOIN" ka kb = Ok (Some right) /\
    (forall a, In a (rows A) ->
       (exists r, In r (rows left) /\ firstn (length (columns A)) r = a) /\
       (exists r, In r (rows full) /\ firstn (length (columns A)) r = a)) /\
    (forall b, In b (rows B) ->
       (exists r, In r (rows right) /\
                  skipn (length (columns A)) r
                    = right_part (String.eqb ka kb) j b) /\
       (exists r, In r (rows full) /\
                  skipn (length (columns A)) r
                    = right_part (String.eqb ka kb) j b)).
Proof.
  intros M. destruct (mergeable_well_formed _ _ _ _ _ _ M) as (W & _).
  destruct (execute_join_plain_ok A B ka kb i j M) as (_ & EF & EL & ER).
  eexists _, _, _. repeat (split; [eassumption |]). cbn [rows]. split.
  - intros a Ha. apply In_nth_error in Ha. destruct Ha as (m & Ha).
    apply in_enum in Ha.
    destruct (left_row_paired (fun r => cell r i) (fun r => cell r j)
                (enum (rows A)) (enum (rows B)) (m, a) Ha) as (o & Ho).
    assert (HL : In (Some (m, a), o) (merge_pairs A B i j HowLeft))
      by (apply in_left_pairs; exact Ho).
    assert (HF : In (Some (m, a), o) (merge_pairs A B i j HowOuter))
      by (apply in_outer_pairs; tauto).
    split; eexists; (split; [apply in_map; eassumption |]).
    + now apply (firstn_merged_row A B ka kb i j HowLeft).
    + now apply (firstn_merged_row A B ka kb i j HowOuter).
  - intros b Hb. apply In_nth_error in Hb. destruct Hb as (n & Hb).
    apply in_enum in Hb.
    destruct (right_row_paired (fun r => cell r i) (fun r => cell r j)
                (enum (rows A)) (enum (rows B)) (n, b) Hb) as (o & Ho).
    assert (HR : In (o, Some (n, b)) (merge_pairs A B i j HowRight))
      by (apply in_right_pairs; exact Ho).
    assert (HF : In (o, Some (n, b)) (merge_pairs A B i j HowOuter))
      by (apply in_outer_pairs; tauto).
    split; eexists; (split; [apply in_map; eassumption |]).
    + now apply (skipn_merged_row A B ka kb i j HowRight).
    + now apply (skipn_merged_row A B ka kb i j HowOuter).
Qed.

Lemma outer_variants_keep_rows_witness :
  exists full left right,
    JOINDATASETSV1.execute_join sample_a sample_b "FULL JOIN"
        "emp_id" "emp_id" = Ok (Some full) /\
    JOINDATASETSV1.execute_join sample_a sample_b "LEFT JOIN"
        "emp_id" "emp_id" = Ok (Some left) /\
    JOINDATASETSV1.execute_join sample_a sample_b "RIGHT JOIN"
        "emp_id" "emp_id" = Ok (Some right) /\
    (forall a, In a (rows sample_a) ->
       (exists r, In r (rows left) /\
                  firstn (length (columns sample_a)) r = a) /\
       (exists r, In r (rows full) /\
                  firstn (length (columns sample_a)) r = a)) /\
    (forall b, In b (rows sample_b) ->
       (exists r, In r (rows right) /\
                  skipn (length (columns sample_a)) r
                    = right_part (String.eqb "emp_id" "emp_id") 0 b) /\
       (exists r, In r (rows full) /\
                  skipn (length (columns sample_a)) r
                    = right_part (String.eqb "emp_id" "emp_id") 0 b)).
Proof.
  apply (outer_variants_keep_rows sample_a sample_b
           "emp_id"%string "emp_id"%string 0 0).
  exact sample_mergeable.
Defined.

(** ** A key without repeated value *)

Lemma filter_unique_key (C : Type) (key : C -> value) (k : value)
    (l : list C) :
  NoDup (map key l) ->
  length (filter (fun b => value_eqb k (key b)) l) <= 1.
Proof.
  induction l as [|b l IH]; simpl; [lia |].
  intros ND. inversion ND as [|x xs Hx ND']; subst.
  destruct (value_eqb k (key b)) eqn:E; [| now apply IH].
  apply value_eqb_eq in E. subst k. simpl.
  replace (filter (fun c => value_eqb (key b) (key c)) l) with (@nil C);
    [simpl; lia |].
  symmetry. apply filter_nil_existsb.
  destruct (existsb (fun c => value_eqb (key b) (key c)) l) eqn:X;
    [| reflexivity].
  apply existsb_exists in X. destruct X as (c & Hc & Ec).
  apply value_eqb_eq in Ec. exfalso. apply Hx. rewrite Ec.
  now apply in_map.
Qed.

Lemma length_enum (C : Type) (l : list C) : length (enum l) = length l.
Proof.
  unfold enum. rewrite length_combine, length_seq. apply Nat.min_id.
Qed.

Lemma left_pairs_unique_partner (kl kr : Row -> value) (L R : list IRow) :
  (forall a, In a L -> length (partners_in_right kl kr a R) <= 1) ->
  length (left_pairs kl kr L R) = length L /\
  length (inner_pairs kl kr L R) <= length L.
Proof.
  unfold left_pairs, inner_pairs. induction L as [|a L IH]; intros H.
  - split; simpl; lia.
  - cbn [flat_map]. unfold Pairing in *. rewrite !length_app.
    destruct IH as (IH1 & IH2); [intros x Hx; apply H; now right |].
    rewrite IH1. specialize (H a (or_introl eq_refl)).
    destruct (partners_in_right kl kr a R) as [|b bs];
      cbn [length map] in *.
    + split; lia.
    + rewrite length_map. split; lia.
Qed.

(** X5.  When no two rows of B have the same key cell, a join on that key
    never repeats a row of A: on tables [merge] accepts, LEFT returns
    exactly as many rows as A has, and INNER at most as many. *)
Theorem unique_right_key_keeps_row_count (A B : DataFrame) (ka kb : string)
    (i j : nat) :
  mergeable A B ka kb i j ->
  NoDup (map (fun b => nth j b NaN) (rows B)) ->
  exists inner left,
    JOINDATASETSV1.execute_join A B "INNER JOIN" ka kb = Ok (Some inner) /\
    JOINDATASETSV1.execute_join A B "LEFT JOIN" ka kb = Ok (Some left) /\
    length (rows left) = length (rows A) /\
    length (rows inner) <= length (rows A).
Proof.
  intros M ND.
  destruct (execute_join_plain_ok A B ka kb i j M) as (EI & _ & EL & _).
  eexists _, _. repeat (split; [eassumption |]).
  cbn [rows]. rewrite !length_map. unfold merge_pairs, join_pairs.
  assert (U : forall a, In a (enum (rows A)) ->
            length (partners_in_right (fun r => cell r i) (fun r => cell r j)
                      a (enum (rows B))) <= 1).
  { intros a _. unfold partners_in_right, key_match.
    apply (filter_unique_key IRow (fun b => cell (snd b) j)).
    replace (map (fun b : IRow => cell (snd b) j) (enum (rows B)))
      with (map (fun b => cell b j) (rows B)); [exact ND |].
    rewrite <- (map_snd_enum _ (rows B)) at 1. apply map_map. }
  destruct (left_pairs_unique_partner _ _ _ _ U) as (E1 & E2).
  pose proof (length_enum Row (rows A)) as LE.
  split; [exact (eq_trans E1 LE) |].
  apply (Nat.le_trans _ _ _ E2). apply Nat.eq_le_incl. exact LE.
Qed.

Lemma unique_right_key_keeps_row_count_witness :
  exists inner left,
    JOINDATASETSV1.execute_join sample_a sample_b "INNER JOIN"
        "emp_id" "emp_id" = Ok (Some inner) /\
    JOINDATASETSV1.execute_join sample_a sample_b "LEFT JOIN"
        "emp_id" "emp_id" = Ok (Some left) /\
    length (rows left) = length (rows sample_a) /\
    length (rows inner) <= length (rows sample_a).
Proof.
  apply (unique_right_key_keeps_row_count sample_a sample_b
           "emp_id"%string "emp_id"%string 0 0).
  - exact sample_mergeable.
  - simpl. repeat constructor; simpl; intuition discriminate.
Defined.

(** ** RIGHT as LEFT with the tables exchanged *)

Lemma value_eqb_sym (u v : value) : value_eqb u v = value_eqb v u.
Proof.
  destruct u as [a|a|], v as [b|b|]; simpl; try reflexivity.
  - apply Z.eqb_sym.
  - apply String.eqb_sym.
Qed.

Lemma right_pairs_swap (kl kr : Row -> value) (L R : list IRow) :
  right_pairs kl kr L R = map swap_pairing (left_pairs kr kl R L).
Proof.
  unfold right_pairs, left_pairs. induction R as [|b R IH]; [reflexivity |].
  cbn [flat_map]. rewrite map_app. f_equal; [| exact IH].
  replace (partners_in_right kr kl b L) with (partners_in_left kl kr b L).
  - destruct (partners_in_left kl kr b L) as [|a la]; [reflexivity |].
    now rewrite map_map.
  - unfold partners_in_left, partners_in_right, key_match.
    apply filter_ext. intros a. apply value_eqb_sym.
Qed.

Lemma length_inner_pairs_swap (kl kr : Row -> value) (L R : list IRow) :
  length (inner_pairs kl kr L R) = length (inner_pairs kr kl R L).
Proof.
  rewrite !length_inner_pairs, <- partner_count_swap. f_equal.
  apply map_ext. intros b. f_equal.
  unfold partners_in_left, partners_in_right, key_match.
  apply filter_ext. intros a. apply value_eqb_sym.
Qed.

(** X6.  RIGHT is LEFT with the two tables exchanged: when [merge]
    accepts the tables in both orders, the rows RIGHT returns for (A, B)
    and the rows LEFT returns for (B, A) are built, in the same order,
    from the same pairs of source rows, so the two frames have as many
    rows; and INNER returns as many rows for (A, B) as for (B, A). *)
Theorem right_is_left_exchanged (A B : DataFrame) (ka kb : string)
    (i j : nat) :
  mergeable A B ka kb i j ->
  mergeable B A kb ka j i ->
  exists right left inner inner' pairs,
    JOINDATASETSV1.execute_join A B "RIGHT JOIN" ka kb = Ok (Some right) /\
    JOINDATASETSV1.execute_join B A "LEFT JOIN" kb ka = Ok (Some left) /\
    JOINDATASETSV1.execute_join A B "INNER JOIN" ka kb = Ok (Some inner) /\
    JOINDATASETSV1.execute_join B A "INNER JOIN" kb ka = Ok (Some inner') /\
    rows left = map (merged_row B A kb ka j i) pairs /\
    rows right = map (merged_row A B ka kb i j) (map swap_pairing pairs) /\
    length (rows right) = length (rows left) /\
    length (rows inner) = length (rows inner').
Proof.
  intros M M'.
  destruct (execute_join_plain_ok A B ka kb i j M) as (EI & _ & _ & ER).
  destruct (execute_join_plain_ok B A kb ka j i M') as (EI' & _ & EL' & _).
  eexists _, _, _, _, (merge_pairs B A j i HowLeft).
  repeat (split; [eassumption |]). cbn [rows].
  split; [reflexivity |]. split; [| split].
  - unfold merge_pairs, join_pairs. now rewrite right_pairs_swap.
  - rewrite !length_map. unfold merge_pairs, join_pairs.
    now rewrite right_pairs_swap, length_map.
  - rewrite !length_map. apply length_inner_pairs_swap.
Qed.

Lemma right_is_left_exchanged_witness :
  exists right left inner inner' pairs,
    JOINDATASETSV1.execute_join sample_a sample_b "RIGHT JOIN"
        "emp_id" "emp_id" = Ok (Some right) /\
    JOINDATASETSV1.execute_join sample_b sample_a "LEFT JOIN"
        "emp_id" "emp_id" = Ok (Some left) /\
    JOINDATASETSV1.execute_join sample_a sample_b "INNER JOIN"
        "emp_id" "emp_id" = Ok (Some inner) /\
    JOINDATASETSV1.execute_join sample_b sample_a "INNER JOIN"
        "emp_id" "emp_id" = Ok (Some inner') /\
    rows left = map (merged_row sample_b sample_a "emp_id" "emp_id" 0 0)
                    pairs /\
    rows right = map (merged_row sample_a sample_b "emp_id" "emp_id" 0 0)
                     (map swap_pairing pairs) /\
    length (rows right) = length (rows left) /\
    length (rows inner) = length (rows inner').
Proof.
  apply (right_is_left_exchanged sample_a sample_b
           "emp_id"%string "emp_id"%string 0 0);
    apply mergeableb_spec; reflexivity.
Defined.

(** ** An empty table *)

Lemma map_snd_enum_with (C D : Type) (f : C -> D) (l : list C) :
  map (fun x => f (snd x)) (enum l) = map f l.
Proof.
  rewrite <- (map_snd_enum _ l) at 2. symmetry. apply map_map.
Qed.

Lemma pairs_without_right (kl kr : Row -> value) (L : list IRow) :
  inner_pairs kl kr L [] = [] /\
  right_pairs kl kr L [] = [] /\
  right_only kl kr L [] = [] /\
  left_pairs kl kr L [] = map (fun a => (Some a, None)) L.
Proof.
  unfold inner_pairs, left_pairs. repeat split;
    induction L as [|a L IH]; try reflexivity; try exact IH.
Qed.

Lemma pairs_without_left (kl kr : Row -> value) (R : list IRow) :
  inner_pairs kl kr [] R = [] /\
  left_pairs kl kr [] R = [] /\
  right_pairs kl kr [] R = map (fun b => (None, Some b)) R /\
  right_only kl kr [] R = map (fun b => (None, Some b)) R.
Proof.
  unfold right_pairs, right_only. repeat split;
    induction R as [|b R IH]; try reflexivity;
    cbn [flat_map map]; f_equal; exact IH.
Qed.

Lemma rows_padded_right (A B : DataFrame) (ka kb : string) (i j : nat)
    (l : list Row) :
  map (merged_row A B ka kb i j)
      (map (fun a : IRow => (Some a, None)) (enum l)) =
  map (pad_right A B ka kb j) l.
Proof.
  etransitivity; [apply map_map |].
  exact (map_snd_enum_with Row Row (pad_right A B ka kb j) l).
Qed.

Lemma rows_padded_left (A B : DataFrame) (ka kb : string) (i j : nat)
    (l : list Row) :
  map (merged_row A B ka kb i j)
      (map (fun b : IRow => (None, Some b)) (enum l)) =
  map (pad_left A ka kb i j) l.
Proof.
  etransitivity; [apply map_map |].
  exact (map_snd_enum_with Row Row (pad_left A ka kb i j) l).
Qed.

(** X7.  An empty table.  On tables [merge] accepts: when B has no row,
    INNER and RIGHT return no row, LEFT returns the rows of A in their
    order, each followed by a missing cell for every column of B, and FULL
    returns the same rows up to their order.  When A has no row, INNER
    and LEFT return no row, RIGHT returns the rows of B in their order,
    each preceded by the cells of A's columns (missing, except the single
    key column), and FULL returns the same rows up to their order. *)
Theorem join_with_empty_table (A B : DataFrame) (ka kb : string)
    (i j : nat) :
  mergeable A B ka kb i j ->
  exists inner full left right,
    JOINDATASETSV1.execute_join A B "INNER JOIN" ka kb = Ok (Some inner) /\
    JOINDATASETSV1.execute_join A B "FULL JOIN" ka kb = Ok (Some full) /\
    JOINDATASETSV1.execute_join A B "LEFT JOIN" ka kb = Ok (Some left) /\
    JOINDATASETSV1.execute_join A B "RIGHT JOIN" ka kb = Ok (Some right) /\
    (rows B = [] ->
     rows inner = [] /\ rows right = [] /\
     rows left = map (pad_right A B ka kb j) (rows A) /\
     Permutation (rows full) (map (pad_right A B ka kb j) (rows A))) /\
    (rows A = [] ->
     rows inner = [] /\ rows left = [] /\
     rows right = map (pad_left A ka kb i j) (rows B) /\
     Permutation (rows full) (map (pad_left A ka kb i j) (rows B))).
Proof.
  intros M.
  destruct (execute_join_plain_ok A B ka kb i j M) as (EI & EF & EL & ER).
  eexists _, _, _, _. repeat (split; [eassumption |]).
  cbn [rows]. unfold merge_pairs, join_pairs, outer_pairs. split.
  - intros ->. change (enum (@nil Row)) with (@nil IRow).
    destruct (pairs_without_right (fun r => cell r i) (fun r => cell r j)
                (enum (rows A))) as (E1 & E2 & E3 & E4).
    rewrite E1, E2, E3, E4, app_nil_r.
    split; [reflexivity |]. split; [reflexivity |].
    split; [apply rows_padded_right |].
    rewrite <- (rows_padded_right A B ka kb i j).
    apply Permutation_map, sort_by_key_perm.
  - intros ->. change (enum (@nil Row)) with (@nil IRow).
    destruct (pairs_without_left (fun r => cell r i) (fun r => cell r j)
                (enum (rows B))) as (E1 & E2 & E3 & E4).
    rewrite E1, E2, E3, E4.
    split; [reflexivity |]. split; [reflexivity |].
    split; [apply rows_padded_left |].
    rewrite <- (rows_padded_left A B ka kb i j).
    apply Permutation_map, sort_by_key_perm.
Qed.

Lemma join_with_empty_table_witness :
  exists inner full left right,
    JOINDATASETSV1.execute_join sample_a (no_rows sample_b) "INNER JOIN"
        "emp_id" "emp_id" = Ok (Some inner) /\
    JOINDATASETSV1.execute_join sample_a (no_rows sample_b) "FULL JOIN"
        "emp_id" "emp_id" = Ok (Some full) /\
    JOINDATASETSV1.execute_join sample_a (no_rows sample_b) "LEFT JOIN"
        "emp_id" "emp_id" = Ok (Some left) /\
    JOINDATASETSV1.execute_join sample_a (no_rows sample_b) "RIGHT JOIN"
        "emp_id" "emp_id" = Ok (Some right) /\
    (rows (no_rows sample_b) = [] ->
     rows inner = [] /\ rows right = [] /\
     rows left = map (pad_right sample_a (no_rows sample_b)
                        "emp_id" "emp_id" 0) (rows sample_a) /\
     Permutation (rows full)
       (map (pad_right sample_a (no_rows sample_b) "emp_id" "emp_id" 0)
            (rows sample_a))) /\
    (rows sample_a = [] ->
     rows inner = [] /\ rows left = [] /\
     rows right = map (pad_left sample_a "emp_id" "emp_id" 0 0)
                      (rows (no_rows sample_b)) /\
     Permutation (rows full)
       (map (pad_left sample_a "emp_id" "emp_id" 0 0)
            (rows (no_rows sample_b)))).
Proof.
  apply (join_with_empty_table sample_a (no_rows sample_b)
           "emp_id"%string "emp_id"%string 0 0).
  apply mergeableb_spec. reflexivity.
Defined.

(** ** The rows a WITH NULL variant keeps *)

(** The frames of the masked variants, by pairings. *)
Lemma with_null_rows (A B : DataFrame) (ka kb ca cb : string)
    (i j fa jf : nat) :
  mergeable A B ka kb i j ->
  nth_error (columns A) fa = Some ca ->
  nth_error (columns B) jf = Some cb ->
  ~ In ca (right_labels (String.eqb ka kb) j B) ->
  ~ In cb (columns A) ->
  ~ (String.eqb ka kb = true /\ fa = i) ->
  ~ (String.eqb ka kb = true /\ jf = j) ->
  let frame how f :=
    Ok (Some (mkDataFrame (merged_labels A B ka kb j)
                (kept_rows A B ka kb i j how f))) in
  let full := frame HowOuter
                (fun p => missing_on_left fa p || missing_on_right jf p) in
  let left := frame HowLeft (missing_on_right jf) in
  let right := frame HowRight (missing_on_left fa) in
  (fa = 0 -> jf = 0 ->
   JOINDATASETSV1.execute_join A B "FULL JOIN WITH NULLS" ka kb = full) /\
  (jf = 0 ->
   JOINDATASETSV1.execute_join A B "LEFT JOIN WITH NULL" ka kb = left) /\
  (fa = 0 ->
   JOINDATASETSV1.execute_join A B "RIGHT JOIN WITH NULL" ka kb = right) /\
  (ka = "emp_id"%string -> kb = "emp_id"%string ->
   ca = "name"%string -> cb = "salary"%string ->
   SQLapp2.execute_join A B "FULL JOIN WITH NULLS" = full /\
   SQLapp2.execute_join A B "LEFT JOIN WITH NULL" = left /\
   SQLapp2.execute_join A B "RIGHT JOIN WITH NULL" = right).
Proof.
  intros M Hca Hcb Hna Hnb Na Nb frame full left right.
  subst frame full left right.
  destruct (mergeable_well_formed _ _ _ _ _ _ M) as (W & _).
  assert (Hfa : fa < length (columns A))
    by (apply nth_error_Some; congruence).
  destruct (full_with_nulls_frame A B ka kb i j M ca cb fa jf
              Hca Hcb Hna Hnb Nb) as (F1 & F2).
  destruct (left_with_null_frame A B ka kb i j M cb jf Hcb Hnb Nb)
    as (L1 & L2).
  destruct (right_with_null_frame A B ka kb i j M ca fa Hca Hna)
    as (R1 & R2).
  assert (RF : filter (full_mask A ka kb j fa jf)
                 (map (merged_row A B ka kb i j)
                      (merge_pairs A B i j HowOuter))
    = kept_rows A B ka kb i j HowOuter
        (fun p => missing_on_left fa p || missing_on_right jf p)).
  { rewrite filter_map_swap. apply kept_rows_ext. intros p Hp.
    unfold full_mask.
    rewrite (tested_left_cell A B ka kb i j W HowOuter p fa Hp Hfa Na).
    now rewrite (tested_right_cell A B ka kb i j W HowOuter p jf Hp Nb). }
  assert (RL : filter
      (fun r => isna_value (cell r (length (columns A) +
                  right_position (String.eqb ka kb) j jf)))
      (map (merged_row A B ka kb i j) (merge_pairs A B i j HowLeft))
    = kept_rows A B ka kb i j HowLeft (missing_on_right jf)).
  { rewrite filter_map_swap. apply kept_rows_ext. intros p Hp.
    now rewrite (tested_right_cell A B ka kb i j W HowLeft p jf Hp Nb). }
  assert (RR : filter (fun r => isna_value (cell r fa))
      (map (merged_row A B ka kb i j) (merge_pairs A B i j HowRight))
    = kept_rows A B ka kb i j HowRight (missing_on_left fa)).
  { rewrite filter_map_swap. apply kept_rows_ext. intros p Hp.
    now rewrite (tested_left_cell A B ka kb i j W HowRight p fa Hp Hfa Na). }
  rewrite RF in F1, F2. rewrite RL in L1, L2. rewrite RR in R1, R2.
  split; [exact F1 |]. split; [exact L1 |]. split; [exact R1 |].
  intros E1 E2 E3 E4. split; [now apply F2 |].
  split; [now apply L2 | now apply R2].
Qed.

(** X8.  What the WITH NULL variants keep, whatever the cells hold, in
    both files: [JOINDATASETSV1] tests the first column of each table,
    [SQLapp2] the columns [name] and [salary].  On tables [merge] accepts,
    for tested labels that are not labels of the other table and tested
    columns that are not the single key column of two keys with one
    label: LEFT JOIN WITH NULL returns the rows of the LEFT pairings that
    have no row of B or whose row of B has a missing tested cell, RIGHT
    JOIN WITH NULL the rows of the RIGHT pairings that have no row of A or
    whose row of A has a missing tested cell, and FULL JOIN WITH NULLS the
    rows of the FULL pairings that pass one of the two tests, each in the
    order of the merge.  So no row without partner is ever lost: every
    row of A without partner is, padded, a row of the LEFT and of the FULL
    variant, and every row of B without partner is, padded, a row of the
    RIGHT and of the FULL variant. *)
Theorem with_null_kept_pairings (A B : DataFrame) (ka kb ca cb : string)
    (i j fa jf : nat) :
  mergeable A B ka kb i j ->
  nth_error (columns A) fa = Some ca ->
  nth_error (columns B) jf = Some cb ->
  ~ In ca (right_labels (String.eqb ka kb) j B) ->
  ~ In cb (columns A) ->
  ~ (String.eqb ka kb = true /\ fa = i) ->
  ~ (String.eqb ka kb = true /\ jf = j) ->
  exists full left right,
    (fa = 0 -> jf = 0 ->
     JOINDATASETSV1.execute_join A B "FULL JOIN WITH NULLS" ka kb
       = Ok (Some full)) /\
    (jf = 0 ->
     JOINDATASETSV1.execute_join A B "LEFT JOIN WITH NULL" ka kb
       = Ok (Some left)) /\
    (fa = 0 ->
     JOINDATASETSV1.execute_join A B "RIGHT JOIN WITH NULL" ka kb
       = Ok (Some right)) /\
    (ka = "emp_id"%string -> kb = "emp_id"%string ->
     ca = "name"%string -> cb = "salary"%string ->
     SQLapp2.execute_join A B "FULL JOIN WITH NULLS" = Ok (Some full) /\
     SQLapp2.execute_join A B "LEFT JOIN WITH NULL" = Ok (Some left) /\
     SQLapp2.execute_join A B "RIGHT JOIN WITH NULL" = Ok (Some right)) /\
    rows full = kept_rows A B ka kb i j HowOuter
                  (fun p => missing_on_left fa p || missing_on_right jf p) /\
    rows left = kept_rows A B ka kb i j HowLeft (missing_on_right jf) /\
    rows right = kept_rows A B ka kb i j HowRight (missing_on_left fa) /\
    (forall a, In a (rows_without_partner_in_b A B i j) ->
       In (pad_right A B ka kb j a) (rows left) /\
       In (pad_right A B ka kb j a) (rows full)) /\
    (forall b, In b (rows_without_partner_in_a A B i j) ->
       In (pad_left A ka kb i j b) (rows right) /\
       In (pad_left A ka kb i j b) (rows full)).
Proof.
  intros M Hca Hcb Hna Hnb Na Nb.
  destruct (with_null_rows A B ka kb ca cb i j fa jf
              M Hca Hcb Hna Hnb Na Nb) as (F1 & L1 & R1 & E2).
  eexists _, _, _.
  split; [exact F1 |]. split; [exact L1 |]. split; [exact R1 |].
  split; [exact E2 |].
  cbn [rows]. do 3 (split; [reflexivity |]). split.
  - intros a Ha'. split; apply kept_row_of_a; auto;
      intros p E; unfold missing_on_right; rewrite E;
      [reflexivity | apply orb_true_r].
  - intros b Hb'. split; apply kept_row_of_b; auto;
      intros p E; unfold missing_on_left; rewrite E; reflexivity.
Qed.

Lemma with_null_kept_pairings_witness :
  exists full left right,
    (0 = 0 -> 0 = 0 ->
     JOINDATASETSV1.execute_join staff_by_name pay_by_salary
       "FULL JOIN WITH NULLS" "emp_id" "emp_id" = Ok (Some full)) /\
    (0 = 0 ->
     JOINDATASETSV1.execute_join staff_by_name pay_by_salary
       "LEFT JOIN WITH NULL" "emp_id" "emp_id" = Ok (Some left)) /\
    (0 = 0 ->
     JOINDATASETSV1.execute_join staff_by_name pay_by_salary
       "RIGHT JOIN WITH NULL" "emp_id" "emp_id" = Ok (Some right)) /\
    ("emp_id"%string = "emp_id"%string -> "emp_id"%string = "emp_id"%string ->
     "name"%string = "name"%string -> "salary"%string = "salary"%string ->
     SQLapp2.execute_join staff_by_name pay_by_salary
       "FULL JOIN WITH NULLS" = Ok (Some full) /\
     SQLapp2.execute_join staff_by_name pay_by_salary
       "LEFT JOIN WITH NULL" = Ok (Some left) /\
     SQLapp2.execute_join staff_by_name pay_by_salary
       "RIGHT JOIN WITH NULL" = Ok (Some right)) /\
    rows full = kept_rows staff_by_name pay_by_salary "emp_id" "emp_id" 1 1
                  HowOuter
                  (fun p => missing_on_left 0 p || missing_on_right 0 p) /\
    rows left = kept_rows staff_by_name pay_by_salary "emp_id" "emp_id" 1 1
                  HowLeft (missing_on_right 0) /\
    rows right = kept_rows staff_by_name pay_by_salary "emp_id" "emp_id" 1 1
                   HowRight (missing_on_left 0) /\
    (forall a,
       In a (rows_without_partner_in_b staff_by_name pay_by_salary 1 1) ->
       In (pad_right staff_by_name pay_by_salary "emp_id" "emp_id" 1 a)
          (rows left) /\
       In (pad_right staff_by_name pay_by_salary "emp_id" "emp_id" 1 a)
          (rows full)) /\
    (forall b,
       In b (rows_without_partner_in_a staff_by_name pay_by_salary 1 1) ->
       In (pad_left staff_by_name "emp_id" "emp_id" 1 1 b) (rows right) /\
       In (pad_left staff_by_name "emp_id" "emp_id" 1 1 b) (rows full)).
Proof.
  apply (with_null_kept_pairings staff_by_name pay_by_salary
           "emp_id"%string "emp_id"%string "name"%string "salary"%string
           1 1 0 0).
  - exact staff_pay_mergeable.
  - reflexivity.
  - reflexivity.
  - simpl. intros [H | []]. discriminate H.
  - simpl. intros [H | [H | []]]; discriminate H.
  - intros [_ H]. discriminate H.
  - intros [_ H]. discriminate H.
Defined.

(** ** First columns that are the common key *)

Lemma nth_set_nth_same (C : Type) (n : nat) (v d : C) (l : list C) :
  n < length l -> nth n (set_nth n v l) d = v.
Proof.
  revert n; induction l as [|x l IH]; intros [|n] H; simpl in *;
    try lia; [reflexivity | apply IH; lia].
Qed.

(** The cell of the single key column is the key of the pairing. *)
Lemma merged_row_key_cell (A B : DataFrame) (k : string) (i j : nat)
    (how : How) (p : Pairing) :
  well_formed A -> i < length (columns A) ->
  In p (merge_pairs A B i j how) ->
  cell (merged_row A B k k i j p) i =
  pair_key (fun r => cell r i) (fun r => cell r j) p.
Proof.
  intros W Hi Hp. unfold merged_row. rewrite join_row_parts.
  rewrite cell_app_l
    by now rewrite (merged_row_left_length A B k k i j how p W Hp).
  unfold left_part. rewrite String.eqb_refl.
  pose proof (in_join_pairs _ _ _ _ _ _ Hp) as O.
  destruct O as [(a & b & -> & _) | [(a & -> & _) | (b & -> & _)]];
    try reflexivity.
  cbn [fst snd pair_key]. unfold cell at 1.
  apply nth_set_nth_same. now rewrite repeat_length.
Qed.

Lemma index_of_key_label (A B : DataFrame) (k : string) (j : nat) :
  index_of k (columns A) = Some 0 ->
  ~ In k (right_labels true j B) ->
  index_of k (merged_labels A B k k j) = Some 0.
Proof.
  intros Hi N. unfold merged_labels. rewrite String.eqb_refl.
  apply index_of_app_l.
  destruct (columns A) as [|x l]; cbn [index_of map] in *; [discriminate |].
  destruct (String.eqb_spec k x) as [E | D].
  - subst x. unfold suffixed.
    destruct (has_label k (right_labels true j B)) eqn:E.
    + apply has_label_in in E. contradiction.
    + now rewrite String.eqb_refl.
  - destruct (index_of k l); discriminate.
Qed.

Lemma pair_key_present (A B : DataFrame) (i j : nat) (how : How)
    (p : Pairing) :
  (forall a, In a (rows A) -> nth i a NaN <> NaN) ->
  (forall b, In b (rows B) -> nth j b NaN <> NaN) ->
  In p (merge_pairs A B i j how) ->
  isna_value (pair_key (fun r => cell r i) (fun r => cell r j) p) = false.
Proof.
  intros FA FB Hp.
  destruct (merge_pairs_origin A B i j how p Hp) as (Oa & Ob).
  pose proof (in_join_pairs _ _ _ _ _ _ Hp) as O.
  destruct O as [(a & b & -> & _) | [(a & -> & _) | (b & -> & _)]];
    cbn [pair_key].
  - destruct a as [m a]. specialize (Oa m a eq_refl).
    apply nth_error_In, FA in Oa. simpl. unfold cell.
    now destruct (nth i a NaN).
  - destruct a as [m a]. specialize (Oa m a eq_refl).
    apply nth_error_In, FA in Oa. simpl. unfold cell.
    now destruct (nth i a NaN).
  - destruct b as [n b]. specialize (Ob n b eq_refl).
    apply nth_error_In, FB in Ob. simpl. unfold cell.
    now destruct (nth j b NaN).
Qed.

(** X10.  When the first column of both tables is the common key column
    (as in the sample tables, and as with the keys the sidebar preselects
    for two uploaded tables whose first columns have one label), the three
    WITH NULL variants of [JOINDATASETSV1] test the single key column of
    the merged frame: on tables [merge] accepts, each returns the rows of
    its merge whose key is missing, and returns no row at all when no key
    is missing in A and in B, however many rows have no partner. *)
Theorem first_column_key_with_null (A B : DataFrame) (k : string) :
  mergeable A B k k 0 0 ->
  exists full left right,
    JOINDATASETSV1.execute_join A B "FULL JOIN WITH NULLS" k k
      = Ok (Some full) /\
    JOINDATASETSV1.execute_join A B "LEFT JOIN WITH NULL" k k
      = Ok (Some left) /\
    JOINDATASETSV1.execute_join A B "RIGHT JOIN WITH NULL" k k
      = Ok (Some right) /\
    (let missing_key p :=
       isna_value (pair_key (fun r => cell r 0) (fun r => cell r 0) p) in
     rows full = kept_rows A B k k 0 0 HowOuter missing_key /\
     rows left = kept_rows A B k k 0 0 HowLeft missing_key /\
     rows right = kept_rows A B k k 0 0 HowRight missing_key) /\
    ((forall a, In a (rows A) -> nth 0 a NaN <> NaN) ->
     (forall b, In b (rows B) -> nth 0 b NaN <> NaN) ->
     rows full = [] /\ rows left = [] /\ rows right = []).
Proof.
  intros M.
  destruct (mergeable_well_formed _ _ _ _ _ _ M) as (W & _).
  destruct (mergeable_index _ _ _ _ _ _ M) as (Hi & Hj).
  assert (N : ~ In k (right_labels true 0 B)).
  { destruct M as (_ & _ & _ & _ & ND & _).
    pose proof (index_of_nth_error _ _ _ Hj) as E. unfold right_labels.
    destruct (columns B) as [|x l]; [discriminate E |].
    cbn [nth_error] in E. injection E as ->. cbn [remove_nth].
    now inversion ND. }
  assert (Ca : columns_at A 0 = Ok k)
    by (unfold columns_at; now rewrite (index_of_nth_error _ _ _ Hi)).
  assert (Cb : columns_at B 0 = Ok k)
    by (unfold columns_at; now rewrite (index_of_nth_error _ _ _ Hj)).
  pose proof (index_of_lt _ _ _ Hi) as L0.
  pose proof (index_of_key_label A B k 0 Hi N) as E.
  destruct (with_null_frames A B k k k k 0 0 0 0 M Ca Cb E E)
    as (EF & EL & ER).
  eexists _, _, _. do 3 (split; [eassumption |]). cbn [rows].
  assert (K : forall how,
    kept_rows A B k k 0 0 how
      (fun p => isna_value (cell (merged_row A B k k 0 0 p) 0))
    = kept_rows A B k k 0 0 how
        (fun p => isna_value
                    (pair_key (fun r => cell r 0) (fun r => cell r 0) p))).
  { intros how. apply kept_rows_ext. intros p Hp.
    now rewrite (merged_row_key_cell A B k 0 0 how p W L0 Hp). }
  assert (KF :
    kept_rows A B k k 0 0 HowOuter
      (fun p => isna_value (cell (merged_row A B k k 0 0 p) 0) ||
                isna_value (cell (merged_row A B k k 0 0 p) 0))
    = kept_rows A B k k 0 0 HowOuter
        (fun p => isna_value
                    (pair_key (fun r => cell r 0) (fun r => cell r 0) p))).
  { rewrite <- K. apply kept_rows_ext. intros p _. apply orb_diag. }
  rewrite KF, !K. split; [repeat split |].
  intros FA FB. unfold kept_rows.
  rewrite !filter_none; [repeat split | | |]; intros p Hp;
    exact (pair_key_present A B 0 0 _ p FA FB Hp).
Qed.

Lemma first_column_key_with_null_witness :
  exists full left right,
    JOINDATASETSV1.execute_join sample_a sample_b "FULL JOIN WITH NULLS"
      "emp_id" "emp_id" = Ok (Some full) /\
    JOINDATASETSV1.execute_join sample_a sample_b "LEFT JOIN WITH NULL"
      "emp_id" "emp_id" = Ok (Some left) /\
    JOINDATASETSV1.execute_join sample_a sample_b "RIGHT JOIN WITH NULL"
      "emp_id" "emp_id" = Ok (Some right) /\
    (let missing_key p :=
       isna_value (pair_key (fun r => cell r 0) (fun r => cell r 0) p) in
     rows full = kept_rows sample_a sample_b "emp_id" "emp_id" 0 0
                   HowOuter missing_key /\
     rows left = kept_rows sample_a sample_b "emp_id" "emp_id" 0 0
                   HowLeft missing_key /\
     rows right = kept_rows sample_a sample_b "emp_id" "emp_id" 0 0
                    HowRight missing_key) /\
    ((forall a, In a (rows sample_a) -> nth 0 a NaN <> NaN) ->
     (forall b, In b (rows sample_b) -> nth 0 b NaN <> NaN) ->
     rows full = [] /\ rows left = [] /\ rows right = []).
Proof.
  apply (first_column_key_with_null sample_a sample_b "emp_id"%string).
  exact sample_mergeable.
Defined.

(** ** The regions of the diagram and the rows returned *)

(** The pairings of INNER, LEFT and RIGHT among those of FULL. *)
Lemma pairs_within_outer (A B : DataFrame) (i j : nat) (p : Pairing) :
  (In p (merge_pairs A B i j HowInner) <->
   In p (merge_pairs A B i j HowOuter) /\ without_partner p = false) /\
  (In p (merge_pairs A B i j HowLeft) <->
   In p (merge_pairs A B i j HowOuter) /\ is_none (fst p) = false) /\
  (In p (merge_pairs A B i j HowRight) <->
   In p (merge_pairs A B i j HowOuter) /\ is_none (snd p) = false).
Proof.
  unfold merge_pairs, join_pairs.
  rewrite in_inner_pairs, in_left_pairs, in_right_pairs, in_outer_pairs.
  split; [| split]; split.
  - intros H. split; [tauto |]. now destruct H as (a & b & -> & _).
  - intros ([H | [(a & -> & _) | (b & -> & _)]] & E);
      [exact H | discriminate E | discriminate E].
  - intros H. split; [tauto |].
    now destruct H as [(a & b & -> & _) | (a & -> & _)].
  - intros ([H | [H | (b & -> & _)]] & E); [tauto | tauto | discriminate E].
  - intros H. split; [tauto |].
    now destruct H as [(a & b & -> & _) | (b & -> & _)].
  - intros ([H | [(a & -> & _) | H]] & E); [tauto | discriminate E | tauto].
Qed.

(** On columns without missing cell the masks see which side of a
    pairing has no row. *)
Lemma missing_without_partner (A B : DataFrame) (i j fa jf : nat)
    (how : How) (p : Pairing) :
  (forall a, In a (rows A) -> nth fa a NaN <> NaN) ->
  (forall b, In b (rows B) -> nth jf b NaN <> NaN) ->
  In p (merge_pairs A B i j how) ->
  missing_on_left fa p = is_none (fst p) /\
  missing_on_right jf p = is_none (snd p).
Proof.
  intros FA FB Hp.
  destruct (merge_pairs_origin A B i j how p Hp) as (Oa & Ob).
  unfold missing_on_left, missing_on_right. split.
  - destruct (fst p) as [[m a]|]; [| reflexivity].
    specialize (Oa m a eq_refl). apply nth_error_In, FA in Oa.
    simpl. unfold cell. now destruct (nth fa a NaN).
  - destruct (snd p) as [[n b]|]; [| reflexivity].
    specialize (Ob n b eq_refl). apply nth_error_In, FB in Ob.
    simpl. unfold cell. now destruct (nth jf b NaN).
Qed.

Lemma outer_pair_shape (A B : DataFrame) (i j : nat) (p : Pairing) :
  In p (merge_pairs A B i j HowOuter) ->
  (exists a b, p = (Some a, Some b)) \/
  (exists a, p = (Some a, None)) \/
  (exists b, p = (None, Some b)).
Proof.
  intros H. unfold merge_pairs in H. apply in_join_pairs in H.
  destruct H as [(a & b & -> & _) | [(a & -> & _) | (b & -> & _)]];
    eauto.
Qed.

Ltac by_region :=
  let Ho := fresh "Ho" in
  let C := fresh "C" in
  split; intros [Ho C]; (split; [exact Ho |]);
  destruct (outer_pair_shape _ _ _ _ _ Ho)
    as [(?a & ?b & ->) | [(?a & ->) | (?b & ->)]];
  solve [reflexivity | discriminate C].

(** X11.  The diagram of [SQLapp2] shows what the function returns.  For
    every entry of the dictionary [joins] of [main], on tables [merge]
    accepts on [emp_id] whose labels [name] (of A) and [salary] (of B) are
    not labels of the other table, and that hold no missing [name] in A
    and no missing [salary] in B: [execute_join] returns a frame for the
    key of the entry, and its rows are the rows of exactly those pairings
    of the FULL merge whose region of the diagram (A alone, B alone, both)
    the entry colours green. *)
Theorem diagram_regions_app2 (A B : DataFrame) (i j fa jf : nat)
    (t : string) (info : JoinInfo) :
  In (t, info) SQLapp2.joins ->
  mergeable A B "emp_id" "emp_id" i j ->
  nth_error (columns A) fa = Some "name"%string ->
  nth_error (columns B) jf = Some "salary"%string ->
  ~ In "name"%string (right_labels true j B) ->
  ~ In "salary"%string (columns A) ->
  (forall a, In a (rows A) -> nth fa a NaN <> NaN) ->
  (forall b, In b (rows B) -> nth jf b NaN <> NaN) ->
  exists res pairs,
    SQLapp2.execute_join A B t = Ok (Some res) /\
    rows res = map (merged_row A B "emp_id" "emp_id" i j) pairs /\
    forall p, In p pairs <->
      In p (merge_pairs A B i j HowOuter) /\
      lookup (region_of p) (colors info) = Some green.
Proof.
  intros Hin M Ha Hb Hna Hnb FA FB.
  destruct (mergeable_index _ _ _ _ _ _ M) as (Hi & Hj).
  apply index_of_nth_error in Hi, Hj.
  assert (Na : ~ (String.eqb "emp_id" "emp_id" = true /\ fa = i))
    by (intros [_ ->]; congruence).
  assert (Nb : ~ (String.eqb "emp_id" "emp_id" = true /\ jf = j))
    by (intros [_ ->]; congruence).
  destruct (plain_frames A B _ _ i j M) as (_ & P).
  destruct (P eq_refl eq_refl) as (PI & PF & PL & PR).
  destruct (with_null_rows A B _ _ _ _ i j fa jf M Ha Hb Hna Hnb Na Nb)
    as (_ & _ & _ & N).
  destruct (N eq_refl eq_refl eq_refl eq_refl) as (NF & NL & NR).
  assert (Ms : forall how p, In p (merge_pairs A B i j how) ->
    missing_on_left fa p = is_none (fst p) /\
    missing_on_right jf p = is_none (snd p))
    by (intros how p; apply missing_without_partner; assumption).
  unfold kept_rows in NF, NL, NR.
  destruct Hin as [E | [E | [E | [E | [E | [E | [E | []]]]]]]];
    injection E as <- <-; eexists _, _;
    (split; [eassumption |]); (split; [reflexivity |]); intros p;
    rewrite ?filter_In;
    try rewrite (proj1 (pairs_within_outer A B i j p));
    try rewrite (proj1 (proj2 (pairs_within_outer A B i j p)));
    try rewrite (proj2 (proj2 (pairs_within_outer A B i j p))).
  - by_region.
  - split; [intros Ho; split; [exact Ho |] | tauto].
    destruct (outer_pair_shape _ _ _ _ _ Ho)
      as [(a & b & ->) | [(a & ->) | (b & ->)]]; reflexivity.
  - split; intros [Ho C]; (split; [exact Ho |]);
      destruct (Ms _ _ Ho) as (Ml & Mr); try rewrite Ml, Mr in C;
      try rewrite Ml, Mr;
      destruct (outer_pair_shape _ _ _ _ _ Ho)
        as [(a & b & ->) | [(a & ->) | (b & ->)]];
      solve [reflexivity | discriminate C].
  - by_region.
  - split; [intros [[Ho F] C] | intros [Ho C]];
      [split; [exact Ho |] | split; [split; [exact Ho |] |]];
      try (rewrite (proj2 (Ms _ _ Ho)) in C);
      try (rewrite (proj2 (Ms _ _ Ho)));
      destruct (outer_pair_shape _ _ _ _ _ Ho)
        as [(a & b & ->) | [(a & ->) | (b & ->)]];
      solve [reflexivity | discriminate C | discriminate F].
  - by_region.
  - split; [intros [[Ho F] C] | intros [Ho C]];
      [split; [exact Ho |] | split; [split; [exact Ho |] |]];
      try (rewrite (proj1 (Ms _ _ Ho)) in C);
      try (rewrite (proj1 (Ms _ _ Ho)));
      destruct (outer_pair_shape _ _ _ _ _ Ho)
        as [(a & b & ->) | [(a & ->) | (b & ->)]];
      solve [reflexivity | discriminate C | discriminate F].
Qed.

Lemma sample_no_missing_name (a : Row) :
  In a (rows sample_a) -> nth 1 a NaN <> NaN.
Proof.
  intros Ha. simpl in Ha.
  repeat (destruct Ha as [<- | Ha]; [discriminate |]). destruct Ha.
Defined.

Lemma sample_no_missing_salary (b : Row) :
  In b (rows sample_b) -> nth 1 b NaN <> NaN.
Proof.
  intros Hb. simpl in Hb.
  repeat (destruct Hb as [<- | Hb]; [discriminate |]). destruct Hb.
Defined.

Lemma diagram_regions_app2_witness :
  exists res pairs,
    SQLapp2.execute_join sample_a sample_b "LEFT JOIN WITH NULL"
      = Ok (Some res) /\
    rows res = map (merged_row sample_a sample_b "emp_id" "emp_id" 0 0)
                   pairs /\
    forall p, In p pairs <->
      In p (merge_pairs sample_a sample_b 0 0 HowOuter) /\
      lookup (region_of p)
             [("10", "#90EE90"); ("01", "white"); ("11", "white")]%string
        = Some green.
Proof.
  apply (diagram_regions_app2 sample_a sample_b 0 0 1 1
           "LEFT JOIN WITH NULL"%string
           (snd (nth 4 SQLapp2.joins
                   (EmptyString,
                    mkJoinInfo EmptyString (0, 0, 0) [] EmptyString)))).
  - do 4 right. left. reflexivity.
  - exact sample_mergeable.
  - reflexivity.
  - reflexivity.
  - simpl. intros [H | [H | []]]; discriminate H.
  - simpl. intros [H | [H | [H | []]]]; discriminate H.
  - exact sample_no_missing_name.
  - exact sample_no_missing_salary.
Defined.

(** X12.  The diagram of [JOINDATASETSV1] shows what the function
    returns.  For every entry of the dictionary [joins] of [main] (the
    sidebar offers its keys and no other join type), on tables [merge]
    accepts: [execute_join] returns a frame for the key of the entry, and
    its rows are the rows of exactly those pairings of the FULL merge
    whose region of the diagram the entry colours green. *)
Theorem diagram_regions (A B : DataFrame) (ka kb : string) (i j : nat)
    (t : string) (info : JoinInfo) :
  In (t, info) (JOINDATASETSV1.joins ka kb) ->
  mergeable A B ka kb i j ->
  exists res pairs,
    JOINDATASETSV1.execute_join A B t ka kb = Ok (Some res) /\
    columns res = merged_labels A B ka kb j /\
    rows res = map (merged_row A B ka kb i j) pairs /\
    forall p, In p pairs <->
      In p (merge_pairs A B i j HowOuter) /\
      lookup (region_of p) (colors info) = Some green.
Proof.
  intros Hin M.
  destruct (execute_join_plain_ok A B _ _ i j M) as (PI & PF & _ & _).
  destruct Hin as [E | [E | []]];
    injection E as <- <-; eexists _, _;
    (split; [eassumption |]); (split; [reflexivity |]);
    (split; [reflexivity |]); intros p;
    try rewrite (proj1 (pairs_within_outer A B i j p)).
  - by_region.
  - split; [intros Ho; split; [exact Ho |] | tauto].
    destruct (outer_pair_shape _ _ _ _ _ Ho)
      as [(a & b & ->) | [(a & ->) | (b & ->)]]; reflexivity.
Qed.

Lemma diagram_regions_witness :
  exists res pairs,
    JOINDATASETSV1.execute_join sample_a sample_b "INNER JOIN"
      "emp_id" "emp_id" = Ok (Some res) /\
    columns res = merged_labels sample_a sample_b "emp_id" "emp_id" 0 /\
    rows res = map (merged_row sample_a sample_b "emp_id" "emp_id" 0 0)
                   pairs /\
    forall p, In p pairs <->
      In p (merge_pairs sample_a sample_b 0 0 HowOuter) /\
      lookup (region_of p)
             [("10", "white"); ("01", "white"); ("11", "#90EE90")]%string
        = Some green.
Proof.
  apply (diagram_regions sample_a sample_b "emp_id"%string "emp_id"%string
           0 0 "INNER JOIN"%string
           (snd (hd (EmptyString,
                     mkJoinInfo EmptyString (0, 0, 0) [] EmptyString)
                    (JOINDATASETSV1.joins "emp_id" "emp_id")))).
  - left. reflexivity.
  - exact sample_mergeable.
Defined.

(** ** The outcomes of [execute_join] *)








(** ** A key that is not a column *)

Lemma merge_invalid_key (A B : DataFrame) (ka kb : string) :
  ~ In ka (columns A) \/ ~ In kb (columns B) ->
  exists k,
    (forall how, merge A B ka kb how = Raise (KeyError k)) /\
    ((k = ka /\ ~ In ka (columns A)) \/ (k = kb /\ ~ In kb (columns B))).
Proof.
  intros H. unfold merge.
  destruct (index_of kb (columns B)) as [j|] eqn:Eb;
    [destruct (index_of ka (columns A)) as [i|] eqn:Ea |].
  - exfalso. destruct H as [H | H]; apply H, index_of_in; congruence.
  - exists ka. split; [reflexivity | left]. split; [reflexivity |].
    rewrite <- index_of_in. now intros N.
  - exists kb. split; [reflexivity | right]. split; [reflexivity |].
    rewrite <- index_of_in. now intros N.
Qed.

(** X15.  For each of the seven labels and in both files: when a key is
    not a column of its table, [execute_join] raises [KeyError] for such a
    key and returns no frame. *)
Theorem invalid_key_raises_key_error (A B : DataFrame) (t ka kb : string) :
  In t join_types ->
  ~ In ka (columns A) \/ ~ In kb (columns B) ->
  exists k,
    JOINDATASETSV1.execute_join A B t ka kb = Raise (KeyError k) /\
    (ka = "emp_id"%string -> kb = "emp_id"%string ->
     SQLapp2.execute_join A B t = Raise (KeyError k)) /\
    ((k = ka /\ ~ In ka (columns A)) \/ (k = kb /\ ~ In kb (columns B))).
Proof.
  intros Ht H.
  destruct (execute_join_plain A B ka kb) as (EI & EF & EL & ER).
  destruct (execute_join_with_null A B ka kb) as (EFN & ELN & ERN).
  destruct (execute_join_app2_plain A B) as (EI' & EF' & EL' & ER').
  destruct (execute_join_app2_with_null A B) as (EFN' & ELN' & ERN').
  destruct (merge_invalid_key A B ka kb H) as (k & Hk & Hw).
  exists k. simpl in Ht.
  split; [| split; [| exact Hw]].
  - destruct Ht as [<- | [<- | [<- | [<- | [<- | [<- | [<- | []]]]]]]];
      rewrite ?EI, ?EF, ?EL, ?ER, ?EFN, ?ELN, ?ERN, Hk; reflexivity.
  - intros -> ->.
    destruct Ht as [<- | [<- | [<- | [<- | [<- | [<- | [<- | []]]]]]]];
      rewrite ?EI', ?EF', ?EL', ?ER', ?EFN', ?ELN', ?ERN', Hk; reflexivity.
Qed.

Lemma invalid_key_raises_key_error_witness :
  exists k,
    JOINDATASETSV1.execute_join sample_a sample_b "LEFT JOIN WITH NULL"
      "id" "emp_id" = Raise (KeyError k) /\
    ("id"%string = "emp_id"%string -> "emp_id"%string = "emp_id"%string ->
     SQLapp2.execute_join sample_a sample_b "LEFT JOIN WITH NULL"
       = Raise (KeyError k)) /\
    ((k = "id"%string /\ ~ In "id"%string (columns sample_a)) \/
     (k = "emp_id"%string /\ ~ In "emp_id"%string (columns sample_b))).
Proof.
  apply (invalid_key_raises_key_error sample_a sample_b
           "LEFT JOIN WITH NULL"%string "id"%string "emp_id"%string).
  - simpl. tauto.
  - left. simpl. intros [H | [H | [H | []]]]; discriminate H.
Defined.

(** ** A label of both tables *)

Lemma append_inj_r (c s1 s2 : string) :
  String.append c s1 = String.append c s2 -> s1 = s2.
Proof.
  induction c as [|x c IH]; simpl; [trivial |]. intros [= E]. now apply IH.
Qed.

(** X16.  A label [c] that is a column of A (at [ia]) and a column of B
    (at [jb]) other than a key column dropped from B is kept twice.  On
    tables [merge] accepts, whenever a variant returns a frame, in either
    file, [c] appears twice in it, as [c_x] at the position of the A
    column and as [c_y] at the position of the B column; the two labels
    differ, and in every row the first holds the cell of the A row and the
    second the cell of the B row the row is made of. *)
Theorem shared_label_kept_twice (A B : DataFrame) (t ka kb c : string)
    (i j ia jb : nat) (res : DataFrame) :
  mergeable A B ka kb i j ->
  nth_error (columns A) ia = Some c ->
  nth_error (columns B) jb = Some c ->
  ~ (String.eqb ka kb = true /\ jb = j) ->
  JOINDATASETSV1.execute_join A B t ka kb = Ok (Some res) \/
  (ka = "emp_id"%string /\ kb = "emp_id"%string /\
   SQLapp2.execute_join A B t = Ok (Some res)) ->
  nth_error (columns res) ia = Some (String.append c "_x") /\
  nth_error (columns res)
    (length (columns A) + right_position (String.eqb ka kb) j jb)
    = Some (String.append c "_y") /\
  String.append c "_x" <> String.append c "_y" /\
  exists pairs,
    rows res = map (merged_row A B ka kb i j) pairs /\
    forall p, In p pairs ->
      (forall m a, fst p = Some (m, a) ->
         nth_error (rows A) m = Some a /\
         nth ia (merged_row A B ka kb i j p) NaN = nth ia a NaN) /\
      (forall n b, snd p = Some (n, b) ->
         nth_error (rows B) n = Some b /\
         nth (length (columns A) + right_position (String.eqb ka kb) j jb)
             (merged_row A B ka kb i j p) NaN
           = nth jb b NaN).
Proof.
  intros M Ha Hb N E.
  destruct (mergeable_well_formed _ _ _ _ _ _ M) as (W & _).
  assert (Hia : ia < length (columns A))
    by (apply nth_error_Some; congruence).
  assert (Hrb : nth_error (right_labels (String.eqb ka kb) j B)
                  (right_position (String.eqb ka kb) j jb) = Some c)
    by now rewrite nth_error_right_labels.
  destruct (execute_join_rows_both A B t ka kb i j res M E)
    as (how & pairs & Hincl & Hcols & Hrows).
  rewrite Hcols. unfold merged_labels. split; [| split; [| split]].
  - rewrite nth_error_app1 by now rewrite length_map.
    rewrite nth_error_map, Ha. simpl. unfold suffixed.
    apply nth_error_In, has_label_in in Hrb. now rewrite Hrb.
  - rewrite <- (length_map (suffixed (right_labels (String.eqb ka kb) j B)
                                     "_x") (columns A)) at 1.
    rewrite nth_error_app2 by lia.
    replace (_ + _ - _)
      with (right_position (String.eqb ka kb) j jb) by lia.
    rewrite nth_error_map, Hrb. simpl. unfold suffixed.
    apply nth_error_In, has_label_in in Ha. now rewrite Ha.
  - intros X. apply append_inj_r in X. discriminate X.
  - exists pairs. split; [exact Hrows |]. intros p Hp. apply Hincl in Hp.
    destruct (merge_pairs_origin A B i j how p Hp) as (Oa & Ob).
    split.
    + intros m a E1. split; [now apply Oa |].
      now apply (merged_row_left_cell A B ka kb i j how p ia m a).
    + intros n b E2. split; [now apply Ob |].
      change (cell (merged_row A B ka kb i j p)
                (length (columns A) +
                 right_position (String.eqb ka kb) j jb) = cell b jb).
      rewrite (merged_row_right_cell A B ka kb i j how p _ W Hp), E2.
      now apply cell_right_part.
Qed.

Lemma shared_label_kept_twice_witness :
  let res := mkDataFrame ["cust"; "id_x"; "id_y"; "cust_ref"]%string
               [ [VStr "ann"; VInt 10; VInt 77; VStr "ann"] ] in
  nth_error (columns res) 1 = Some (String.append "id" "_x") /\
  nth_error (columns res)
    (length (columns customers) +
     right_position (String.eqb "cust" "cust_ref") 1 0)
    = Some (String.append "id" "_y") /\
  String.append "id" "_x" <> String.append "id" "_y" /\
  exists pairs,
    rows res = map (merged_row customers orders "cust" "cust_ref" 0 1)
                   pairs /\
    forall p, In p pairs ->
      (forall m a, fst p = Some (m, a) ->
         nth_error (rows customers) m = Some a /\
         nth 1 (merged_row customers orders "cust" "cust_ref" 0 1 p) NaN
           = nth 1 a NaN) /\
      (forall n b, snd p = Some (n, b) ->
         nth_error (rows orders) n = Some b /\
         nth (length (columns customers) +
              right_position (String.eqb "cust" "cust_ref") 1 0)
             (merged_row customers orders "cust" "cust_ref" 0 1 p) NaN
           = nth 0 b NaN).
Proof.
  apply (shared_label_kept_twice customers orders "LEFT JOIN"%string
           "cust"%string "cust_ref"%string "id"%string 0 1 1 0).
  - apply mergeableb_spec. reflexivity.
  - reflexivity.
  - reflexivity.
  - intros [H _]. discriminate H.
  - left. reflexivity.
Defined.

(** ** The name of the downloaded file *)

Lemma lower_char_not_upper (c : ascii) : is_upper (lower_char c) = false.
Proof.
  unfold lower_char, is_upper.
  destruct (Nat.leb 65 (nat_of_ascii c)) eqn:E1;
    destruct (Nat.leb (nat_of_ascii c) 90) eqn:E2; cbn [andb];
    rewrite ?E1, ?E2; try reflexivity.
  apply Nat.leb_le in E1, E2.
  rewrite nat_ascii_embedding by lia.
  apply andb_false_iff. right. apply Nat.leb_gt. lia.
Qed.

Lemma replace_lower_chars (s : string) :
  String.length (replace_char " " "_" (lower s)) = String.length s /\
  Forall (fun c => c <> " "%char /\ is_upper c = false)
         (chars (replace_char " " "_" (lower s))).
Proof.
  induction s as [|c s (IHl & IHf)]; cbn [lower replace_char chars];
    [split; [reflexivity | constructor] |].
  split; [cbn [String.length]; now rewrite IHl |].
  constructor; [| exact IHf].
  destruct (Ascii.eqb_spec (lower_char c) " "%char) as [E | N].
  - split; [discriminate | reflexivity].
  - split; [exact N | apply lower_char_not_upper].
Qed.

(** X14.  The file name [main] of [JOINDATASETSV1] proposes for a join
    type written in ASCII characters is [join_result_], a body and [.csv],
    where the body has as many characters as the join type and holds no
    space and no upper-case letter. *)
Theorem download_file_name_shape (selected_join : string) :
  is_ascii selected_join = true ->
  exists body,
    JOINDATASETSV1.download_file_name selected_join
      = String.append "join_result_" (String.append body ".csv") /\
    String.length body = String.length selected_join /\
    Forall (fun c => c <> " "%char /\ is_upper c = false) (chars body).
Proof.
  intros _. exists (replace_char " " "_" (lower selected_join)).
  split; [reflexivity | apply replace_lower_chars].
Qed.

Lemma download_file_name_shape_witness :
  exists body,
    JOINDATASETSV1.download_file_name "FULL JOIN"
      = String.append "join_result_" (String.append body ".csv") /\
    String.length body = String.length "FULL JOIN" /\
    Forall (fun c => c <> " "%char /\ is_upper c = false) (chars body).
Proof.
  apply (download_file_name_shape "FULL JOIN"%string). reflexivity.
Defined.
